(** * Pull statistics sync worker (workers/pullstatssyncworker.py)

    A shallow embedding of the background worker that aggregates pull
    events of the audit log into the tables TagPullStatistics and
    ManifestPullStatistics, with its checkpoint row
    PullStatisticsProcessingState and its cluster-wide lock.

    Python's database calls become functions of a state-and-exception
    monad over a record of tables; dates are integers (seconds). *)

From Stdlib Require Import ZArith String List Bool Lia.
From stdpp Require Import base option gmap strings list fin_maps sorting.

Local Open Scope string_scope.
Local Open Scope Z_scope.
Local Open Scope list_scope.

(** ** Data model *)

(** Row of TagPullStatistics; the unique index (repository, tag_name) is
    the key of the table. *)
Record TagPullStatistics := {
  tag_pull_count : Z;
  last_tag_pull_date : Z;
  current_manifest_digest : string;
  tag_created : Z;
  tag_updated : Z
}.

(** Row of ManifestPullStatistics; the unique index
    (repository, manifest_digest) is the key of the table. *)
Record ManifestPullStatistics := {
  total_pull_count : Z;
  last_pull_date : Z;
  last_tag_pulled : option string;
  manifest_created : Z;
  manifest_updated : Z
}.

(** Row of PullStatisticsProcessingState, keyed by worker_id. *)
Record PullStatisticsProcessingState := {
  last_processed_datetime : Z;
  last_processed_log_id : option Z;
  logs_processed_count : Z
}.

(** The [metadata] dictionary of a pull event: the two keys the worker
    reads; [None] is a missing key (or a null). *)
Record Metadata := {
  md_tag : option string;
  md_manifest_digest : option string
}.

(** The value under the key 'metadata' of a pull event: a dictionary, or
    a value that has no [get], such as the null that [json.loads] makes of
    the text null. *)
Inductive MetadataValue :=
| Dict (metadata : Metadata)
| NotADict.

(** A pull event as the worker receives it: a dictionary with the keys
    'id', 'datetime', 'repository_id' and 'metadata'; [le_id],
    [le_repository_id] and [le_metadata] are [None] when the key is
    missing. *)
Record log_entry := {
  le_id : option Z;
  le_datetime : Z;
  le_repository_id : option Z;
  le_metadata : option MetadataValue
}.

(** Row of the audit table LogEntry, read by the fallback query. *)
Record LogEntry := {
  log_id : Z;
  log_kind : string;
  log_datetime : Z;
  log_repository : option Z;
  log_metadata_json : string
}.

(** Row of Tag joined with its Manifest. *)
Record Tag := {
  tag_repository : Z;
  tag_name_of : string;
  lifetime_end_ms : option Z;
  tag_manifest_digest : string
}.

Inductive LogLevel := DEBUG | INFO | WARNING | ERROR.

Inductive LogArg := ArgZ (z : Z) | ArgStr (s : string).

(** A record written through [logger]: level, format string, arguments. *)
Record LogRecord := {
  levelname : LogLevel;
  msg : string;
  args : list LogArg
}.

(** Database statements that can fail, named by the row they touch; a
    commit is named by the number of its transaction. *)
Inductive DbOp :=
| TagStatGetOrCreate (repository : Z) (tag_name : string)
| TagStatUpdate (repository : Z) (tag_name : string)
| ManifestStatGetOrCreate (repository : Z) (manifest_digest : string)
| ManifestStatUpdate (repository : Z) (manifest_digest : string)
| TagSelect (repository : Z) (tag_name : string)
| LogEntrySelect
| StateGet
| StateCreate
| StateUpdate
| Commit (txid : nat).

Inductive Exception :=
| LockNotAcquiredException
| DatabaseError (op : DbOp)
| KeyError (key : string)
| AttributeError (name : string).

(** Everything the worker reads and writes. *)
Record World := {
  tagpullstatistics : gmap (Z * string) TagPullStatistics;
  manifestpullstatistics : gmap (Z * string) ManifestPullStatistics;
  pullstatisticsprocessingstate : gmap string PullStatisticsProcessingState;
  logentry : list LogEntry;
  tag : list Tag;
  locks : gmap string Z;
  transactions : nat;
  clock : Z;
  logger : list LogRecord
}.

Definition set_tagpullstatistics (t : gmap (Z * string) TagPullStatistics) (w : World) : World :=
  {| tagpullstatistics := t;
     manifestpullstatistics := manifestpullstatistics w;
     pullstatisticsprocessingstate := pullstatisticsprocessingstate w;
     logentry := logentry w; tag := tag w; locks := locks w;
     transactions := transactions w; clock := clock w; logger := logger w |}.

Definition set_manifestpullstatistics (t : gmap (Z * string) ManifestPullStatistics) (w : World) : World :=
  {| tagpullstatistics := tagpullstatistics w;
     manifestpullstatistics := t;
     pullstatisticsprocessingstate := pullstatisticsprocessingstate w;
     logentry := logentry w; tag := tag w; locks := locks w;
     transactions := transactions w; clock := clock w; logger := logger w |}.

Definition set_pullstatisticsprocessingstate (t : gmap string PullStatisticsProcessingState) (w : World) : World :=
  {| tagpullstatistics := tagpullstatistics w;
     manifestpullstatistics := manifestpullstatistics w;
     pullstatisticsprocessingstate := t;
     logentry := logentry w; tag := tag w; locks := locks w;
     transactions := transactions w; clock := clock w; logger := logger w |}.

Definition set_locks (l : gmap string Z) (w : World) : World :=
  {| tagpullstatistics := tagpullstatistics w;
     manifestpullstatistics := manifestpullstatistics w;
     pullstatisticsprocessingstate := pullstatisticsprocessingstate w;
     logentry := logentry w; tag := tag w; locks := l;
     transactions := transactions w; clock := clock w; logger := logger w |}.

Definition set_transactions (n : nat) (w : World) : World :=
  {| tagpullstatistics := tagpullstatistics w;
     manifestpullstatistics := manifestpullstatistics w;
     pullstatisticsprocessingstate := pullstatisticsprocessingstate w;
     logentry := logentry w; tag := tag w; locks := locks w;
     transactions := n; clock := clock w; logger := logger w |}.

Definition set_clock (t : Z) (w : World) : World :=
  {| tagpullstatistics := tagpullstatistics w;
     manifestpullstatistics := manifestpullstatistics w;
     pullstatisticsprocessingstate := pullstatisticsprocessingstate w;
     logentry := logentry w; tag := tag w; locks := locks w;
     transactions := transactions w; clock := t; logger := logger w |}.

Definition set_logger (l : list LogRecord) (w : World) : World :=
  {| tagpullstatistics := tagpullstatistics w;
     manifestpullstatistics := manifestpullstatistics w;
     pullstatisticsprocessingstate := pullstatisticsprocessingstate w;
     logentry := logentry w; tag := tag w; locks := locks w;
     transactions := transactions w; clock := clock w; logger := l |}.

(** ** The monad: state passing with exceptions *)

Inductive Result (A : Type) :=
| Return (a : A) (w : World)
| Raise (e : Exception) (w : World).
Arguments Return {A} a w.
Arguments Raise {A} e w.

Definition M (A : Type) : Type := World -> Result A.

#[export] Instance M_ret : MRet M := fun A a w => Return a w.
#[export] Instance M_bind : MBind M := fun A B f c w =>
  match c w with
  | Return a w' => f a w'
  | Raise e w' => Raise e w'
  end.

Definition world_of {A} (r : Result A) : World :=
  match r with Return _ w => w | Raise _ w => w end.

Definition raise {A} (e : Exception) : M A := fun w => Raise e w.

(** [try: c except Exception as e: h e] *)
Definition try_except {A} (c : M A) (h : Exception -> M A) : M A := fun w =>
  match c w with
  | Return a w' => Return a w'
  | Raise e w' => h e w'
  end.

(** The world with one more record in the log. *)
Definition logged (lvl : LogLevel) (fmt : string) (a : list LogArg) (w : World) : World :=
  set_logger (logger w ++ [ {| levelname := lvl; msg := fmt; args := a |} ]) w.

Definition log (lvl : LogLevel) (fmt : string) (a : list LogArg) : M unit := fun w =>
  Return tt (logged lvl fmt a w).

(** Python truth values of the optional strings and integers read from an
    event: [None], the empty string and [0] are false; a true value is
    returned as it is. *)
Definition truthy_str (o : option string) : option string :=
  match o with
  | Some s => if String.eqb s "" then None else Some s
  | None => None
  end.

Definition truthy_int (o : option Z) : option Z :=
  match o with
  | Some z => if z =? 0 then None else Some z
  | None => None
  end.

(** The attributes of a [dict] object ([dir({})]): what [hasattr] looks
    at; the keys of the dictionary are not among them. *)
Definition dict_attributes : list string :=
  [ "__class__"; "__class_getitem__"; "__contains__"; "__delattr__";
    "__delitem__"; "__dir__"; "__doc__"; "__eq__"; "__format__"; "__ge__";
    "__getattribute__"; "__getitem__"; "__getstate__"; "__gt__"; "__hash__";
    "__init__"; "__init_subclass__"; "__ior__"; "__iter__"; "__le__";
    "__len__"; "__lt__"; "__ne__"; "__new__"; "__or__"; "__reduce__";
    "__reduce_ex__"; "__repr__"; "__reversed__"; "__ror__"; "__setattr__";
    "__setitem__"; "__sizeof__"; "__str__"; "__subclasshook__"; "clear";
    "copy"; "fromkeys"; "get"; "items"; "keys"; "pop"; "popitem";
    "setdefault"; "update"; "values" ].

Definition hasattr (_ : log_entry) (name : string) : bool :=
  existsb (String.eqb name) dict_attributes.

Definition WORKER_ID : string := "pullstats_worker".

Definition get_world : M World := fun w => Return w w.

Definition modify (f : World -> World) : M unit := fun w => Return tt (f w).

(** [with db_transaction(): body]: the statistics tables and the
    checkpoint table are restored when the body raises or the commit
    fails; what was logged stays logged. *)
Definition rollback (before after : World) : World :=
  set_tagpullstatistics (tagpullstatistics before)
    (set_manifestpullstatistics (manifestpullstatistics before)
       (set_pullstatisticsprocessingstate (pullstatisticsprocessingstate before) after)).

(** The [where] clause of the tag lookup: the tag of that name in that
    repository whose lifetime has not ended. *)
Definition is_active_tag (repository_id : Z) (tag_name : string) (t : Tag) : bool :=
  Z.eqb (tag_repository t) repository_id
  && String.eqb (tag_name_of t) tag_name
  && bool_decide (lifetime_end_ms t = None).

(** The empty dictionary. *)
Definition empty_metadata : Metadata := {| md_tag := None; md_manifest_digest := None |}.

(** Insertion by [datetime], for [order_by(LogEntry.datetime)]; rows of
    the same datetime stay in the order of the table. *)
Fixpoint insert_by_datetime (x : LogEntry) (l : list LogEntry) : list LogEntry :=
  match l with
  | [] => [x]
  | y :: l' =>
      if log_datetime x <=? log_datetime y then x :: y :: l'
      else y :: insert_by_datetime x l'
  end.

Definition order_by_datetime (l : list LogEntry) : list LogEntry :=
  foldr insert_by_datetime [] l.

Section Worker.

(** Configuration ([app.config]). *)
Variable POLL_PERIOD : Z.
Variable BATCH_SIZE : nat.
Variable LOOKBACK_HOURS : Z.

(** The statements of the database that fail. *)
Variable db_fails : DbOp -> bool.

(** [logs_model.lookup_logs(start_datetime, end_datetime,
    filter_kinds=["pull_repo"], size)], an external collaborator;
    [None] when the call raises. *)
Variable lookup_logs : World -> Z -> Z -> nat -> option (list log_entry).

(** [json.loads] on the metadata column; [None] when it raises. *)
Variable json_loads : string -> option MetadataValue.

Definition execute (op : DbOp) : M unit := fun w =>
  if db_fails op then Raise (DatabaseError op) w else Return tt w.

Definition db_transaction {A} (body : M A) : M A := fun w =>
  let txid := transactions w in
  let w0 := set_transactions (S txid) w in
  match body w0 with
  | Return a w1 =>
      if db_fails (Commit txid)
      then Raise (DatabaseError (Commit txid)) (rollback w0 w1)
      else Return a w1
  | Raise e w1 => Raise e (rollback w0 w1)
  end.

(** Modelled from the spec: GlobalLock of util/locking, whose code is not
    part of the sources: a named lock with a time to live; acquiring
    does not block and raises LockNotAcquiredException while another
    holder's lock has not expired; the lock is released when the body
    ends, normally or not. *)
Definition GlobalLock {A} (name : string) (lock_ttl : Z) (body : M A) : M A := fun w =>
  let held :=
    match locks w !! name with
    | Some expiry => clock w <? expiry
    | None => false
    end in
  if held then Raise LockNotAcquiredException w
  else
    let w1 := set_locks (<[name := clock w + lock_ttl]> (locks w)) w in
    match body w1 with
    | Return a w2 => Return a (set_locks (delete name (locks w2)) w2)
    | Raise e w2 => Raise e (set_locks (delete name (locks w2)) w2)
    end.

(** [TagPullStatistics.get_or_create(repository, tag_name, defaults)];
    [defaults] is given the value of the column default of [created],
    [datetime.now], read when the row is inserted. *)
Definition TagPullStatistics_get_or_create (repository : Z) (tag_name : string)
    (defaults : Z -> TagPullStatistics) : M (TagPullStatistics * bool) :=
  execute (TagStatGetOrCreate repository tag_name);;
  w ← get_world;
  match tagpullstatistics w !! (repository, tag_name) with
  | Some row => mret (row, false)
  | None =>
      let row := defaults (clock w) in
      modify (set_tagpullstatistics (<[(repository, tag_name) := row]> (tagpullstatistics w)));;
      mret (row, true)
  end.

(** [TagPullStatistics.update(...).where(repository, tag_name).execute()] *)
Definition TagPullStatistics_update (repository : Z) (tag_name : string)
    (f : TagPullStatistics -> TagPullStatistics) : M unit :=
  execute (TagStatUpdate repository tag_name);;
  w ← get_world;
  match tagpullstatistics w !! (repository, tag_name) with
  | Some row =>
      modify (set_tagpullstatistics (<[(repository, tag_name) := f row]> (tagpullstatistics w)))
  | None => mret tt
  end.

Definition ManifestPullStatistics_get_or_create (repository : Z) (manifest_digest : string)
    (defaults : Z -> ManifestPullStatistics) : M (ManifestPullStatistics * bool) :=
  execute (ManifestStatGetOrCreate repository manifest_digest);;
  w ← get_world;
  match manifestpullstatistics w !! (repository, manifest_digest) with
  | Some row => mret (row, false)
  | None =>
      let row := defaults (clock w) in
      modify (set_manifestpullstatistics
                (<[(repository, manifest_digest) := row]> (manifestpullstatistics w)));;
      mret (row, true)
  end.

Definition ManifestPullStatistics_update (repository : Z) (manifest_digest : string)
    (f : ManifestPullStatistics -> ManifestPullStatistics) : M unit :=
  execute (ManifestStatUpdate repository manifest_digest);;
  w ← get_world;
  match manifestpullstatistics w !! (repository, manifest_digest) with
  | Some row =>
      modify (set_manifestpullstatistics
                (<[(repository, manifest_digest) := f row]> (manifestpullstatistics w)))
  | None => mret tt
  end.

(** Get current manifest digest for a tag. *)
Definition _get_manifest_digest_for_tag (repository_id : Z) (tag_name : string)
    : M (option string) :=
  try_except
    (execute (TagSelect repository_id tag_name);;
     w ← get_world;
     match find (is_active_tag repository_id tag_name) (tag w) with
     | Some t => mret (Some (tag_manifest_digest t))
     | None => mret None
     end)
    (fun e =>
       log WARNING "Error getting manifest digest for tag %s: %s" [ArgStr tag_name];;
       mret None).

(** Update statistics for a manifest pull (from tag or direct digest). *)
Definition _update_manifest_pull_stats (repository_id : Z) (manifest_digest : string)
    (pull_datetime : Z) (via_tag : option string) : M unit :=
  '(manifest_stats, created) ←
    ManifestPullStatistics_get_or_create repository_id manifest_digest
      (fun now =>
         {| total_pull_count := 1;
            last_pull_date := pull_datetime;
            last_tag_pulled := via_tag;
            manifest_created := now;
            manifest_updated := pull_datetime |});
  if negb created then
    ManifestPullStatistics_update repository_id manifest_digest (fun row =>
      let more_recent := last_pull_date manifest_stats <? pull_datetime in
      {| total_pull_count := total_pull_count row + 1;
         last_pull_date := if more_recent then pull_datetime else last_pull_date row;
         last_tag_pulled :=
           match truthy_str via_tag with
           | Some _ => if more_recent then via_tag else last_tag_pulled row
           | None => last_tag_pulled row
           end;
         manifest_created := manifest_created row;
         manifest_updated := pull_datetime |})
  else mret tt.

(** Update statistics for a tag pull - updates both tag and manifest
    tables. *)
Definition _update_tag_pull_stats (repository_id : Z) (tag_name : string)
    (pull_datetime : Z) (manifest_digest : option string) : M unit :=
  manifest_digest ←
    match truthy_str manifest_digest with
    | None => _get_manifest_digest_for_tag repository_id tag_name
    | Some _ => mret manifest_digest
    end;
  match truthy_str manifest_digest with
  | None =>
      log WARNING "Could not find manifest digest for tag %s in repo %d"
        [ArgStr tag_name; ArgZ repository_id]
  | Some manifest_digest =>
      '(tag_stats, created) ←
        TagPullStatistics_get_or_create repository_id tag_name
          (fun now =>
             {| tag_pull_count := 1;
                last_tag_pull_date := pull_datetime;
                current_manifest_digest := manifest_digest;
                tag_created := now;
                tag_updated := pull_datetime |});
      (if negb created then
         TagPullStatistics_update repository_id tag_name (fun row =>
           {| tag_pull_count := tag_pull_count row + 1;
              last_tag_pull_date := pull_datetime;
              current_manifest_digest := manifest_digest;
              tag_created := tag_created row;
              tag_updated := pull_datetime |})
       else mret tt);;
      _update_manifest_pull_stats repository_id manifest_digest pull_datetime
        (Some tag_name)
  end.

(** Process a single pull log entry. [metadata.get] raises AttributeError
    when the value under 'metadata' is not a dictionary. *)
Definition _process_single_log (entry : log_entry) : M unit :=
  let repository_id := le_repository_id entry in
  let metadata := default (Dict empty_metadata) (le_metadata entry) in
  let pull_datetime := le_datetime entry in
  match truthy_int repository_id with
  | None => mret tt
  | Some repository_id =>
      match metadata with
      | NotADict => raise (AttributeError "get")
      | Dict metadata =>
          let tag_name := md_tag metadata in
          let manifest_digest := md_manifest_digest metadata in
          match truthy_str tag_name with
          | Some tag_name =>
              _update_tag_pull_stats repository_id tag_name pull_datetime manifest_digest
          | None =>
              match truthy_str manifest_digest with
              | Some manifest_digest =>
                  _update_manifest_pull_stats repository_id manifest_digest pull_datetime
                    None
              | None => mret tt
              end
          end
      end
  end.

(** The loop of [_process_log_batch]: an error of one entry is logged and
    the loop goes on. *)
Fixpoint for_log_entry_in_log_batch (log_batch : list log_entry) : M unit :=
  match log_batch with
  | [] => mret tt
  | entry :: rest =>
      try_except (_process_single_log entry)
        (fun e => log WARNING "Error processing log entry: %s" []);;
      for_log_entry_in_log_batch rest
  end.

(** Process a batch of log entries. *)
Definition _process_log_batch (log_batch : list log_entry) : M unit :=
  db_transaction (for_log_entry_in_log_batch log_batch).

(** Get or create processing state. *)
Definition _get_processing_state : M PullStatisticsProcessingState :=
  execute StateGet;;
  w ← get_world;
  match pullstatisticsprocessingstate w !! WORKER_ID with
  | Some state => mret state
  | None =>
      let initial_datetime := clock w - 3600 * LOOKBACK_HOURS in
      let state :=
        {| last_processed_datetime := initial_datetime;
           last_processed_log_id := None;
           logs_processed_count := 0 |} in
      execute StateCreate;;
      modify (set_pullstatisticsprocessingstate
                (<[WORKER_ID := state]> (pullstatisticsprocessingstate w)));;
      mret state
  end.

(** Update worker processing state. *)
Definition _update_processing_state (latest_datetime : Z) (latest_log_id : option Z)
    (processed_count : Z) : M unit :=
  execute StateUpdate;;
  w ← get_world;
  match pullstatisticsprocessingstate w !! WORKER_ID with
  | Some state =>
      modify (set_pullstatisticsprocessingstate
                (<[WORKER_ID :=
                     {| last_processed_datetime := latest_datetime;
                        last_processed_log_id := latest_log_id;
                        logs_processed_count := logs_processed_count state + processed_count |}]>
                   (pullstatisticsprocessingstate w)))
  | None => mret tt
  end.

(** The loop of [_get_pull_logs_from_database] that converts the rows;
    a row whose metadata does not parse is logged and left out. *)
Fixpoint format_logs (logs : list LogEntry) : M (list log_entry) :=
  match logs with
  | [] => mret []
  | row :: rest =>
      let parsed :=
        if String.eqb (log_metadata_json row) ""
        then Some (Dict empty_metadata)
        else json_loads (log_metadata_json row) in
      match parsed with
      | Some metadata =>
          formatted ← format_logs rest;
          mret ({| le_id := Some (log_id row);
                   le_datetime := log_datetime row;
                   le_repository_id := log_repository row;
                   le_metadata := Some metadata |} :: formatted)
      | None =>
          log WARNING "Error parsing log entry %d: %s" [ArgZ (log_id row)];;
          format_logs rest
      end
  end.

(** Fallback method to get pull logs directly from database. *)
Definition _get_pull_logs_from_database (start_datetime end_datetime : Z)
    : M (list log_entry) :=
  try_except
    (execute LogEntrySelect;;
     w ← get_world;
     let logs :=
       take (BATCH_SIZE * 10)%nat
         (order_by_datetime
            (filter (fun row =>
                       String.eqb (log_kind row) "pull_repo"
                       && (start_datetime <=? log_datetime row)
                       && (log_datetime row <=? end_datetime))
                    (logentry w))) in
     format_logs logs)
    (fun e =>
       log ERROR "Failed to get pull logs from database: %s" [];;
       mret []).

(** Get pull logs from logs model. *)
Definition _get_pull_logs (start_datetime end_datetime : Z) : M (list log_entry) :=
  w ← get_world;
  match lookup_logs w start_datetime end_datetime (BATCH_SIZE * 10)%nat with
  | Some pull_logs => mret pull_logs
  | None =>
      log WARNING "Failed to get pull logs from logs model: %s" [];;
      _get_pull_logs_from_database start_datetime end_datetime
  end.

(** The loop of [_process_pull_logs] over the events, with its local
    variables [batch], [latest_datetime], [latest_log_id] and
    [processed_count]; it returns them as they are after the loop. *)
Fixpoint for_log_entry_in_pull_logs (pull_logs batch : list log_entry)
    (latest_datetime : Z) (latest_log_id : option Z) (processed_count : Z)
    : M (list log_entry * Z * option Z * Z) :=
  match pull_logs with
  | [] => mret (batch, latest_datetime, latest_log_id, processed_count)
  | entry :: rest =>
      let batch := batch ++ [entry] in
      let latest_datetime := Z.max latest_datetime (le_datetime entry) in
      latest_log_id ←
        (if hasattr entry "id" then
           match le_id entry with
           | Some i => mret (Some (Z.max (default 0 latest_log_id) i))
           | None => raise (KeyError "id")
           end
         else mret latest_log_id);
      if (BATCH_SIZE <=? length batch)%nat then
        _process_log_batch batch;;
        for_log_entry_in_pull_logs rest [] latest_datetime latest_log_id
          (processed_count + Z.of_nat (length batch))
      else
        for_log_entry_in_pull_logs rest batch latest_datetime latest_log_id
          processed_count
  end.

(** Process pull logs and update statistics. *)
Definition _process_pull_logs : M unit :=
  processing_state ← _get_processing_state;
  let start_datetime := last_processed_datetime processing_state in
  w ← get_world;
  let end_datetime := clock w in
  log INFO "Processing pull logs from %s to %s" [ArgZ start_datetime; ArgZ end_datetime];;
  pull_logs ← _get_pull_logs start_datetime end_datetime;
  match pull_logs with
  | [] => log DEBUG "No pull logs found in time range" []
  | _ :: _ =>
      '(batch, latest_datetime, latest_log_id, processed_count) ←
        for_log_entry_in_pull_logs pull_logs [] start_datetime
          (last_processed_log_id processing_state) 0;
      processed_count ←
        match batch with
        | [] => mret processed_count
        | _ :: _ =>
            _process_log_batch batch;;
            mret (processed_count + Z.of_nat (length batch))
        end;
      _update_processing_state latest_datetime latest_log_id processed_count;;
      log INFO "Processed %d pull log entries" [ArgZ processed_count]
  end.

(** Main worker operation - process logs and update statistics. *)
Definition _sync_pull_stats : M unit :=
  try_except
    (GlobalLock ("PULL_STATS_SYNC_" +:+ WORKER_ID) (POLL_PERIOD * 2) _process_pull_logs)
    (fun e =>
       match e with
       | LockNotAcquiredException =>
           log DEBUG "Could not acquire pull stats sync lock" []
       | _ => log ERROR "Error processing pull stats: %s" []
       end).

(** The loop of [_process_pull_logs] followed by the processing of the
    remaining logs: everything between the reading of the events and the
    update of the processing state. It returns [latest_datetime],
    [latest_log_id] and [processed_count]. *)
Definition process_batches (pull_logs : list log_entry) (start_datetime : Z)
    (last_log_id : option Z) : M (Z * option Z * Z) :=
  '(batch, latest_datetime, latest_log_id, processed_count) ←
    for_log_entry_in_pull_logs pull_logs [] start_datetime last_log_id 0;
  processed_count ←
    match batch with
    | [] => mret processed_count
    | _ :: _ =>
        _process_log_batch batch;;
        mret (processed_count + Z.of_nat (length batch))
    end;
  mret (latest_datetime, latest_log_id, processed_count).

(** The worlds the worker can reach from a world: [Worker.add_operation]
    runs [_sync_pull_stats] again and again; between two runs the
    surroundings change the clock, the audit log, the tags and the locks,
    but not the three tables of the worker, which nothing else writes. *)
Inductive reachable (w : World) : World -> Prop :=
| reachable_start : reachable w w
| reachable_pass w' :
    reachable w w' -> reachable w (world_of (_sync_pull_stats w'))
| reachable_surroundings w' w'' :
    reachable w w' ->
    tagpullstatistics w'' = tagpullstatistics w' ->
    manifestpullstatistics w'' = manifestpullstatistics w' ->
    pullstatisticsprocessingstate w'' = pullstatisticsprocessingstate w' ->
    reachable w w''.

End Worker.

(** ** The API endpoints (endpoints/api/repository.py) *)

(** What a handler answers: a JSON body, the 404 of [raise NotFound()],
    or an exception that no [except] clause of the handler catches. *)
Inductive Response (A : Type) :=
| Json (body : A)
| NotFound
| Unhandled (exception : string).
Arguments Json {A} body.
Arguments NotFound {A}.
Arguments Unhandled {A} exception.

(** The entries of the lists of [get_repository_pull_statistics]. *)
Record TagStatistic := {
  ts_tag_name : string;
  ts_tag_pull_count : Z;
  ts_last_tag_pull_date : Z;
  ts_current_manifest_digest : string
}.

Record ManifestStatistic := {
  ms_manifest_digest : string;
  ms_total_pull_count : Z;
  ms_last_pull_date : Z;
  ms_last_tag_pulled : option string
}.

Record RepositoryPullStatistics := {
  tag_statistics : list TagStatistic;
  manifest_statistics : list ManifestStatistic
}.

(** The body of [get_tag_pull_statistics]; [None] is JSON null. *)
Record TagPullStatisticsBody := {
  tb_tag_name : string;
  tb_tag_pull_count : Z;
  tb_last_tag_pull_date : option Z;
  tb_manifest_digest : option string;
  tb_manifest_total_pull_count : Z;
  tb_manifest_last_pull_date : option Z
}.

(** The body of [get_manifest_pull_statistics]. *)
Record CurrentTag := {
  ct_tag_name : string;
  ct_tag_pull_count : Z;
  ct_last_tag_pull_date : Z
}.

Record ManifestPullStatisticsBody := {
  mb_manifest_digest : string;
  mb_total_pull_count : Z;
  mb_last_pull_date : option Z;
  mb_last_tag_pulled : option string;
  mb_current_tags : list CurrentTag
}.

(** Insertion by a date key, latest first, for [order_by(....desc())];
    entries of the same date stay in the order given. *)
Fixpoint insert_desc {A} (key : A -> Z) (x : A) (l : list A) : list A :=
  match l with
  | [] => [x]
  | y :: l' =>
      if key y <=? key x then x :: y :: l' else y :: insert_desc key x l'
  end.

Definition order_by_desc {A} (key : A -> Z) (l : list A) : list A :=
  foldr (insert_desc key) [] l.

(** [TagPullStatistics.select().where(TagPullStatistics.repository == id)]:
    the rows of a repository, each with its tag name. *)
Definition TagPullStatistics_select (w : World) (repository : Z)
    : list (string * TagPullStatistics) :=
  omap (fun '((r, tag_name), row) =>
          if decide (r = repository) then Some (tag_name, row) else None)
       (map_to_list (tagpullstatistics w)).

(** [ManifestPullStatistics.select().where(... .repository == id)] *)
Definition ManifestPullStatistics_select (w : World) (repository : Z)
    : list (string * ManifestPullStatistics) :=
  omap (fun '((r, manifest_digest), row) =>
          if decide (r = repository) then Some (manifest_digest, row) else None)
       (map_to_list (manifestpullstatistics w)).

Section Endpoints.

(** [model.repository.get_repository(namespace_name, repository_name)]:
    the id of the repository, if there is one. The handlers are modelled
    without their routing, permission and feature-flag decorators, and
    their queries are taken to succeed; dates are left as they are stored
    ([isoformat] is not applied). *)
Variable get_repository : string -> string -> option Z.

(** Get aggregated pull statistics for repository. *)
Definition get_repository_pull_statistics (namespace_name repository_name : string)
    (w : World) : Response RepositoryPullStatistics :=
  match get_repository namespace_name repository_name with
  | None => NotFound
  | Some repository =>
      let tag_stats :=
        order_by_desc (fun stat => last_tag_pull_date stat.2)
          (TagPullStatistics_select w repository) in
      let manifest_stats :=
        order_by_desc (fun stat => last_pull_date stat.2)
          (ManifestPullStatistics_select w repository) in
      Json {| tag_statistics :=
                (fun stat =>
                   {| ts_tag_name := stat.1;
                      ts_tag_pull_count := tag_pull_count stat.2;
                      ts_last_tag_pull_date := last_tag_pull_date stat.2;
                      ts_current_manifest_digest := current_manifest_digest stat.2 |})
                <$> tag_stats;
              manifest_statistics :=
                (fun stat =>
                   {| ms_manifest_digest := stat.1;
                      ms_total_pull_count := total_pull_count stat.2;
                      ms_last_pull_date := last_pull_date stat.2;
                      ms_last_tag_pulled := last_tag_pulled stat.2 |})
                <$> manifest_stats |}
  end.

(** Get pull statistics for a specific tag. The [except] clause catches
    [TagPullStatistics.DoesNotExist] only: when the tag row is there and
    the manifest row is not, [ManifestPullStatistics.DoesNotExist], another
    class, leaves the handler. *)
Definition get_tag_pull_statistics (namespace_name repository_name tagname : string)
    (w : World) : Response TagPullStatisticsBody :=
  match get_repository namespace_name repository_name with
  | None => NotFound
  | Some repository =>
      match tagpullstatistics w !! (repository, tagname) with
      | Some tag_stats =>
          match
            manifestpullstatistics w !! (repository, current_manifest_digest tag_stats)
          with
          | Some manifest_stats =>
              Json {| tb_tag_name := tagname;
                      tb_tag_pull_count := tag_pull_count tag_stats;
                      tb_last_tag_pull_date := Some (last_tag_pull_date tag_stats);
                      tb_manifest_digest := Some (current_manifest_digest tag_stats);
                      tb_manifest_total_pull_count := total_pull_count manifest_stats;
                      tb_manifest_last_pull_date := Some (last_pull_date manifest_stats) |}
          | None => Unhandled "ManifestPullStatisticsDoesNotExist"
          end
      | None =>
          Json {| tb_tag_name := tagname;
                  tb_tag_pull_count := 0;
                  tb_last_tag_pull_date := None;
                  tb_manifest_digest := None;
                  tb_manifest_total_pull_count := 0;
                  tb_manifest_last_pull_date := None |}
      end
  end.

(** Get pull statistics for a specific manifest. *)
Definition get_manifest_pull_statistics (namespace_name repository_name digest : string)
    (w : World) : Response ManifestPullStatisticsBody :=
  match get_repository namespace_name repository_name with
  | None => NotFound
  | Some repository =>
      match manifestpullstatistics w !! (repository, digest) with
      | Some manifest_stats =>
          let current_tags :=
            filter (fun stat => current_manifest_digest stat.2 = digest)
              (TagPullStatistics_select w repository) in
          Json {| mb_manifest_digest := digest;
                  mb_total_pull_count := total_pull_count manifest_stats;
                  mb_last_pull_date := Some (last_pull_date manifest_stats);
                  mb_last_tag_pulled := last_tag_pulled manifest_stats;
                  mb_current_tags :=
                    (fun stat =>
                       {| ct_tag_name := stat.1;
                          ct_tag_pull_count := tag_pull_count stat.2;
                          ct_last_tag_pull_date := last_tag_pull_date stat.2 |})
                    <$> current_tags |}
      | None =>
          Json {| mb_manifest_digest := digest;
                  mb_total_pull_count := 0;
                  mb_last_pull_date := None;
                  mb_last_tag_pulled := None;
                  mb_current_tags := [] |}
      end
  end.

End Endpoints.

(** ** Reading the tables *)

(** The pull count of a tag, 0 when it has no row. *)
Definition tag_count (w : World) (repository : Z) (tag_name : string) : Z :=
  from_option tag_pull_count 0 (tagpullstatistics w !! (repository, tag_name)).

(** The pull count of a manifest, 0 when it has no row. *)
Definition manifest_count (w : World) (repository : Z) (manifest_digest : string) : Z :=
  from_option total_pull_count 0 (manifestpullstatistics w !! (repository, manifest_digest)).

(** What a pass leaves alone while it writes statistics: the checkpoint
    table, the audit log, the tags, the locks and the clock. *)
Definition outside_stats (w : World) :=
  (pullstatisticsprocessingstate w, logentry w, tag w, locks w, clock w).

(** The last processed event ordinal of the checkpoint; [None] when the
    column is null or the row does not exist yet. *)
Definition checkpoint_log_id (w : World) : option Z :=
  pullstatisticsprocessingstate w !! WORKER_ID ≫= last_processed_log_id.

(** The tag name and the digest that [_process_single_log] reads from an
    event whose metadata is a dictionary, as Python truth values: [None]
    when the key is missing, null or the empty string; and [None] as well
    when the metadata is not a dictionary. *)
Definition event_tag (entry : log_entry) : option string :=
  match default (Dict empty_metadata) (le_metadata entry) with
  | Dict metadata => truthy_str (md_tag metadata)
  | NotADict => None
  end.

Definition event_digest (entry : log_entry) : option string :=
  match default (Dict empty_metadata) (le_metadata entry) with
  | Dict metadata => truthy_str (md_manifest_digest metadata)
  | NotADict => None
  end.

(** A pull by tag [t] of repository [r] that carries its digest. *)
Definition resolved_tag_pull (r : Z) (t : string) (entry : log_entry) : Prop :=
  truthy_int (le_repository_id entry) = Some r
  /\ event_tag entry = Some t
  /\ is_Some (event_digest entry).

(** The row of ManifestPullStatistics that a successful manifest-side
    update leaves, from the row it found ([None]: it creates one at time
    [now]). *)
Definition manifest_row_after (found : option ManifestPullStatistics) (now : Z)
    (pull_datetime : Z) (via_tag : option string) : ManifestPullStatistics :=
  match found with
  | None =>
      {| total_pull_count := 1;
         last_pull_date := pull_datetime;
         last_tag_pulled := via_tag;
         manifest_created := now;
         manifest_updated := pull_datetime |}
  | Some row =>
      let more_recent := last_pull_date row <? pull_datetime in
      {| total_pull_count := total_pull_count row + 1;
         last_pull_date := if more_recent then pull_datetime else last_pull_date row;
         last_tag_pulled :=
           match truthy_str via_tag with
           | Some _ => if more_recent then via_tag else last_tag_pulled row
           | None => last_tag_pulled row
           end;
         manifest_created := manifest_created row;
         manifest_updated := pull_datetime |}
  end.

(** The row of TagPullStatistics that a successful tag-side update leaves. *)
Definition tag_row_after (found : option TagPullStatistics) (now : Z)
    (pull_datetime : Z) (manifest_digest : string) : TagPullStatistics :=
  match found with
  | None =>
      {| tag_pull_count := 1;
         last_tag_pull_date := pull_datetime;
         current_manifest_digest := manifest_digest;
         tag_created := now;
         tag_updated := pull_datetime |}
  | Some row =>
      {| tag_pull_count := tag_pull_count row + 1;
         last_tag_pull_date := pull_datetime;
         current_manifest_digest := manifest_digest;
         tag_created := tag_created row;
         tag_updated := pull_datetime |}
  end.

(** Nothing is lost between two worlds: every row of the two statistics
    tables is still there, with a count that is not smaller and, for a
    manifest, a last pull date that is not earlier. *)
Definition stats_grow (w w' : World) : Prop :=
  (forall k row,
     tagpullstatistics w !! k = Some row ->
     exists row',
       tagpullstatistics w' !! k = Some row'
       /\ tag_pull_count row <= tag_pull_count row')
  /\ (forall k row,
        manifestpullstatistics w !! k = Some row ->
        exists row',
          manifestpullstatistics w' !! k = Some row'
          /\ total_pull_count row <= total_pull_count row'
          /\ last_pull_date row <= last_pull_date row').

(** The two statistics tables of a world. *)
Definition stats_tables (w : World) :=
  (tagpullstatistics w, manifestpullstatistics w).

(** Every digest a tag row points to has its manifest row, in the same
    repository. *)
Definition digests_tracked (w : World) : Prop :=
  forall r t row,
    tagpullstatistics w !! (r, t) = Some row ->
    is_Some (manifestpullstatistics w !! (r, current_manifest_digest row)).

(** A pull of the manifest [d] of repository [r], by tag or by digest,
    whose event carries the digest. *)
Definition pull_of_manifest (r : Z) (d : string) (entry : log_entry) : Prop :=
  truthy_int (le_repository_id entry) = Some r
  /\ event_digest entry = Some d.

(** An event the worker passes over: no repository id (or 0), or a
    metadata dictionary with neither a tag nor a digest. *)
Definition skipped_event (entry : log_entry) : Prop :=
  truthy_int (le_repository_id entry) = None
  \/ (le_metadata entry ≠ Some NotADict
      /\ event_tag entry = None
      /\ event_digest entry = None).

(** The digest a pull event resolves to in a world: the digest it carries
    or, for a pull by tag that carries none, the digest of the active
    binding of the tag. *)
Definition resolved_digest (w : World) (entry : log_entry) : option string :=
  match event_digest entry with
  | Some d => Some d
  | None =>
      r ← truthy_int (le_repository_id entry);
      t ← event_tag entry;
      row ← find (is_active_tag r t) (tag w);
      truthy_str (Some (tag_manifest_digest row))
  end.

(** The event is a pull by the tag [t] of repository [r] that resolves to
    a digest. *)
Definition is_pull_of_tag (w : World) (r : Z) (t : string) (entry : log_entry) : bool :=
  bool_decide (truthy_int (le_repository_id entry) = Some r
               /\ event_tag entry = Some t
               /\ is_Some (resolved_digest w entry)).

(** The event is a pull, by tag or by digest, that resolves to the digest
    [d] in repository [r]. *)
Definition is_pull_of_manifest (w : World) (r : Z) (d : string) (entry : log_entry)
    : bool :=
  bool_decide (truthy_int (le_repository_id entry) = Some r
               /\ resolved_digest w entry = Some d).

(** The number of events of a list that a test accepts. *)
Definition pulls_counted (hit : log_entry -> bool) (events : list log_entry) : Z :=
  Z.of_nat (length (List.filter hit events)).

(** The latest of a date already stored, if any, and the dates of the
    events. *)
Definition max_datetime (found : option Z) (events : list log_entry) : option Z :=
  foldl (fun acc entry =>
           Some (from_option (Z.max (le_datetime entry)) (le_datetime entry) acc))
        found events.

(** An event is the one the fallback query makes of a row of the audit
    log: same id, datetime and repository, and a metadata value. *)
Definition event_of_row (entry : log_entry) (row : LogEntry) : Prop :=
  le_id entry = Some (log_id row)
  /\ le_datetime entry = log_datetime row
  /\ le_repository_id entry = log_repository row
  /\ is_Some (le_metadata entry).

(** The latest datetime the loop of a pass has seen after the events. *)
Definition latest_datetime_of (start_datetime : Z) (pull_logs : list log_entry) : Z :=
  foldl (fun latest entry => Z.max latest (le_datetime entry)) start_datetime pull_logs.

(** What a cycle never writes: the audit log, the tags and the clock. *)
Definition surroundings (w : World) := (logentry w, tag w, clock w).

(** The name of the lock of [_sync_pull_stats]. *)
Definition lock_name : string := "PULL_STATS_SYNC_" +:+ WORKER_ID.

(** ** Concrete worlds and events *)

Definition no_faults (op : DbOp) : bool := false.

(** The logs model is not reachable: [lookup_logs] raises. *)
Definition logs_model_down (w : World) (start_datetime end_datetime : Z) (size : nat)
    : option (list log_entry) := None.

Definition empty_world (now : Z) : World :=
  {| tagpullstatistics := ∅; manifestpullstatistics := ∅;
     pullstatisticsprocessingstate := ∅;
     logentry := []; tag := []; locks := ∅;
     transactions := 0; clock := now; logger := [] |}.

Definition tag_pull (id : Z) (datetime : Z) (repository : Z) (tag_name : string)
    (digest : option string) : log_entry :=
  {| le_id := Some id; le_datetime := datetime; le_repository_id := Some repository;
     le_metadata :=
       Some (Dict {| md_tag := Some tag_name; md_manifest_digest := digest |}) |}.

Definition digest_pull (id : Z) (datetime : Z) (repository : Z) (digest : string)
    : log_entry :=
  {| le_id := Some id; le_datetime := datetime; le_repository_id := Some repository;
     le_metadata := Some (Dict {| md_tag := None; md_manifest_digest := Some digest |}) |}.

Definition world_with_checkpoint (now watermark : Z) : World :=
  set_pullstatisticsprocessingstate
    {[ WORKER_ID := {| last_processed_datetime := watermark;
                       last_processed_log_id := None;
                       logs_processed_count := 0 |} ]}
    (empty_world now).

(** The watermark stored for the worker. *)
Definition watermark (w : World) : option Z :=
  last_processed_datetime <$> pullstatisticsprocessingstate w !! WORKER_ID.

Definition sha_abc : string := "sha256:abc".

Definition latest_at_100 : log_entry := tag_pull 1 100 7 "latest" (Some sha_abc).
Definition latest_at_200 : log_entry := tag_pull 2 200 7 "latest" (Some sha_abc).
Definition v1_at_100 : log_entry := tag_pull 1 100 7 "v1.0" (Some sha_abc).
Definition v1_at_200 : log_entry := tag_pull 2 200 7 "v1.0" (Some sha_abc).
Definition gone_at_100 : log_entry := tag_pull 1 100 7 "gone" None.

(** A logs model that answers every query with the given events. *)
Definition logs_model_returns (events : list log_entry) (w : World)
    (start_datetime end_datetime : Z) (size : nat) : option (list log_entry) :=
  Some events.

(** A [json.loads] for the one metadata text of the examples. *)
Definition example_json_loads (text : string) : option MetadataValue :=
  if String.eqb text "{tag: latest, manifest_digest: sha256:abc}"
  then Some (Dict {| md_tag := Some "latest"; md_manifest_digest := Some sha_abc |})
  else if String.eqb text "null" then Some NotADict
  else None.

(** An audit log with one pull of the tag latest at time 100, and no
    checkpoint yet. *)
Definition world_one_pull (now : Z) : World :=
  {| tagpullstatistics := ∅; manifestpullstatistics := ∅;
     pullstatisticsprocessingstate := ∅;
     logentry :=
       [ {| log_id := 1; log_kind := "pull_repo"; log_datetime := 100;
            log_repository := Some 7;
            log_metadata_json := "{tag: latest, manifest_digest: sha256:abc}" |} ];
     tag := []; locks := ∅;
     transactions := 0; clock := now; logger := [] |}.

(** A cycle with the default configuration (period 300 s, batches of
    1000, look-back of 24 hours). *)
Definition default_sync (db_fails : DbOp -> bool)
    (lookup_logs : World -> Z -> Z -> nat -> option (list log_entry)) : M unit :=
  _sync_pull_stats 300 1000 24 db_fails lookup_logs example_json_loads.

(** The cycle that reads the audit log through the fallback query, and the
    worlds after one, two and three cycles over [world_one_pull], 1000
    seconds apart. *)
Definition fallback_sync : M unit := default_sync no_faults logs_model_down.

Definition after_first_pass : World := world_of (fallback_sync (world_one_pull 1000)).
Definition after_second_pass : World :=
  world_of (fallback_sync (set_clock 2000 after_first_pass)).
Definition after_third_pass : World :=
  world_of (fallback_sync (set_clock 3000 after_second_pass)).

(** Every write to ManifestPullStatistics fails. *)
Definition manifest_write_fails (op : DbOp) : bool :=
  match op with
  | ManifestStatGetOrCreate _ _ | ManifestStatUpdate _ _ => true
  | _ => false
  end.

(** The commit of the second transaction fails. *)
Definition second_commit_fails (op : DbOp) : bool :=
  match op with
  | Commit 1 => true
  | _ => false
  end.

(** The scenario of the specification: the tags v1.0 and latest of
    repository 7 both point to the same manifest; v1.0 is pulled at time
    100, latest at time 200, and the manifest by digest at time 300. The
    events of the tag pulls carry no digest: it is looked up. *)
Definition scenario_world : World :=
  {| tagpullstatistics := ∅; manifestpullstatistics := ∅;
     pullstatisticsprocessingstate := ∅;
     logentry := [];
     tag := [ {| tag_repository := 7; tag_name_of := "v1.0";
                 lifetime_end_ms := None; tag_manifest_digest := sha_abc |};
              {| tag_repository := 7; tag_name_of := "latest";
                 lifetime_end_ms := None; tag_manifest_digest := sha_abc |} ];
     locks := ∅; transactions := 0; clock := 1000; logger := [] |}.

Definition scenario_events : list log_entry :=
  [ tag_pull 1 100 7 "v1.0" None; tag_pull 2 200 7 "latest" None;
    digest_pull 3 300 7 sha_abc ].

(** Another instance holds the run lock until time 1500. *)
Definition locked_world (now : Z) : World :=
  set_locks {[ lock_name := 1500 ]} (world_with_checkpoint now 0).

(** The world after one cycle over [scenario_events]. *)
Definition after_scenario : World :=
  world_of (default_sync no_faults (logs_model_returns scenario_events) scenario_world).

(** The query on the audit log fails; every other statement succeeds. *)
Definition audit_log_down (op : DbOp) : bool :=
  match op with
  | LogEntrySelect => true
  | _ => false
  end.

(** An event whose repository id is 0, and an event without metadata. *)
Definition pull_without_repository : log_entry :=
  tag_pull 4 400 0 "latest" (Some sha_abc).

Definition pull_without_metadata : log_entry :=
  {| le_id := Some 5; le_datetime := 500; le_repository_id := Some 7;
     le_metadata := None |}.

(** A registry that knows one repository, library/app, with the id 7. *)
Definition example_get_repository (namespace_name repository_name : string)
    : option Z :=
  if String.eqb namespace_name "library" && String.eqb repository_name "app"
  then Some 7
  else None.

(** Every statement on the two statistics tables fails; the checkpoint
    and the commits work. *)
Definition statistics_writes_fail (op : DbOp) : bool :=
  match op with
  | TagStatGetOrCreate _ _ | TagStatUpdate _ _
  | ManifestStatGetOrCreate _ _ | ManifestStatUpdate _ _ => true
  | _ => false
  end.

(** The world after one cycle over one pull of the tag latest at time 100,
    from the watermark 0, while every statistics write fails. *)
Definition after_failed_writes : World :=
  world_of (default_sync statistics_writes_fail (logs_model_returns [latest_at_100])
              (world_with_checkpoint 1000 0)).

(** An event of repository 7 whose metadata is null. *)
Definition null_metadata_pull : log_entry :=
  {| le_id := Some 6; le_datetime := 600; le_repository_id := Some 7;
     le_metadata := Some NotADict |}.

(** * Properties *)

(** ** Reasoning about the monad *)

Ltac unfold_monad :=
  unfold mbind, mret, M_bind, M_ret, execute, get_world, modify, raise,
    try_except, log, logged in *.

(** A computation preserves a projection of the world, whether it returns
    or raises. *)
Definition preserves {A B} (proj : World -> B) (c : M A) : Prop :=
  forall w, proj (world_of (c w)) = proj w.

(** A computation relates every world to the world it leaves. *)
Definition relates {A} (R : World -> World -> Prop) (c : M A) : Prop :=
  forall w, R w (world_of (c w)).

(** Closes a goal on the shape of a world whose tables are as before. *)
Ltac tables_as_before w :=
  exists (tagpullstatistics w), (manifestpullstatistics w); eexists;
  split;
  [ unfold logged, set_manifestpullstatistics, set_tagpullstatistics, set_logger;
    cbn [world_of tagpullstatistics manifestpullstatistics
           pullstatisticsprocessingstate logentry tag locks transactions clock logger];
    reflexivity
  | split; by left ].

Lemma preserves_ret {A B} (proj : World -> B) (a : A) : preserves proj (mret a).
Proof. intros w. reflexivity. Qed.

Lemma preserves_bind {A A' B} (proj : World -> B) (c : M A) (k : A -> M A') :
  preserves proj c -> (forall a, preserves proj (k a)) -> preserves proj (c ≫= k).
Proof.
  intros Hc Hk w. specialize (Hc w). unfold_monad.
  destruct (c w) as [a w1|e w1]; simpl in *.
  - rewrite Hk. exact Hc.
  - exact Hc.
Qed.

Lemma preserves_try_except {A B} (proj : World -> B) (c : M A) (h : Exception -> M A) :
  preserves proj c -> (forall e, preserves proj (h e)) -> preserves proj (try_except c h).
Proof.
  intros Hc Hh w. specialize (Hc w). unfold try_except.
  destruct (c w) as [a w1|e w1]; simpl in *.
  - exact Hc.
  - rewrite Hh. exact Hc.
Qed.

Lemma preserves_log {B} (proj : World -> B) lvl fmt a :
  (forall l w, proj (set_logger l w) = proj w) -> preserves proj (log lvl fmt a).
Proof. intros H w. unfold log, logged. simpl. apply H. Qed.

Lemma preserves_execute {B} (proj : World -> B) db_fails op :
  preserves proj (execute db_fails op).
Proof. intros w. unfold execute. destruct (db_fails op); reflexivity. Qed.

Section Properties.

Variable POLL_PERIOD : Z.
Variable BATCH_SIZE : nat.
Variable LOOKBACK_HOURS : Z.
Variable db_fails : DbOp -> bool.
Variable lookup_logs : World -> Z -> Z -> nat -> option (list log_entry).
Variable json_loads : string -> option MetadataValue.

(** ** Frame properties of the statistics updates *)

(** The manifest-side update touches one key of one table. *)
Lemma _update_manifest_pull_stats_world r d dt via w :
  exists m,
    world_of (_update_manifest_pull_stats db_fails r d dt via w)
    = set_manifestpullstatistics m w
    /\ forall k, k ≠ (r, d) -> m !! k = manifestpullstatistics w !! k.
Proof.
  unfold _update_manifest_pull_stats, ManifestPullStatistics_get_or_create,
    ManifestPullStatistics_update.
  unfold_monad.
  destruct (db_fails (ManifestStatGetOrCreate r d)); simpl.
  { exists (manifestpullstatistics w). by destruct w. }
  destruct (manifestpullstatistics w !! (r, d)) as [row|] eqn:Hrow; simpl.
  - destruct (db_fails (ManifestStatUpdate r d)); simpl.
    { exists (manifestpullstatistics w). by destruct w. }
    rewrite Hrow. simpl. eexists. split; [reflexivity|].
    intros k Hk. by rewrite lookup_insert_ne.
  - eexists. split; [reflexivity|].
    intros k Hk. by rewrite lookup_insert_ne.
Qed.

Lemma _update_manifest_pull_stats_tagstats r d dt via :
  preserves tagpullstatistics (_update_manifest_pull_stats db_fails r d dt via).
Proof.
  intros w. destruct (_update_manifest_pull_stats_world r d dt via w) as (m & -> & _).
  reflexivity.
Qed.

Lemma _update_manifest_pull_stats_other r d dt via k :
  k ≠ (r, d) ->
  preserves (fun w => manifestpullstatistics w !! k)
    (_update_manifest_pull_stats db_fails r d dt via).
Proof.
  intros Hk w. destruct (_update_manifest_pull_stats_world r d dt via w) as (m & -> & Hm).
  simpl. by apply Hm.
Qed.

Lemma _get_manifest_digest_for_tag_stats {B} (proj : World -> B) r t :
  (forall l w, proj (set_logger l w) = proj w) ->
  preserves proj (_get_manifest_digest_for_tag db_fails r t).
Proof.
  intros Hlog. unfold _get_manifest_digest_for_tag.
  apply preserves_try_except.
  - apply preserves_bind; [apply preserves_execute|intros _].
    intros w. unfold_monad. by destruct (find _ _).
  - intros e. apply preserves_bind; [by apply preserves_log|intros _].
    apply preserves_ret.
Qed.

(** The tag-side update touches one key of the tag table, and then the
    manifest table through the manifest-side update. *)
Lemma _update_tag_pull_stats_manifest_other r t dt digest k :
  k.1 ≠ r ->
  preserves (fun w => manifestpullstatistics w !! k)
    (_update_tag_pull_stats db_fails r t dt digest).
Proof.
  intros Hk. unfold _update_tag_pull_stats.
  apply preserves_bind.
  { destruct (truthy_str digest); [apply preserves_ret|].
    by apply _get_manifest_digest_for_tag_stats. }
  intros digest'. destruct (truthy_str digest') as [d|]; [|by apply preserves_log].
  apply preserves_bind.
  { unfold TagPullStatistics_get_or_create.
    apply preserves_bind; [apply preserves_execute|intros _].
    intros w. unfold_monad. by destruct (tagpullstatistics w !! (r, t)). }
  intros [tag_stats created].
  apply preserves_bind.
  { destruct created; simpl; [apply preserves_ret|].
    unfold TagPullStatistics_update.
    apply preserves_bind; [apply preserves_execute|intros _].
    intros w. unfold_monad. by destruct (tagpullstatistics w !! (r, t)). }
  intros _. apply _update_manifest_pull_stats_other.
  intros ->. by apply Hk.
Qed.

Lemma _update_tag_pull_stats_tag_other r t dt digest k :
  k ≠ (r, t) ->
  preserves (fun w => tagpullstatistics w !! k)
    (_update_tag_pull_stats db_fails r t dt digest).
Proof.
  intros Hk. unfold _update_tag_pull_stats.
  apply preserves_bind.
  { destruct (truthy_str digest); [apply preserves_ret|].
    by apply _get_manifest_digest_for_tag_stats. }
  intros digest'. destruct (truthy_str digest') as [d|]; [|by apply preserves_log].
  apply preserves_bind.
  { unfold TagPullStatistics_get_or_create.
    apply preserves_bind; [apply preserves_execute|intros _].
    intros w. unfold_monad.
    destruct (tagpullstatistics w !! (r, t)); simpl; [done|].
    by rewrite lookup_insert_ne. }
  intros [tag_stats created].
  apply preserves_bind.
  { destruct created; simpl; [apply preserves_ret|].
    unfold TagPullStatistics_update.
    apply preserves_bind; [apply preserves_execute|intros _].
    intros w. unfold_monad.
    destruct (tagpullstatistics w !! (r, t)); simpl; [|done].
    by rewrite lookup_insert_ne. }
  intros _ w. by rewrite _update_manifest_pull_stats_tagstats.
Qed.

Lemma truthy_int_Some o z : truthy_int o = Some z -> o = Some z.
Proof. destruct o as [x|]; simpl; [|done]. by destruct (x =? 0). Qed.

(** [_process_single_log] on an event whose metadata is a dictionary. *)
Lemma _process_single_log_dict entry metadata :
  default (Dict empty_metadata) (le_metadata entry) = Dict metadata ->
  _process_single_log db_fails entry
  = match truthy_int (le_repository_id entry) with
    | None => mret tt
    | Some r =>
        match truthy_str (md_tag metadata) with
        | Some t =>
            _update_tag_pull_stats db_fails r t (le_datetime entry)
              (md_manifest_digest metadata)
        | None =>
            match truthy_str (md_manifest_digest metadata) with
            | Some d => _update_manifest_pull_stats db_fails r d (le_datetime entry) None
            | None => mret tt
            end
        end
    end.
Proof. intros Hdict. unfold _process_single_log. by rewrite Hdict. Qed.

(** [_process_single_log] on an event whose metadata is not a dictionary. *)
Lemma _process_single_log_not_a_dict entry :
  default (Dict empty_metadata) (le_metadata entry) = NotADict ->
  _process_single_log db_fails entry
  = match truthy_int (le_repository_id entry) with
    | None => mret tt
    | Some r => raise (AttributeError "get")
    end.
Proof. intros Hdict. unfold _process_single_log. by rewrite Hdict. Qed.

Lemma event_tag_dict entry t :
  event_tag entry = Some t ->
  exists metadata,
    default (Dict empty_metadata) (le_metadata entry) = Dict metadata
    /\ truthy_str (md_tag metadata) = Some t
    /\ event_digest entry = truthy_str (md_manifest_digest metadata).
Proof.
  unfold event_tag, event_digest.
  destruct (default _ (le_metadata entry)) as [metadata|]; [|done].
  intros Htag. by exists metadata.
Qed.

Lemma event_digest_dict entry d :
  event_digest entry = Some d ->
  exists metadata,
    default (Dict empty_metadata) (le_metadata entry) = Dict metadata
    /\ truthy_str (md_manifest_digest metadata) = Some d
    /\ event_tag entry = truthy_str (md_tag metadata).
Proof.
  unfold event_tag, event_digest.
  destruct (default _ (le_metadata entry)) as [metadata|]; [|done].
  intros Hdigest. by exists metadata.
Qed.

(** Splits a goal on [_process_single_log] by the metadata of the event:
    a dictionary, or not. *)
Ltac by_metadata entry metadata Hdict :=
  destruct (default (Dict empty_metadata) (le_metadata entry)) as [metadata|] eqn:Hdict;
  [ rewrite (_process_single_log_dict entry metadata Hdict)
  | rewrite (_process_single_log_not_a_dict entry Hdict) ].

(** C8: ManifestPullStatistics is keyed by (repository, manifest_digest), so
    two repositories that hold a manifest with the same digest have two
    rows, and an update for one repository leaves every row of another
    repository as it was, in both tables: the manifest-side update itself,
    and the processing of any pull event of that repository, whether the
    statements succeed or fail. *)
Theorem manifest_stats_independent_per_repository
    (r1 r2 : Z) (digest : string) (dt : Z) (via_tag : option string)
    (entry : log_entry) (w : World) :
  r1 ≠ r2 ->
  le_repository_id entry = Some r1 ->
  manifestpullstatistics
    (world_of (_update_manifest_pull_stats db_fails r1 digest dt via_tag w))
    !! (r2, digest)
  = manifestpullstatistics w !! (r2, digest)
  /\ (forall d,
        manifestpullstatistics (world_of (_process_single_log db_fails entry w)) !! (r2, d)
        = manifestpullstatistics w !! (r2, d))
  /\ (forall t,
        tagpullstatistics (world_of (_process_single_log db_fails entry w)) !! (r2, t)
        = tagpullstatistics w !! (r2, t)).
Proof.
  intros Hne Hrepo. split; [|split].
  - apply (_update_manifest_pull_stats_other r1 digest dt via_tag (r2, digest)).
    intros [= ?]. by apply Hne.
  - intros d. by_metadata entry metadata Hdict; rewrite Hrepo;
      (destruct (truthy_int (Some r1)) as [r|] eqn:Hr; [|done]); [|done].
    apply truthy_int_Some in Hr as [= <-].
    destruct (truthy_str (md_tag _)) as [t|].
    + apply (_update_tag_pull_stats_manifest_other r1 t _ _ (r2, d)). simpl. congruence.
    + destruct (truthy_str (md_manifest_digest _)) as [d'|]; [|done].
      apply (_update_manifest_pull_stats_other r1 d' _ _ (r2, d)). congruence.
  - intros t. by_metadata entry metadata Hdict; rewrite Hrepo;
      (destruct (truthy_int (Some r1)) as [r|] eqn:Hr; [|done]); [|done].
    apply truthy_int_Some in Hr as [= <-].
    destruct (truthy_str (md_tag _)) as [t'|].
    + apply (_update_tag_pull_stats_tag_other r1 t' _ _ (r2, t)). congruence.
    + destruct (truthy_str (md_manifest_digest _)) as [d'|]; [|done].
      by rewrite _update_manifest_pull_stats_tagstats.
Qed.

(** ** The run lock *)

(** C7: when the run lock is held by another instance (its entry has not
    expired) at the start of a cycle, [_sync_pull_stats] returns at once:
    the world is as before, so nothing is written to TagPullStatistics or
    ManifestPullStatistics and the checkpoint row is as it was, but for one
    record logged at DEBUG level; the cycle ends normally, not in an
    error. *)
Theorem lock_held_skips_cycle (w : World) (expiry : Z) :
  locks w !! lock_name = Some expiry ->
  clock w < expiry ->
  _sync_pull_stats POLL_PERIOD BATCH_SIZE LOOKBACK_HOURS db_fails lookup_logs json_loads w
  = Return tt (logged DEBUG "Could not acquire pull stats sync lock" [] w).
Proof.
  intros Hheld Hlive.
  unfold _sync_pull_stats, try_except, GlobalLock.
  change ("PULL_STATS_SYNC_" +:+ WORKER_ID) with lock_name.
  rewrite Hheld.
  apply Z.ltb_lt in Hlive. rewrite Hlive.
  reflexivity.
Qed.

(** ** The manifest-side update *)

(** C6 (as amended): a manifest-side update whose statements succeed leaves
    a row for (repository, digest) whose count is one more than before (1
    for a new row), whether the pull came by tag or by digest. A pull by
    digest leaves [last_tag_pulled] of an existing row as it was. A pull by
    tag sets [last_tag_pulled] to the tag when the row is new or the pull is
    later than the row's [last_pull_date]; otherwise [last_tag_pulled] stays
    as it was. *)
Theorem manifest_update_counts_once
    (r : Z) (d : string) (dt : Z) (via_tag : option string) (w : World) :
  db_fails (ManifestStatGetOrCreate r d) = false ->
  db_fails (ManifestStatUpdate r d) = false ->
  exists w' row',
    _update_manifest_pull_stats db_fails r d dt via_tag w = Return tt w'
    /\ manifestpullstatistics w' !! (r, d) = Some row'
    /\ total_pull_count row' = manifest_count w r d + 1
    /\ (forall row,
          manifestpullstatistics w !! (r, d) = Some row ->
          via_tag = None ->
          last_tag_pulled row' = last_tag_pulled row)
    /\ (forall t,
          via_tag = Some t -> t ≠ "" ->
          match manifestpullstatistics w !! (r, d) with
          | None => last_tag_pulled row' = Some t
          | Some row =>
              (last_pull_date row < dt -> last_tag_pulled row' = Some t)
              /\ (dt <= last_pull_date row -> last_tag_pulled row' = last_tag_pulled row)
          end).
Proof.
  intros Hgoc Hupd.
  unfold _update_manifest_pull_stats, ManifestPullStatistics_get_or_create,
    ManifestPullStatistics_update, manifest_count.
  unfold_monad. rewrite Hgoc.
  destruct (manifestpullstatistics w !! (r, d)) as [row|] eqn:Hrow; simpl.
  - rewrite Hupd, Hrow. simpl.
    eexists _, _. split; [reflexivity|]. simpl.
    rewrite lookup_insert_eq. split; [reflexivity|]. simpl.
    split; [reflexivity|]. split.
    + intros row0 [= <-] ->. reflexivity.
    + intros t -> Ht. simpl.
      destruct (String.eqb_spec t ""); [done|].
      split; intros Hdt.
      * apply Z.ltb_lt in Hdt. by rewrite Hdt.
      * apply Z.ltb_ge in Hdt. by rewrite Hdt.
  - eexists _, _. split; [reflexivity|]. simpl.
    rewrite lookup_insert_eq. split; [reflexivity|]. simpl.
    split; [reflexivity|]. split.
    + intros row0 [=].
    + intros t -> _. reflexivity.
Qed.

(** ** Tag pulls that resolve to no manifest *)

(** C2 (as amended): a tag pull that carries no digest and whose tag has no
    active binding is not counted at all: [_process_single_log] returns
    normally with both statistics tables as they were, having only logged
    one WARNING record. *)
Theorem unresolved_tag_pull_not_counted
    (entry : log_entry) (r : Z) (t : string) (w : World) :
  truthy_int (le_repository_id entry) = Some r ->
  event_tag entry = Some t ->
  event_digest entry = None ->
  db_fails (TagSelect r t) = false ->
  find (is_active_tag r t) (tag w) = None ->
  _process_single_log db_fails entry w
  = Return tt
      (logged WARNING "Could not find manifest digest for tag %s in repo %d"
         [ArgStr t; ArgZ r] w).
Proof.
  intros Hrepo Htag Hdigest Hsel Hfind.
  destruct (event_tag_dict entry t Htag) as (metadata & Hdict & Htag' & Hdigest').
  rewrite Hdigest in Hdigest'.
  rewrite (_process_single_log_dict entry metadata Hdict), Hrepo, Htag'.
  unfold _update_tag_pull_stats, _get_manifest_digest_for_tag.
  rewrite <- Hdigest'. unfold_monad. rewrite Hsel.
  cbn -[is_active_tag]. rewrite Hfind. reflexivity.
Qed.

(** ** What the processing of a batch leaves alone *)

Lemma _update_manifest_pull_stats_outside r d dt via :
  preserves outside_stats (_update_manifest_pull_stats db_fails r d dt via).
Proof.
  intros w. destruct (_update_manifest_pull_stats_world r d dt via w) as (m & -> & _).
  reflexivity.
Qed.

Lemma _update_tag_pull_stats_outside r t dt digest :
  preserves outside_stats (_update_tag_pull_stats db_fails r t dt digest).
Proof.
  unfold _update_tag_pull_stats.
  apply preserves_bind.
  { destruct (truthy_str digest); [apply preserves_ret|].
    by apply _get_manifest_digest_for_tag_stats. }
  intros digest'. destruct (truthy_str digest') as [d|]; [|by apply preserves_log].
  apply preserves_bind.
  { unfold TagPullStatistics_get_or_create.
    apply preserves_bind; [apply preserves_execute|intros _].
    intros w. unfold_monad. by destruct (tagpullstatistics w !! (r, t)). }
  intros [tag_stats created].
  apply preserves_bind.
  { destruct created; simpl; [apply preserves_ret|].
    unfold TagPullStatistics_update.
    apply preserves_bind; [apply preserves_execute|intros _].
    intros w. unfold_monad. by destruct (tagpullstatistics w !! (r, t)). }
  intros _. apply _update_manifest_pull_stats_outside.
Qed.

Lemma _process_single_log_outside entry :
  preserves outside_stats (_process_single_log db_fails entry).
Proof.
  by_metadata entry metadata Hdict;
    (destruct (truthy_int _) as [r|]; [|apply preserves_ret]); [|done].
  destruct (truthy_str (md_tag _)) as [t|].
  - apply _update_tag_pull_stats_outside.
  - destruct (truthy_str (md_manifest_digest _)) as [d|]; [|apply preserves_ret].
    apply _update_manifest_pull_stats_outside.
Qed.

Lemma for_log_entry_in_log_batch_outside log_batch :
  preserves outside_stats (for_log_entry_in_log_batch db_fails log_batch).
Proof.
  induction log_batch as [|entry rest IH]; simpl; [apply preserves_ret|].
  apply preserves_bind; [|intros _; exact IH].
  apply preserves_try_except; [apply _process_single_log_outside|].
  intros e. by apply preserves_log.
Qed.

(** The loop over a batch catches every error: it always returns. *)
Lemma for_log_entry_in_log_batch_returns log_batch w :
  exists w', for_log_entry_in_log_batch db_fails log_batch w = Return tt w'.
Proof.
  revert w. induction log_batch as [|entry rest IH]; intros w; simpl.
  - by eexists.
  - unfold_monad.
    destruct (_process_single_log db_fails entry w) as [[] w1|e w1]; apply IH.
Qed.

(** A batch is one transaction: it raises exactly when its commit fails,
    and then the three tables are as they were before the batch. *)
Lemma _process_log_batch_cases log_batch w :
  (db_fails (Commit (transactions w)) = false
   /\ exists w1,
        for_log_entry_in_log_batch db_fails log_batch
          (set_transactions (S (transactions w)) w) = Return tt w1
        /\ _process_log_batch db_fails log_batch w = Return tt w1)
  \/ (db_fails (Commit (transactions w)) = true
      /\ exists w',
           _process_log_batch db_fails log_batch w
           = Raise (DatabaseError (Commit (transactions w))) w'
           /\ tagpullstatistics w' = tagpullstatistics w
           /\ manifestpullstatistics w' = manifestpullstatistics w
           /\ pullstatisticsprocessingstate w' = pullstatisticsprocessingstate w).
Proof.
  unfold _process_log_batch, db_transaction.
  destruct (for_log_entry_in_log_batch_returns log_batch
              (set_transactions (S (transactions w)) w)) as [w1 Hw1].
  rewrite Hw1.
  destruct (db_fails (Commit (transactions w))).
  - right. split; [reflexivity|]. eexists. split; [reflexivity|]. done.
  - left. split; [reflexivity|]. by exists w1.
Qed.

Lemma _process_log_batch_outside log_batch :
  preserves outside_stats (_process_log_batch db_fails log_batch).
Proof.
  intros w. unfold _process_log_batch, db_transaction.
  pose proof (for_log_entry_in_log_batch_outside log_batch
                (set_transactions (S (transactions w)) w)) as Hout.
  destruct (for_log_entry_in_log_batch db_fails log_batch _) as [[] w1|e w1];
    simpl in *.
  - destruct (db_fails (Commit (transactions w))); simpl; [|exact Hout].
    unfold outside_stats in *. simpl in *. congruence.
  - unfold outside_stats in *. simpl in *. congruence.
Qed.

(** The attribute test of the loop is false for every event, with or
    without an 'id' key. *)
Lemma hasattr_id_false (entry : log_entry) : hasattr entry "id" = false.
Proof. reflexivity. Qed.

(** The loop over the events: it leaves the surroundings and the
    checkpoint alone, never lowers [latest_datetime], and hands back
    [latest_log_id] as it got it. *)
Lemma for_log_entry_in_pull_logs_spec pull_logs :
  forall batch latest_datetime latest_log_id processed_count w,
    outside_stats
      (world_of (for_log_entry_in_pull_logs BATCH_SIZE db_fails pull_logs batch
                   latest_datetime latest_log_id processed_count w))
    = outside_stats w
    /\ forall batch' latest_datetime' latest_log_id' processed_count' w',
         for_log_entry_in_pull_logs BATCH_SIZE db_fails pull_logs batch
           latest_datetime latest_log_id processed_count w
         = Return (batch', latest_datetime', latest_log_id', processed_count') w' ->
         latest_datetime <= latest_datetime' /\ latest_log_id' = latest_log_id.
Proof.
  induction pull_logs as [|entry rest IH]; intros batch ld lid pc w; simpl.
  - split; [reflexivity|]. unfold_monad. intros ? ? ? ? ? [= <- <- <- <- <-]. split; [lia|done].
  - unfold_monad.
    destruct (BATCH_SIZE <=? length (batch ++ [entry]))%nat.
    + pose proof (_process_log_batch_outside (batch ++ [entry]) w) as Hout.
      destruct (_process_log_batch db_fails (batch ++ [entry]) w) as [[] w1|e w1];
        simpl in Hout.
      * destruct (IH [] (Z.max ld (le_datetime entry)) lid
                    (pc + Z.of_nat (length (batch ++ [entry]))) w1) as [IH1 IH2].
        split; [by rewrite IH1|].
        intros ? ? ? ? ? Heq. apply IH2 in Heq as [? ?]. split; [lia|done].
      * split; [exact Hout|]. intros ? ? ? ? ? [=].
    + destruct (IH (batch ++ [entry]) (Z.max ld (le_datetime entry)) lid pc w)
        as [IH1 IH2].
      split; [exact IH1|].
      intros ? ? ? ? ? Heq. apply IH2 in Heq as [? ?]. split; [lia|done].
Qed.

(** ** The steps of a pass *)

(** The processing state is read, or created on the first run; a failure
    leaves the world as it was. *)
Lemma _get_processing_state_cases w :
  (exists e, _get_processing_state LOOKBACK_HOURS db_fails w = Raise e w)
  \/ (exists state,
        pullstatisticsprocessingstate w !! WORKER_ID = Some state
        /\ _get_processing_state LOOKBACK_HOURS db_fails w = Return state w)
  \/ (pullstatisticsprocessingstate w !! WORKER_ID = None
      /\ let state :=
           {| last_processed_datetime := clock w - 3600 * LOOKBACK_HOURS;
              last_processed_log_id := None;
              logs_processed_count := 0 |} in
         _get_processing_state LOOKBACK_HOURS db_fails w
         = Return state
             (set_pullstatisticsprocessingstate
                (<[WORKER_ID := state]> (pullstatisticsprocessingstate w)) w)).
Proof.
  unfold _get_processing_state. unfold_monad.
  destruct (db_fails StateGet); [left; by eexists|].
  destruct (pullstatisticsprocessingstate w !! WORKER_ID) as [state|] eqn:Hrow.
  - right. left. by exists state.
  - simpl. destruct (db_fails StateCreate).
    + left. by eexists.
    + right. right. by split.
Qed.

(** Whatever it returns, the state handed to the pass is the row stored
    under the worker's id. *)
Lemma _get_processing_state_stored w state w1 :
  _get_processing_state LOOKBACK_HOURS db_fails w = Return state w1 ->
  pullstatisticsprocessingstate w1 !! WORKER_ID = Some state
  /\ tagpullstatistics w1 = tagpullstatistics w
  /\ manifestpullstatistics w1 = manifestpullstatistics w
  /\ clock w1 = clock w
  /\ db_fails StateGet = false.
Proof.
  unfold _get_processing_state. unfold_monad.
  destruct (db_fails StateGet); [done|].
  destruct (pullstatisticsprocessingstate w !! WORKER_ID) as [row|] eqn:Hrow.
  - intros [= <- <-]. done.
  - simpl. destruct (db_fails StateCreate); [done|].
    intros [= <- <-]. simpl. by rewrite lookup_insert_eq.
Qed.

Lemma set_logger_id w : set_logger (logger w) w = w.
Proof. by destruct w. Qed.

Lemma format_logs_returns rows w :
  exists logs l, format_logs json_loads rows w = Return logs (set_logger l w).
Proof.
  revert w. induction rows as [|row rest IH]; intros w; simpl.
  - exists [], (logger w). by rewrite set_logger_id.
  - destruct (if (log_metadata_json row =? "")%string then _ else _) as [metadata|].
    + unfold_monad. destruct (IH w) as (logs & l & ->). by eexists _, _.
    + unfold_monad.
      match goal with
      | |- context [format_logs json_loads rest ?w'] =>
          destruct (IH w') as (logs & l & ->)
      end.
      by eexists _, _.
Qed.

(** Reading the events never raises and writes nothing but log records. *)
Lemma _get_pull_logs_returns start_datetime end_datetime w :
  exists pull_logs l,
    _get_pull_logs BATCH_SIZE db_fails lookup_logs json_loads start_datetime end_datetime w
    = Return pull_logs (set_logger l w).
Proof.
  unfold _get_pull_logs, _get_pull_logs_from_database. unfold_monad.
  destruct (lookup_logs w start_datetime end_datetime _) as [pull_logs|].
  - exists pull_logs, (logger w). by rewrite set_logger_id.
  - destruct (db_fails LogEntrySelect).
    + by eexists _, _.
    + match goal with
      | |- context [format_logs json_loads ?rows ?w'] =>
          destruct (format_logs_returns rows w') as (logs & l & ->)
      end.
      by eexists _, _.
Qed.

Lemma process_batches_spec pull_logs start_datetime last_log_id w :
  outside_stats
    (world_of (process_batches BATCH_SIZE db_fails pull_logs start_datetime last_log_id w))
  = outside_stats w
  /\ forall latest_datetime latest_log_id processed_count w',
       process_batches BATCH_SIZE db_fails pull_logs start_datetime last_log_id w
       = Return (latest_datetime, latest_log_id, processed_count) w' ->
       start_datetime <= latest_datetime /\ latest_log_id = last_log_id.
Proof.
  unfold process_batches. unfold_monad.
  destruct (for_log_entry_in_pull_logs_spec pull_logs [] start_datetime last_log_id 0 w)
    as [Hout Hret].
  destruct (for_log_entry_in_pull_logs _ _ _ _ _ _ _ w)
    as [[[[batch ld] lid] pc] w1|e w1]; simpl in Hout.
  - destruct (Hret _ _ _ _ _ eq_refl) as [Hld ->].
    destruct batch as [|entry batch].
    + split; [exact Hout|]. by intros ? ? ? ? [= <- <- <- <-].
    + pose proof (_process_log_batch_outside (entry :: batch) w1) as Hout1.
      destruct (_process_log_batch db_fails (entry :: batch) w1) as [[] w2|e w2];
        simpl in Hout1.
      * cbn [world_of]. split; [congruence|]. by intros ? ? ? ? [= <- <- <- <-].
      * cbn [world_of]. split; [congruence|]. by intros ? ? ? ? [=].
  - split; [exact Hout|]. by intros ? ? ? ? [=].
Qed.

(** [_process_pull_logs] written with [process_batches]. *)
Lemma _process_pull_logs_unfold w :
  _process_pull_logs BATCH_SIZE LOOKBACK_HOURS db_fails lookup_logs json_loads w
  = (processing_state ← _get_processing_state LOOKBACK_HOURS db_fails;
     let start_datetime := last_processed_datetime processing_state in
     w ← get_world;
     log INFO "Processing pull logs from %s to %s" [ArgZ start_datetime; ArgZ (clock w)];;
     pull_logs ← _get_pull_logs BATCH_SIZE db_fails lookup_logs json_loads
                   start_datetime (clock w);
     match pull_logs with
     | [] => log DEBUG "No pull logs found in time range" []
     | _ :: _ =>
         '(latest_datetime, latest_log_id, processed_count) ←
           process_batches BATCH_SIZE db_fails pull_logs start_datetime
             (last_processed_log_id processing_state);
         _update_processing_state db_fails latest_datetime latest_log_id processed_count;;
         log INFO "Processed %d pull log entries" [ArgZ processed_count]
     end) w.
Proof.
  unfold _process_pull_logs, process_batches. unfold_monad.
  destruct (_get_processing_state LOOKBACK_HOURS db_fails w) as [state w1|e w1]; [|done].
  destruct (_get_pull_logs _ _ _ _ _ _ _) as [pull_logs w2|e w2]; [|done].
  destruct pull_logs as [|entry rest]; [done|].
  destruct (for_log_entry_in_pull_logs _ _ _ _ _ _ _ w2)
    as [[[[batch ld] lid] pc] w3|e w3]; [|done].
  destruct batch as [|entry' batch]; [done|].
  by destruct (_process_log_batch db_fails (entry' :: batch) w3) as [[] w4|e w4].
Qed.

(** The outcomes of [_process_pull_logs] once the processing state is
    read: no events; a batch that raises; a failed update of the
    processing state; or the update, after every batch was processed. *)
Lemma _process_pull_logs_cases w state w1 :
  _get_processing_state LOOKBACK_HOURS db_fails w = Return state w1 ->
  let start_datetime := last_processed_datetime state in
  let pass := _process_pull_logs BATCH_SIZE LOOKBACK_HOURS db_fails lookup_logs json_loads in
  exists pull_logs l,
    let w2 := set_logger l w1 in
    _get_pull_logs BATCH_SIZE db_fails lookup_logs json_loads start_datetime (clock w1)
      (logged INFO "Processing pull logs from %s to %s"
         [ArgZ start_datetime; ArgZ (clock w1)] w1)
    = Return pull_logs w2
    /\ ((pull_logs = []
         /\ pass w = Return tt (logged DEBUG "No pull logs found in time range" [] w2))
        \/ (pull_logs ≠ []
            /\ exists e w3,
                 process_batches BATCH_SIZE db_fails pull_logs start_datetime
                   (last_processed_log_id state) w2 = Raise e w3
                 /\ outside_stats w3 = outside_stats w1
                 /\ pass w = Raise e w3)
        \/ (pull_logs ≠ []
            /\ exists latest_datetime processed_count w3,
                 process_batches BATCH_SIZE db_fails pull_logs start_datetime
                   (last_processed_log_id state) w2
                 = Return (latest_datetime, last_processed_log_id state, processed_count) w3
                 /\ outside_stats w3 = outside_stats w1
                 /\ start_datetime <= latest_datetime
                 /\ ((db_fails StateUpdate = true
                      /\ pass w = Raise (DatabaseError StateUpdate) w3)
                     \/ (db_fails StateUpdate = false
                         /\ pass w
                            = Return tt
                                (logged INFO "Processed %d pull log entries"
                                   [ArgZ processed_count]
                                   (set_pullstatisticsprocessingstate
                                      (<[WORKER_ID :=
                                           {| last_processed_datetime := latest_datetime;
                                              last_processed_log_id :=
                                                last_processed_log_id state;
                                              logs_processed_count :=
                                                logs_processed_count state + processed_count |}]>
                                         (pullstatisticsprocessingstate w1)) w3)))))).
Proof.
  intros Hget start_datetime pass.
  destruct (_get_processing_state_stored _ _ _ Hget) as (Hrow & _ & _ & _ & _).
  destruct (_get_pull_logs_returns start_datetime (clock w1)
              (logged INFO "Processing pull logs from %s to %s"
                 [ArgZ start_datetime; ArgZ (clock w1)] w1)) as (pull_logs & l & Hread).
  exists pull_logs, l. split; [exact Hread|].
  remember (pass w) as res eqn:Hres. subst pass.
  rewrite _process_pull_logs_unfold in Hres.
  unfold mbind at 1, M_bind at 1 in Hres. rewrite Hget in Hres.
  unfold mbind at 1, M_bind at 1, get_world at 1 in Hres.
  unfold mbind at 1, M_bind at 1, log at 1 in Hres.
  unfold mbind at 1, M_bind at 1 in Hres. fold start_datetime in Hres.
  rewrite Hread in Hres.
  destruct pull_logs as [|entry rest];
    [left; split; [done|rewrite Hres; reflexivity]|right].
  pose proof (process_batches_spec (entry :: rest) start_datetime
                (last_processed_log_id state) (set_logger l w1)) as [Hout Hret].
  unfold mbind at 1, M_bind at 1 in Hres.
  change (set_logger l (logged _ _ _ w1)) with (set_logger l w1) in Hres.
  destruct (process_batches BATCH_SIZE db_fails (entry :: rest) start_datetime
              (last_processed_log_id state) (set_logger l w1))
    as [[[ld lid] pc] w3|e w3].
  - right. split; [done|].
    destruct (Hret _ _ _ _ eq_refl) as [Hld ->].
    exists ld, pc, w3. split; [reflexivity|].
    simpl in Hout. split; [exact Hout|]. split; [exact Hld|].
    injection Hout as Hpss _ _ _ _. simpl in Hpss.
    unfold _update_processing_state in Hres. unfold_monad.
    destruct (db_fails StateUpdate);
      [left; split; [done|rewrite Hres; reflexivity]|right].
    split; [reflexivity|]. rewrite Hres. simpl. by rewrite Hpss, Hrow.
  - left. split; [done|]. exists e, w3. split; [done|].
    split; [exact Hout|]. rewrite Hres. reflexivity.
Qed.

(** ** The checkpoint across a pass *)

Lemma _process_pull_logs_raises_early w e :
  _get_processing_state LOOKBACK_HOURS db_fails w = Raise e w ->
  _process_pull_logs BATCH_SIZE LOOKBACK_HOURS db_fails lookup_logs json_loads w
  = Raise e w.
Proof.
  intros Hget. unfold _process_pull_logs.
  unfold mbind at 1, M_bind at 1. by rewrite Hget.
Qed.

(** After a pass the checkpoint table is the one the pass started from with
    the worker's row replaced by a row that is not earlier and has the same
    event ordinal (the same row, when the pass did not update it). *)
Lemma _process_pull_logs_checkpoint w state w1 :
  _get_processing_state LOOKBACK_HOURS db_fails w = Return state w1 ->
  exists state',
    pullstatisticsprocessingstate
      (world_of (_process_pull_logs BATCH_SIZE LOOKBACK_HOURS db_fails lookup_logs
                   json_loads w))
    = <[WORKER_ID := state']> (pullstatisticsprocessingstate w1)
    /\ last_processed_datetime state <= last_processed_datetime state'
    /\ last_processed_log_id state' = last_processed_log_id state.
Proof.
  intros Hget.
  destruct (_get_processing_state_stored _ _ _ Hget) as (Hrow & _ & _ & _ & _).
  destruct (_process_pull_logs_cases w state w1 Hget)
    as (pull_logs & l & _ &
        [[_ ->]
        |[(_ & e & w3 & _ & Hout & ->)
         |(_ & ld & pc & w3 & _ & Hout & Hld & [[_ ->]|[_ ->]])]]).
  - exists state. simpl. rewrite insert_id by done. split; [done|]. split; [lia|done].
  - exists state. simpl. injection Hout as -> _ _ _ _.
    rewrite insert_id by done. split; [done|]. split; [lia|done].
  - exists state. simpl. injection Hout as -> _ _ _ _.
    rewrite insert_id by done. split; [done|]. split; [lia|done].
  - eexists. simpl. split; [reflexivity|]. simpl. split; [exact Hld|done].
Qed.

(** One pass of [_process_pull_logs]: the event ordinal of the checkpoint
    is as before, and an existing row stays, with a watermark that is not
    earlier. *)
Lemma _process_pull_logs_invariant w :
  let w' :=
    world_of (_process_pull_logs BATCH_SIZE LOOKBACK_HOURS db_fails lookup_logs
                json_loads w) in
  checkpoint_log_id w' = checkpoint_log_id w
  /\ forall state,
       pullstatisticsprocessingstate w !! WORKER_ID = Some state ->
       exists state',
         pullstatisticsprocessingstate w' !! WORKER_ID = Some state'
         /\ last_processed_datetime state <= last_processed_datetime state'.
Proof.
  intros w'. subst w'.
  destruct (_get_processing_state_cases w) as [[e He]|[(state & Hrow & Hget)|(Hnone & Hget)]].
  - rewrite (_process_pull_logs_raises_early w e He). simpl. split; [done|].
    intros state Hrow. exists state. split; [done|lia].
  - destruct (_process_pull_logs_checkpoint w state w Hget) as (state' & Heq & Hle & Hid).
    unfold checkpoint_log_id. rewrite Heq, lookup_insert_eq, Hrow. simpl.
    split; [by rewrite Hid|].
    intros ? [= <-]. by exists state'.
  - simpl in Hget.
    destruct (_process_pull_logs_checkpoint w _ _ Hget) as (state' & Heq & Hle & Hid).
    unfold checkpoint_log_id. rewrite Heq. simpl. rewrite lookup_insert_eq, Hnone. simpl.
    split; [exact Hid|]. intros ? [=].
Qed.

(** The same for a whole cycle: the lock and the handlers of
    [_sync_pull_stats] do not touch the checkpoint. *)
Lemma _sync_pull_stats_checkpoint w :
  let sync :=
    _sync_pull_stats POLL_PERIOD BATCH_SIZE LOOKBACK_HOURS db_fails lookup_logs json_loads in
  pullstatisticsprocessingstate (world_of (sync w)) = pullstatisticsprocessingstate w
  \/ exists w1,
       pullstatisticsprocessingstate w1 = pullstatisticsprocessingstate w
       /\ pullstatisticsprocessingstate (world_of (sync w))
          = pullstatisticsprocessingstate
              (world_of (_process_pull_logs BATCH_SIZE LOOKBACK_HOURS db_fails
                           lookup_logs json_loads w1)).
Proof.
  intros sync. subst sync. unfold _sync_pull_stats, try_except, GlobalLock.
  destruct (match locks w !! _ with Some expiry => clock w <? expiry | None => false end).
  - left. reflexivity.
  - right.
    exists (set_locks (<[lock_name := clock w + POLL_PERIOD * 2]> (locks w)) w).
    split; [reflexivity|].
    change ("PULL_STATS_SYNC_" +:+ WORKER_ID) with lock_name.
    destruct (_process_pull_logs _ _ _ _ _ _) as [[] w2|e w2]; [reflexivity|].
    by destruct e.
Qed.

Lemma _sync_pull_stats_invariant w :
  let w' :=
    world_of (_sync_pull_stats POLL_PERIOD BATCH_SIZE LOOKBACK_HOURS db_fails lookup_logs
                json_loads w) in
  checkpoint_log_id w' = checkpoint_log_id w
  /\ forall state,
       pullstatisticsprocessingstate w !! WORKER_ID = Some state ->
       exists state',
         pullstatisticsprocessingstate w' !! WORKER_ID = Some state'
         /\ last_processed_datetime state <= last_processed_datetime state'.
Proof.
  intros w'. subst w'.
  destruct (_sync_pull_stats_checkpoint w) as [Heq|(w1 & Hw1 & Heq)].
  - unfold checkpoint_log_id. rewrite Heq. split; [done|].
    intros state Hrow. exists state. split; [done|lia].
  - destruct (_process_pull_logs_invariant w1) as [Hid Hmono].
    unfold checkpoint_log_id in *. rewrite Heq, Hid, Hw1. split; [done|].
    intros state Hrow. rewrite <- Hw1 in Hrow. exact (Hmono state Hrow).
Qed.

(** Over any number of cycles, with the surroundings changing in between. *)
Lemma reachable_invariant w w' :
  reachable POLL_PERIOD BATCH_SIZE LOOKBACK_HOURS db_fails lookup_logs json_loads w w' ->
  checkpoint_log_id w' = checkpoint_log_id w
  /\ forall state,
       pullstatisticsprocessingstate w !! WORKER_ID = Some state ->
       exists state',
         pullstatisticsprocessingstate w' !! WORKER_ID = Some state'
         /\ last_processed_datetime state <= last_processed_datetime state'.
Proof.
  induction 1 as [|w' Hreach [IHid IHmono]|w' w'' Hreach [IHid IHmono] _ _ Hpss].
  - split; [done|]. intros state Hrow. exists state. split; [done|lia].
  - destruct (_sync_pull_stats_invariant w') as [Hid Hmono]. split; [congruence|].
    intros state Hrow.
    destruct (IHmono state Hrow) as (state1 & Hrow1 & Hle1).
    destruct (Hmono state1 Hrow1) as (state2 & Hrow2 & Hle2).
    exists state2. split; [done|lia].
  - unfold checkpoint_log_id in *. rewrite Hpss. split; [done|].
    intros state Hrow. exact (IHmono state Hrow).
Qed.

(** ** The updates when no statement fails *)

(** The world a manifest-side update returns when its two statements
    succeed. *)
Lemma _update_manifest_pull_stats_ok r d dt via w :
  db_fails (ManifestStatGetOrCreate r d) = false ->
  db_fails (ManifestStatUpdate r d) = false ->
  _update_manifest_pull_stats db_fails r d dt via w
  = Return tt
      (set_manifestpullstatistics
         (<[(r, d) := manifest_row_after (manifestpullstatistics w !! (r, d)) (clock w) dt via]>
            (manifestpullstatistics w)) w).
Proof.
  intros Hgoc Hupd.
  unfold _update_manifest_pull_stats, ManifestPullStatistics_get_or_create,
    ManifestPullStatistics_update.
  unfold_monad. rewrite Hgoc.
  destruct (manifestpullstatistics w !! (r, d)) as [row|] eqn:Hrow; simpl.
  - by rewrite Hupd, Hrow.
  - reflexivity.
Qed.

(** The world a tag-side update returns for a digest that is not empty,
    when its statements succeed. *)
Lemma _update_tag_pull_stats_ok r t dt (digest : option string) d w :
  truthy_str digest = Some d ->
  db_fails (TagStatGetOrCreate r t) = false ->
  db_fails (TagStatUpdate r t) = false ->
  db_fails (ManifestStatGetOrCreate r d) = false ->
  db_fails (ManifestStatUpdate r d) = false ->
  _update_tag_pull_stats db_fails r t dt digest w
  = Return tt
      (set_manifestpullstatistics
         (<[(r, d) := manifest_row_after (manifestpullstatistics w !! (r, d)) (clock w) dt
                        (Some t)]>
            (manifestpullstatistics w))
         (set_tagpullstatistics
            (<[(r, t) := tag_row_after (tagpullstatistics w !! (r, t)) (clock w) dt d]>
               (tagpullstatistics w)) w)).
Proof.
  intros Hdigest Hgoc Hupd Hmgoc Hmupd.
  unfold _update_tag_pull_stats. rewrite Hdigest.
  unfold mbind at 1, M_bind at 1, mret at 1, M_ret at 1. rewrite Hdigest.
  unfold TagPullStatistics_get_or_create, TagPullStatistics_update.
  unfold_monad. rewrite Hgoc.
  destruct (tagpullstatistics w !! (r, t)) as [row|] eqn:Hrow; simpl.
  - rewrite Hupd, Hrow. simpl.
    by rewrite (_update_manifest_pull_stats_ok r d dt (Some t) _ Hmgoc Hmupd).
  - by rewrite (_update_manifest_pull_stats_ok r d dt (Some t) _ Hmgoc Hmupd).
Qed.

(** ** Counting the pulls of one tag *)

(** One pull by tag that carries its digest, with no failing statement:
    the row of the tag counts one more pull and takes the date of the
    event, whatever date it had. *)
Lemma tag_pull_counted r t entry w :
  (forall op, db_fails op = false) ->
  resolved_tag_pull r t entry ->
  exists w' row,
    _process_single_log db_fails entry w = Return tt w'
    /\ tagpullstatistics w' !! (r, t) = Some row
    /\ tag_pull_count row = tag_count w r t + 1
    /\ last_tag_pull_date row = le_datetime entry.
Proof.
  intros Hok (Hrepo & Htag & [d Hdigest]).
  destruct (event_tag_dict entry t Htag) as (metadata & Hdict & Htag' & Hdigest').
  rewrite Hdigest in Hdigest'. symmetry in Hdigest'.
  rewrite (_process_single_log_dict entry metadata Hdict), Hrepo, Htag'.
  rewrite (_update_tag_pull_stats_ok r t _ _ d w Hdigest' (Hok _) (Hok _) (Hok _) (Hok _)).
  eexists _, _. split; [reflexivity|]. simpl.
  rewrite lookup_insert_eq. split; [reflexivity|].
  unfold tag_count. by destruct (tagpullstatistics w !! (r, t)).
Qed.

(** X2: N pulls of one tag, each carrying its digest, processed in the order
    given with no failing statement: the count grows by N, and the date of
    the row is the date of the event processed last. *)
Lemma tag_pulls_counted_in_order r t (events : list log_entry) :
  (forall op, db_fails op = false) ->
  Forall (resolved_tag_pull r t) events ->
  forall w,
  exists w',
    for_log_entry_in_log_batch db_fails events w = Return tt w'
    /\ tag_count w' r t = tag_count w r t + Z.of_nat (length events)
    /\ forall entry,
         last events = Some entry ->
         last_tag_pull_date <$> tagpullstatistics w' !! (r, t)
         = Some (le_datetime entry).
Proof.
  intros Hok. induction 1 as [|entry rest Hentry Hrest IH]; intros w.
  - exists w. split; [reflexivity|]. split; [simpl; lia|]. intros ? [=].
  - destruct (tag_pull_counted r t entry w Hok Hentry)
      as (w1 & row & Hstep & Hrow & Hcount & Hdate).
    destruct (IH w1) as (w' & Hloop & Hcount' & Hlast).
    exists w'. split; [|split].
    + simpl. unfold_monad. by rewrite Hstep.
    + rewrite Hcount'. unfold tag_count at 1. rewrite Hrow. simpl.
      rewrite Hcount. lia.
    + intros entry' Hlast'. destruct rest as [|entry2 rest].
      * simpl in Hlast', Hloop. injection Hlast' as <-.
        unfold_monad. injection Hloop as <-. by rewrite Hrow, <- Hdate.
      * apply Hlast. rewrite <- Hlast'. by rewrite last_cons_cons.
Qed.

(** ** The claims about the checkpoint *)

(** C9: when the event source returns no event for the window from the
    checkpoint to now, the pass returns without touching the checkpoint
    table: the worker's row is the one the pass started from (the row
    created with the look-back window on the first run), the table is as
    before when the row was there, and the watermark is not moved to the end
    of the window; the statistics tables are as before as well, and the
    next pass, at any later time, starts from the same row, so it reads
    again from the same start. *)
Theorem empty_window_leaves_checkpoint (w : World)
    (state : PullStatisticsProcessingState) (w1 w2 : World) :
  _get_processing_state LOOKBACK_HOURS db_fails w = Return state w1 ->
  _get_pull_logs BATCH_SIZE db_fails lookup_logs json_loads
    (last_processed_datetime state) (clock w1)
    (logged INFO "Processing pull logs from %s to %s"
       [ArgZ (last_processed_datetime state); ArgZ (clock w1)] w1)
  = Return [] w2 ->
  let w' := logged DEBUG "No pull logs found in time range" [] w2 in
  _process_pull_logs BATCH_SIZE LOOKBACK_HOURS db_fails lookup_logs json_loads w
  = Return tt w'
  /\ pullstatisticsprocessingstate w' = pullstatisticsprocessingstate w1
  /\ pullstatisticsprocessingstate w' !! WORKER_ID = Some state
  /\ (is_Some (pullstatisticsprocessingstate w !! WORKER_ID) ->
      pullstatisticsprocessingstate w' = pullstatisticsprocessingstate w)
  /\ tagpullstatistics w' = tagpullstatistics w
  /\ manifestpullstatistics w' = manifestpullstatistics w
  /\ forall now,
       _get_processing_state LOOKBACK_HOURS db_fails (set_clock now w')
       = Return state (set_clock now w').
Proof.
  intros Hget Hread w'. subst w'.
  destruct (_get_processing_state_stored _ _ _ Hget) as (Hrow & Htag & Hman & _ & Hsg).
  destruct (_process_pull_logs_cases w state w1 Hget)
    as (pull_logs & l & Hread' & Hcases).
  simpl in Hread'. rewrite Hread in Hread'. injection Hread' as <- ->.
  destruct Hcases as [[_ Hpass]|[[Hne _]|[Hne _]]]; [|done|done].
  split; [exact Hpass|]. simpl.
  split; [reflexivity|]. split; [exact Hrow|].
  split; [|split; [exact Htag|split; [exact Hman|]]].
  - intros [state0 Hrow0].
    destruct (_get_processing_state_cases w)
      as [[e He]|[(state1 & Hrow1 & Hget1)|(Hnone & _)]]; [congruence| |congruence].
    rewrite Hget in Hget1. by injection Hget1 as _ ->.
  - intros now. unfold _get_processing_state. unfold_monad.
    rewrite Hsg. simpl. by rewrite Hrow.
Qed.

(** C10: no pass advances [last_processed_log_id]: the attribute test
    [hasattr(log_entry, 'id')] of the loop is false for every event, also
    one with an 'id' key, so over any number of cycles the column keeps the
    value it had, null when the row was created by the first run. *)
Theorem last_processed_log_id_never_advances (w w' : World) :
  reachable POLL_PERIOD BATCH_SIZE LOOKBACK_HOURS db_fails lookup_logs json_loads w w' ->
  checkpoint_log_id w' = checkpoint_log_id w
  /\ (forall state',
        pullstatisticsprocessingstate w' !! WORKER_ID = Some state' ->
        last_processed_log_id state' = checkpoint_log_id w)
  /\ forall entry : log_entry, hasattr entry "id" = false.
Proof.
  intros Hreach. destruct (reachable_invariant w w' Hreach) as [Hid _].
  split; [exact Hid|]. split; [|exact hasattr_id_false].
  intros state' Hrow'. rewrite <- Hid. unfold checkpoint_log_id. by rewrite Hrow'.
Qed.

(** ** The shape of the world after an event *)

Lemma relates_bind {A A'} (R : World -> World -> Prop) (c : M A) (k : A -> M A') :
  (forall w1 w2 w3, R w1 w2 -> R w2 w3 -> R w1 w3) ->
  relates R c -> (forall a, relates R (k a)) -> relates R (c ≫= k).
Proof.
  intros Htrans Hc Hk w. specialize (Hc w). unfold_monad.
  destruct (c w) as [a w1|e w1]; simpl in *; [|exact Hc].
  exact (Htrans _ _ _ Hc (Hk a w1)).
Qed.

Lemma relates_try_except {A} (R : World -> World -> Prop) (c : M A)
    (h : Exception -> M A) :
  (forall w1 w2 w3, R w1 w2 -> R w2 w3 -> R w1 w3) ->
  relates R c -> (forall e, relates R (h e)) -> relates R (try_except c h).
Proof.
  intros Htrans Hc Hh w. specialize (Hc w). unfold try_except.
  destruct (c w) as [a w1|e w1]; simpl in *; [exact Hc|].
  exact (Htrans _ _ _ Hc (Hh e w1)).
Qed.

(** The manifest-side update, whatever fails: the table is as before, or
    the row of its key is replaced by [manifest_row_after]. *)
Lemma _update_manifest_pull_stats_shape r d dt via w :
  exists m,
    world_of (_update_manifest_pull_stats db_fails r d dt via w)
    = set_manifestpullstatistics m w
    /\ (m = manifestpullstatistics w
        \/ m = <[(r, d) := manifest_row_after (manifestpullstatistics w !! (r, d))
                             (clock w) dt via]> (manifestpullstatistics w)).
Proof.
  unfold _update_manifest_pull_stats, ManifestPullStatistics_get_or_create,
    ManifestPullStatistics_update.
  unfold_monad.
  destruct (db_fails (ManifestStatGetOrCreate r d)); simpl.
  { exists (manifestpullstatistics w). split; [by destruct w|by left]. }
  destruct (manifestpullstatistics w !! (r, d)) as [row|] eqn:Hrow; simpl.
  - destruct (db_fails (ManifestStatUpdate r d)); simpl.
    { exists (manifestpullstatistics w). split; [by destruct w|by left]. }
    rewrite Hrow. simpl. eexists. split; [reflexivity|]. by right.
  - eexists. split; [reflexivity|]. by right.
Qed.

(** The tag lookup returns and writes nothing but log records. *)
Lemma _get_manifest_digest_for_tag_returns r t w :
  exists o l,
    _get_manifest_digest_for_tag db_fails r t w = Return o (set_logger l w).
Proof.
  unfold _get_manifest_digest_for_tag. unfold_monad.
  destruct (db_fails (TagSelect r t)); simpl.
  - by eexists _, _.
  - exists (tag_manifest_digest <$> find (is_active_tag r t) (tag w)), (logger w).
    rewrite set_logger_id. by destruct (find _ _).
Qed.

(** The tag-side update, whatever fails: the tag table is as before or
    has the row of its key replaced by [tag_row_after]; the manifest table
    is as before or has one row of the same repository replaced by
    [manifest_row_after]. *)
Lemma _update_tag_pull_stats_shape r t dt digest w :
  exists tags manifests l,
    world_of (_update_tag_pull_stats db_fails r t dt digest w)
    = set_manifestpullstatistics manifests
        (set_tagpullstatistics tags (set_logger l w))
    /\ (tags = tagpullstatistics w
        \/ exists d,
             tags = <[(r, t) := tag_row_after (tagpullstatistics w !! (r, t))
                                  (clock w) dt d]> (tagpullstatistics w))
    /\ (manifests = manifestpullstatistics w
        \/ exists d,
             manifests = <[(r, d) := manifest_row_after
                                       (manifestpullstatistics w !! (r, d))
                                       (clock w) dt (Some t)]>
                           (manifestpullstatistics w)).
Proof.
  unfold _update_tag_pull_stats.
  unfold mbind at 1, M_bind at 1.
  assert (Hlookup : exists o l,
             match truthy_str digest with
             | Some _ => mret digest
             | None => _get_manifest_digest_for_tag db_fails r t
             end w = Return o (set_logger l w)).
  { destruct (truthy_str digest).
    - exists digest, (logger w). by rewrite set_logger_id.
    - apply _get_manifest_digest_for_tag_returns. }
  destruct Hlookup as (o & l & ->).
  destruct (truthy_str o) as [d|]; [|tables_as_before w].
  unfold TagPullStatistics_get_or_create, TagPullStatistics_update.
  unfold_monad. simpl.
  destruct (db_fails (TagStatGetOrCreate r t)); [tables_as_before w|]. simpl.
  destruct (tagpullstatistics w !! (r, t)) as [row|] eqn:Hrow; simpl.
  - destruct (db_fails (TagStatUpdate r t)); [tables_as_before w|].
    simpl. rewrite Hrow. simpl.
    match goal with
    | |- context [_update_manifest_pull_stats db_fails r d dt ?via ?w1] =>
        destruct (_update_manifest_pull_stats_shape r d dt via w1) as (m & -> & Hm)
    end.
    eexists _, m, l. split; [reflexivity|]. split.
    + right. by exists d.
    + simpl in Hm. destruct Hm as [->| ->]; [by left|right; by exists d].
  - match goal with
    | |- context [_update_manifest_pull_stats db_fails r d dt ?via ?w1] =>
        destruct (_update_manifest_pull_stats_shape r d dt via w1) as (m & -> & Hm)
    end.
    eexists _, m, l. split; [reflexivity|]. split.
    + right. by exists d.
    + simpl in Hm. destruct Hm as [->| ->]; [by left|right; by exists d].
Qed.

(** ** Rows are kept and counts grow *)

Lemma stats_grow_refl w : stats_grow w w.
Proof.
  split; intros k row Hrow; exists row; repeat split; (done || lia).
Qed.

Lemma stats_grow_trans w1 w2 w3 : stats_grow w1 w2 -> stats_grow w2 w3 -> stats_grow w1 w3.
Proof.
  intros [Ht12 Hm12] [Ht23 Hm23]. split.
  - intros k row Hrow.
    destruct (Ht12 k row Hrow) as (row2 & Hrow2 & Hle2).
    destruct (Ht23 k row2 Hrow2) as (row3 & Hrow3 & Hle3).
    exists row3. split; [done|lia].
  - intros k row Hrow.
    destruct (Hm12 k row Hrow) as (row2 & Hrow2 & Hle2 & Hdate2).
    destruct (Hm23 k row2 Hrow2) as (row3 & Hrow3 & Hle3 & Hdate3).
    exists row3. split; [done|]. split; lia.
Qed.

(** [stats_grow] looks at the two statistics tables only. *)
Lemma stats_grow_tables w1 w1' w2 w2' :
  stats_tables w1' = stats_tables w1 ->
  stats_tables w2' = stats_tables w2 ->
  stats_grow w1 w2 -> stats_grow w1' w2'.
Proof.
  unfold stats_tables, stats_grow. intros [= -> ->] [= -> ->]. done.
Qed.

Lemma relates_of_preserves {A} (c : M A) :
  preserves stats_tables c -> relates stats_grow c.
Proof.
  intros Hc w.
  apply (stats_grow_tables w w w (world_of (c w))); [done|apply Hc|apply stats_grow_refl].
Qed.

Lemma manifest_row_after_grows found now dt via row :
  found = Some row ->
  total_pull_count row <= total_pull_count (manifest_row_after found now dt via)
  /\ last_pull_date row <= last_pull_date (manifest_row_after found now dt via).
Proof.
  intros ->. simpl. split; [lia|].
  destruct (last_pull_date row <? dt) eqn:Hdt; [|lia].
  apply Z.ltb_lt in Hdt. lia.
Qed.

Lemma stats_grow_shape w tags manifests l dt :
  (tags = tagpullstatistics w
   \/ exists r t d,
        tags = <[(r, t) := tag_row_after (tagpullstatistics w !! (r, t)) (clock w) dt d]>
                 (tagpullstatistics w)) ->
  (manifests = manifestpullstatistics w
   \/ exists r d via,
        manifests = <[(r, d) := manifest_row_after (manifestpullstatistics w !! (r, d))
                                  (clock w) dt via]> (manifestpullstatistics w)) ->
  stats_grow w
    (set_manifestpullstatistics manifests (set_tagpullstatistics tags (set_logger l w))).
Proof.
  intros Htags Hmanifests. split; simpl.
  - intros k row Hrow. destruct Htags as [->|(r & t & d & ->)].
    + exists row. split; [done|lia].
    + destruct (decide ((r, t) = k)) as [<-|Hne].
      * rewrite lookup_insert_eq, Hrow. eexists. split; [reflexivity|]. simpl. lia.
      * rewrite lookup_insert_ne by done. exists row. split; [done|lia].
  - intros k row Hrow. destruct Hmanifests as [->|(r & d & via & ->)].
    + exists row. split; [done|]. split; lia.
    + destruct (decide ((r, d) = k)) as [<-|Hne].
      * rewrite lookup_insert_eq. eexists. split; [reflexivity|].
        by apply manifest_row_after_grows.
      * rewrite lookup_insert_ne by done. exists row. split; [done|]. split; lia.
Qed.

Lemma _process_single_log_grow entry :
  relates stats_grow (_process_single_log db_fails entry).
Proof.
  intros w. by_metadata entry metadata Hdict;
    (destruct (truthy_int _) as [r|]; [|apply stats_grow_refl]);
    [|apply stats_grow_refl].
  destruct (truthy_str (md_tag _)) as [t|].
  - destruct (_update_tag_pull_stats_shape r t (le_datetime entry)
                (md_manifest_digest metadata) w)
      as (tags & manifests & l & -> & Htags & Hmanifests).
    apply (stats_grow_shape w tags manifests l (le_datetime entry)).
    + destruct Htags as [->|[d ->]]; [by left|right; by exists r, t, d].
    + destruct Hmanifests as [->|[d ->]]; [by left|right; by exists r, d, (Some t)].
  - destruct (truthy_str (md_manifest_digest _)) as [d|]; [|apply stats_grow_refl].
    destruct (_update_manifest_pull_stats_shape r d (le_datetime entry) None w)
      as (m & -> & Hm).
    apply (stats_grow_tables w w
             (set_manifestpullstatistics m
                (set_tagpullstatistics (tagpullstatistics w) (set_logger (logger w) w))));
      [done|done|].
    apply (stats_grow_shape w _ m _ (le_datetime entry)); [by left|].
    destruct Hm as [->| ->]; [by left|right; by exists r, d, None].
Qed.

Lemma execute_tables op : preserves stats_tables (execute db_fails op).
Proof. apply preserves_execute. Qed.

Lemma _get_processing_state_tables :
  preserves stats_tables (_get_processing_state LOOKBACK_HOURS db_fails).
Proof.
  intros w.
  destruct (_get_processing_state_cases w) as [[e ->]|[(state & _ & ->)|(_ & ->)]];
    reflexivity.
Qed.

Lemma _update_processing_state_tables ld lid pc :
  preserves stats_tables (_update_processing_state db_fails ld lid pc).
Proof.
  intros w. unfold _update_processing_state. unfold_monad.
  destruct (db_fails StateUpdate); [done|]. simpl.
  by destruct (pullstatisticsprocessingstate w !! WORKER_ID).
Qed.

Lemma _get_pull_logs_tables start_datetime end_datetime :
  preserves stats_tables
    (_get_pull_logs BATCH_SIZE db_fails lookup_logs json_loads start_datetime end_datetime).
Proof.
  intros w.
  destruct (_get_pull_logs_returns start_datetime end_datetime w) as (logs & l & ->).
  reflexivity.
Qed.

(** ** From one event to every cycle *)

(** A relation between worlds that looks at the statistics tables only,
    is reflexive and transitive, and holds across the processing of one
    event, holds across batches, passes and cycles: a rollback restores the
    tables, and everything else in a pass leaves them alone. *)
Section Chain.

Variable R : World -> World -> Prop.
Hypothesis R_refl : forall w, R w w.
Hypothesis R_trans : forall w1 w2 w3, R w1 w2 -> R w2 w3 -> R w1 w3.
Hypothesis R_tables :
  forall w1 w1' w2 w2',
    stats_tables w1' = stats_tables w1 ->
    stats_tables w2' = stats_tables w2 ->
    R w1 w2 -> R w1' w2'.
Hypothesis R_event : forall entry, relates R (_process_single_log db_fails entry).

Lemma relates_tables {A} (c : M A) : preserves stats_tables c -> relates R c.
Proof.
  intros Hc w.
  apply (R_tables w w w (world_of (c w))); [done|apply Hc|apply R_refl].
Qed.

Lemma relates_log lvl fmt a : relates R (log lvl fmt a).
Proof. apply relates_tables. by apply preserves_log. Qed.

Lemma for_log_entry_in_log_batch_relates log_batch :
  relates R (for_log_entry_in_log_batch db_fails log_batch).
Proof.
  induction log_batch as [|entry rest IH]; simpl.
  - apply relates_tables, preserves_ret.
  - apply relates_bind; [apply R_trans| |intros _; exact IH].
    apply relates_try_except; [apply R_trans|apply R_event|].
    intros e. apply relates_log.
Qed.

Lemma _process_log_batch_relates log_batch :
  relates R (_process_log_batch db_fails log_batch).
Proof.
  intros w. unfold _process_log_batch, db_transaction.
  pose proof (for_log_entry_in_log_batch_relates log_batch
                (set_transactions (S (transactions w)) w)) as Hloop.
  destruct (for_log_entry_in_log_batch db_fails log_batch _) as [[] w1|e w1];
    simpl in *.
  - destruct (db_fails (Commit (transactions w))); simpl.
    + apply (R_tables w w w _); [done|reflexivity|apply R_refl].
    + eapply R_tables; [| |exact Hloop]; reflexivity.
  - apply (R_tables w w w _); [done|reflexivity|apply R_refl].
Qed.

Lemma for_log_entry_in_pull_logs_relates pull_logs :
  forall batch latest_datetime latest_log_id processed_count,
    relates R
      (for_log_entry_in_pull_logs BATCH_SIZE db_fails pull_logs batch latest_datetime
         latest_log_id processed_count).
Proof.
  induction pull_logs as [|entry rest IH]; intros batch ld lid pc; simpl.
  - apply relates_tables, preserves_ret.
  - apply relates_bind; [apply R_trans|apply relates_tables, preserves_ret|].
    intros lid'.
    destruct (BATCH_SIZE <=? length (batch ++ [entry]))%nat; [|apply IH].
    apply relates_bind; [apply R_trans|apply _process_log_batch_relates|].
    intros _. apply IH.
Qed.

Lemma _process_pull_logs_relates :
  relates R (_process_pull_logs BATCH_SIZE LOOKBACK_HOURS db_fails lookup_logs json_loads).
Proof.
  unfold _process_pull_logs.
  apply relates_bind;
    [apply R_trans|apply relates_tables, _get_processing_state_tables|].
  intros state.
  apply relates_bind; [apply R_trans|apply relates_tables; by intros w|].
  intros w0.
  apply relates_bind; [apply R_trans|apply relates_log|]. intros _.
  apply relates_bind; [apply R_trans|apply relates_tables, _get_pull_logs_tables|].
  intros [|entry rest]; [apply relates_log|].
  apply relates_bind; [apply R_trans|apply for_log_entry_in_pull_logs_relates|].
  intros [[[batch ld] lid] pc].
  apply relates_bind; [apply R_trans| |].
  - destruct batch as [|entry' batch]; [apply relates_tables, preserves_ret|].
    apply relates_bind; [apply R_trans|apply _process_log_batch_relates|].
    intros _. apply relates_tables, preserves_ret.
  - intros pc'.
    apply relates_bind;
      [apply R_trans|apply relates_tables, _update_processing_state_tables|].
    intros _. apply relates_log.
Qed.

Lemma _sync_pull_stats_relates :
  relates R
    (_sync_pull_stats POLL_PERIOD BATCH_SIZE LOOKBACK_HOURS db_fails lookup_logs json_loads).
Proof.
  intros w. unfold _sync_pull_stats, try_except, GlobalLock.
  destruct (match locks w !! _ with Some expiry => clock w <? expiry | None => false end).
  - apply (R_tables w w w _); [done|reflexivity|apply R_refl].
  - match goal with
    | |- context [_process_pull_logs _ _ _ _ _ ?w1] =>
        pose proof (_process_pull_logs_relates w1) as Hpass;
        destruct (_process_pull_logs BATCH_SIZE LOOKBACK_HOURS db_fails lookup_logs
                    json_loads w1) as [[] w2|e w2]
    end.
    + eapply R_tables; [| |exact Hpass]; reflexivity.
    + destruct e; (eapply R_tables; [| |exact Hpass]; reflexivity).
Qed.

Lemma reachable_relates w w' :
  reachable POLL_PERIOD BATCH_SIZE LOOKBACK_HOURS db_fails lookup_logs json_loads w w' ->
  R w w'.
Proof.
  induction 1 as [|w' Hreach IH|w' w'' Hreach IH Htag Hmanifest _].
  - apply R_refl.
  - exact (R_trans _ _ _ IH (_sync_pull_stats_relates w')).
  - apply (R_tables w w w' w''); [done| |exact IH].
    unfold stats_tables. by rewrite Htag, Hmanifest.
Qed.

End Chain.

(** ** Properties of the statistics over any number of cycles *)

(** X7: Over any number of cycles and whatever statements fail, no row of
    TagPullStatistics or ManifestPullStatistics is lost, no count gets
    smaller, and no [last_pull_date] of a manifest gets earlier. *)
Theorem statistics_rows_kept_and_counts_grow (w w' : World) :
  reachable POLL_PERIOD BATCH_SIZE LOOKBACK_HOURS db_fails lookup_logs json_loads w w' ->
  stats_grow w w'.
Proof.
  apply (reachable_relates stats_grow).
  - apply stats_grow_refl.
  - apply stats_grow_trans.
  - apply stats_grow_tables.
  - apply _process_single_log_grow.
Qed.

(** The tag-side update when no write to ManifestPullStatistics fails:
    either both tables are as before, or the tag row and the manifest row
    of the same digest are written together. *)
Lemma _update_tag_pull_stats_paired r t dt digest w :
  (forall r d, db_fails (ManifestStatGetOrCreate r d) = false) ->
  (forall r d, db_fails (ManifestStatUpdate r d) = false) ->
  exists l,
    world_of (_update_tag_pull_stats db_fails r t dt digest w) = set_logger l w
    \/ exists d,
         world_of (_update_tag_pull_stats db_fails r t dt digest w)
         = set_manifestpullstatistics
             (<[(r, d) := manifest_row_after (manifestpullstatistics w !! (r, d))
                            (clock w) dt (Some t)]> (manifestpullstatistics w))
             (set_tagpullstatistics
                (<[(r, t) := tag_row_after (tagpullstatistics w !! (r, t)) (clock w) dt d]>
                   (tagpullstatistics w)) (set_logger l w)).
Proof.
  intros Hgoc Hupd.
  remember (world_of (_update_tag_pull_stats db_fails r t dt digest w)) as res eqn:Hres.
  unfold _update_tag_pull_stats in Hres.
  unfold mbind at 1, M_bind at 1 in Hres.
  assert (Hlookup : exists o l,
             match truthy_str digest with
             | Some _ => mret digest
             | None => _get_manifest_digest_for_tag db_fails r t
             end w = Return o (set_logger l w)).
  { destruct (truthy_str digest).
    - exists digest, (logger w). by rewrite set_logger_id.
    - apply _get_manifest_digest_for_tag_returns. }
  destruct Hlookup as (o & l & Hlookup). rewrite Hlookup in Hres.
  destruct (truthy_str o) as [d|]; [|eexists; left; by subst res].
  unfold TagPullStatistics_get_or_create, TagPullStatistics_update in Hres.
  unfold_monad. simpl in Hres.
  destruct (db_fails (TagStatGetOrCreate r t)); [eexists; left; by subst res|].
  simpl in Hres.
  destruct (tagpullstatistics w !! (r, t)) as [row|] eqn:Hrow; simpl in Hres.
  - destruct (db_fails (TagStatUpdate r t)); [eexists; left; by subst res|].
    simpl in Hres. rewrite Hrow in Hres. simpl in Hres.
    rewrite (_update_manifest_pull_stats_ok r d dt (Some t) _ (Hgoc r d) (Hupd r d))
      in Hres.
    exists l. right. exists d. subst res. reflexivity.
  - rewrite (_update_manifest_pull_stats_ok r d dt (Some t) _ (Hgoc r d) (Hupd r d))
      in Hres.
    exists l. right. exists d. subst res. reflexivity.
Qed.

Lemma tag_row_after_digest found now dt d :
  current_manifest_digest (tag_row_after found now dt d) = d.
Proof. by destruct found. Qed.

Lemma digests_tracked_tables w w' :
  stats_tables w' = stats_tables w -> digests_tracked w -> digests_tracked w'.
Proof.
  unfold stats_tables, digests_tracked. intros [= -> ->]. done.
Qed.

Lemma _process_single_log_tracked entry w :
  (forall r d, db_fails (ManifestStatGetOrCreate r d) = false) ->
  (forall r d, db_fails (ManifestStatUpdate r d) = false) ->
  digests_tracked w ->
  digests_tracked (world_of (_process_single_log db_fails entry w)).
Proof.
  intros Hgoc Hupd Htracked. by_metadata entry metadata Hdict;
    (destruct (truthy_int _) as [r|]; [|done]); [|done].
  destruct (truthy_str (md_tag _)) as [t|].
  - destruct (_update_tag_pull_stats_paired r t (le_datetime entry)
                (md_manifest_digest metadata) w
                Hgoc Hupd) as [l [->|[d ->]]].
    + by apply (digests_tracked_tables w).
    + intros r' t' row'. simpl.
      destruct (decide ((r, t) = (r', t'))) as [[= <- <-]|Hne].
      * rewrite lookup_insert_eq. intros [= <-].
        rewrite tag_row_after_digest, lookup_insert_eq. by eexists.
      * rewrite lookup_insert_ne by done. intros Hrow'.
        apply lookup_insert_is_Some'. right. exact (Htracked r' t' row' Hrow').
  - destruct (truthy_str (md_manifest_digest _)) as [d|]; [|done].
    rewrite (_update_manifest_pull_stats_ok r d _ None w (Hgoc r d) (Hupd r d)).
    intros r' t' row' Hrow'. simpl in *.
    apply lookup_insert_is_Some'. right. exact (Htracked r' t' row' Hrow').
Qed.

Lemma reachable_tracked w w' :
  (forall r d, db_fails (ManifestStatGetOrCreate r d) = false) ->
  (forall r d, db_fails (ManifestStatUpdate r d) = false) ->
  reachable POLL_PERIOD BATCH_SIZE LOOKBACK_HOURS db_fails lookup_logs json_loads w w' ->
  digests_tracked w ->
  digests_tracked w'.
Proof.
  intros Hgoc Hupd.
  apply (reachable_relates (fun w w' => digests_tracked w -> digests_tracked w')).
  - done.
  - intros w1 w2 w3 H12 H23 H1. exact (H23 (H12 H1)).
  - intros w1 w1' w2 w2' H1 H2 H12 H1'.
    apply (digests_tracked_tables w2); [done|].
    apply H12. by apply (digests_tracked_tables w1').
  - intros entry w0. by apply _process_single_log_tracked.
Qed.

(** X8: As long as no write to ManifestPullStatistics fails, the worker keeps
    this invariant over any number of cycles: every tag row's
    [current_manifest_digest] has a manifest row in the same repository. *)
Theorem tag_rows_keep_their_manifest_row (w w' : World) :
  (forall r d, db_fails (ManifestStatGetOrCreate r d) = false) ->
  (forall r d, db_fails (ManifestStatUpdate r d) = false) ->
  reachable POLL_PERIOD BATCH_SIZE LOOKBACK_HOURS db_fails lookup_logs json_loads w w' ->
  digests_tracked w ->
  digests_tracked w'.
Proof. apply reachable_tracked. Qed.

(** ** Pulls of one manifest *)

Lemma manifest_row_after_date found now dt via :
  last_pull_date (manifest_row_after found now dt via)
  = from_option (Z.max dt) dt (last_pull_date <$> found).
Proof.
  destruct found as [row|]; simpl; [|done].
  destruct (last_pull_date row <? dt) eqn:Hdt.
  - apply Z.ltb_lt in Hdt. lia.
  - apply Z.ltb_ge in Hdt. lia.
Qed.

Lemma manifest_row_after_count found now dt via :
  total_pull_count (manifest_row_after found now dt via)
  = from_option total_pull_count 0 found + 1.
Proof. by destruct found. Qed.

Lemma tag_row_after_count found now dt d :
  tag_pull_count (tag_row_after found now dt d) = from_option tag_pull_count 0 found + 1.
Proof. by destruct found. Qed.

(** One pull of a manifest whose event carries the digest, with no failing
    statement. *)
Lemma manifest_pull_counted r d entry w :
  (forall op, db_fails op = false) ->
  pull_of_manifest r d entry ->
  exists w' via,
    _process_single_log db_fails entry w = Return tt w'
    /\ manifestpullstatistics w' !! (r, d)
       = Some (manifest_row_after (manifestpullstatistics w !! (r, d)) (clock w)
                 (le_datetime entry) via).
Proof.
  intros Hok [Hrepo Hdigest].
  destruct (event_digest_dict entry d Hdigest) as (metadata & Hdict & Hdigest' & _).
  rewrite (_process_single_log_dict entry metadata Hdict), Hrepo, Hdigest'.
  destruct (truthy_str (md_tag _)) as [t|].
  - rewrite (_update_tag_pull_stats_ok r t _ _ d w Hdigest' (Hok _) (Hok _) (Hok _) (Hok _)).
    eexists _, (Some t). split; [reflexivity|]. simpl. by rewrite lookup_insert_eq.
  - rewrite (_update_manifest_pull_stats_ok r d _ None w (Hok _) (Hok _)).
    eexists _, None. split; [reflexivity|]. simpl. by rewrite lookup_insert_eq.
Qed.

Lemma max_datetime_swap acc x y :
  max_datetime acc [x; y] = max_datetime acc [y; x].
Proof.
  unfold max_datetime. simpl. f_equal. destruct acc; simpl; lia.
Qed.

(** The latest date does not depend on the order of the events. *)
Lemma max_datetime_permutation events events' :
  events ≡ₚ events' -> forall acc, max_datetime acc events = max_datetime acc events'.
Proof.
  induction 1 as [|x l l' _ IH|x y l|l1 l2 l3 _ IH1 _ IH2]; intros acc.
  - done.
  - apply IH.
  - change (max_datetime (max_datetime acc [y; x]) l
            = max_datetime (max_datetime acc [x; y]) l).
    by rewrite max_datetime_swap.
  - by rewrite IH1.
Qed.

(** X1: N pulls of one manifest, by tag or by digest, each event carrying the
    digest, processed with no failing statement: the count of the manifest
    row grows by N and its [last_pull_date] is the latest of the date it
    had and the dates of the events, whatever the order of the events. *)
Theorem manifest_pulls_counted_with_latest_date
    (r : Z) (d : string) (events : list log_entry) (w : World) :
  (forall op, db_fails op = false) ->
  Forall (pull_of_manifest r d) events ->
  exists w',
    for_log_entry_in_log_batch db_fails events w = Return tt w'
    /\ manifest_count w' r d = manifest_count w r d + Z.of_nat (length events)
    /\ last_pull_date <$> manifestpullstatistics w' !! (r, d)
       = max_datetime (last_pull_date <$> manifestpullstatistics w !! (r, d)) events
    /\ forall events',
         events ≡ₚ events' ->
         exists w'',
           for_log_entry_in_log_batch db_fails events' w = Return tt w''
           /\ manifest_count w'' r d = manifest_count w' r d
           /\ last_pull_date <$> manifestpullstatistics w'' !! (r, d)
              = last_pull_date <$> manifestpullstatistics w' !! (r, d).
Proof.
  intros Hok.
  assert (Hrun : forall events,
             Forall (pull_of_manifest r d) events ->
             forall w,
             exists w',
               for_log_entry_in_log_batch db_fails events w = Return tt w'
               /\ manifest_count w' r d = manifest_count w r d + Z.of_nat (length events)
               /\ last_pull_date <$> manifestpullstatistics w' !! (r, d)
                  = max_datetime (last_pull_date <$> manifestpullstatistics w !! (r, d))
                      events).
  { clear events w. induction 1 as [|entry rest Hentry Hrest IH]; intros w.
    - exists w. split; [reflexivity|]. split; [simpl; lia|reflexivity].
    - destruct (manifest_pull_counted r d entry w Hok Hentry) as (w1 & via & Hstep & Hrow).
      destruct (IH w1) as (w' & Hloop & Hcount & Hdate).
      exists w'. split; [|split].
      + simpl. unfold_monad. by rewrite Hstep.
      + rewrite Hcount. unfold manifest_count at 1. rewrite Hrow. simpl.
        rewrite manifest_row_after_count. unfold manifest_count.
        rewrite Nat2Z.inj_succ. lia.
      + rewrite Hdate, Hrow. simpl. rewrite manifest_row_after_date.
        reflexivity. }
  intros Hevents.
  destruct (Hrun events Hevents w) as (w' & Hloop & Hcount & Hdate).
  exists w'. split; [exact Hloop|]. split; [exact Hcount|]. split; [exact Hdate|].
  intros events' Hperm.
  assert (Hevents' : Forall (pull_of_manifest r d) events') by by rewrite <- Hperm.
  destruct (Hrun events' Hevents' w) as (w'' & Hloop' & Hcount' & Hdate').
  exists w''. split; [exact Hloop'|]. split.
  - rewrite Hcount', Hcount. by rewrite Hperm.
  - rewrite Hdate', Hdate. symmetry. by apply max_datetime_permutation.
Qed.

(** ** Events that write nothing *)

Lemma _process_single_log_skipped entry w :
  skipped_event entry -> _process_single_log db_fails entry w = Return tt w.
Proof.
  unfold _process_single_log, skipped_event, event_tag, event_digest.
  intros [->|(Hdict & Htag & Hdigest)]; [done|].
  destruct (truthy_int _); [|done].
  destruct (le_metadata entry) as [[metadata|]|]; simpl in *; [|done|done].
  by rewrite Htag, Hdigest.
Qed.

(** X5: A batch of events that have no repository id, or a metadata
    dictionary with neither a tag nor a digest, writes nothing and logs
    nothing, whether its commit succeeds or fails: the world is as before
    but for the count of transactions. *)
Theorem skipped_events_write_nothing (events : list log_entry) (w : World) :
  Forall skipped_event events ->
  world_of (_process_log_batch db_fails events w)
  = set_transactions (S (transactions w)) w.
Proof.
  intros Hevents.
  assert (Hloop : forall w0, for_log_entry_in_log_batch db_fails events w0 = Return tt w0).
  { induction Hevents as [|entry rest Hentry _ IH]; intros w0; simpl; [done|].
    unfold_monad. rewrite (_process_single_log_skipped entry w0 Hentry). apply IH. }
  unfold _process_log_batch, db_transaction. rewrite Hloop.
  destruct (db_fails (Commit (transactions w))); reflexivity.
Qed.

(** X6: A batch of pulls by digest (events without a tag) leaves
    TagPullStatistics as it was, whatever fails. *)
Theorem digest_pulls_leave_tag_statistics (events : list log_entry) (w : World) :
  Forall (fun entry => event_tag entry = None) events ->
  tagpullstatistics (world_of (_process_log_batch db_fails events w))
  = tagpullstatistics w.
Proof.
  intros Hevents.
  assert (Hloop : preserves tagpullstatistics (for_log_entry_in_log_batch db_fails events)).
  { induction Hevents as [|entry rest Hentry _ IH]; simpl; [apply preserves_ret|].
    apply preserves_bind; [|intros _; exact IH].
    apply preserves_try_except; [|intros e; by apply preserves_log].
    unfold event_tag in Hentry.
    by_metadata entry metadata Hdict;
      (destruct (truthy_int _) as [r|]; [|apply preserves_ret]); [|done].
    rewrite Hentry.
    destruct (truthy_str (md_manifest_digest _)) as [d|]; [|apply preserves_ret].
    apply _update_manifest_pull_stats_tagstats. }
  unfold _process_log_batch, db_transaction.
  specialize (Hloop (set_transactions (S (transactions w)) w)).
  destruct (for_log_entry_in_log_batch db_fails events _) as [[] w1|e w1];
    simpl in *; [|done].
  by destruct (db_fails (Commit (transactions w))).
Qed.

(** ** The fallback query *)

Lemma elem_of_insert_by_datetime x y l :
  y ∈ insert_by_datetime x l <-> y = x \/ y ∈ l.
Proof.
  induction l as [|z l IH]; simpl.
  - rewrite list_elem_of_singleton, elem_of_nil. tauto.
  - destruct (log_datetime x <=? log_datetime z).
    + rewrite elem_of_cons. tauto.
    + rewrite !elem_of_cons, IH. tauto.
Qed.

Lemma elem_of_order_by_datetime y l : y ∈ order_by_datetime l <-> y ∈ l.
Proof.
  induction l as [|x l IH]; simpl; [done|].
  rewrite elem_of_insert_by_datetime, IH, elem_of_cons. tauto.
Qed.

Lemma insert_by_datetime_sorted x l :
  StronglySorted (fun a b => log_datetime a <= log_datetime b) l ->
  StronglySorted (fun a b => log_datetime a <= log_datetime b) (insert_by_datetime x l).
Proof.
  induction 1 as [|z l Hsorted IH Hz]; simpl.
  - repeat constructor.
  - destruct (log_datetime x <=? log_datetime z) eqn:Hle.
    + apply Z.leb_le in Hle. constructor; [by constructor|].
      constructor; [done|]. eapply Forall_impl; [exact Hz|]. simpl. intros; lia.
    + apply Z.leb_gt in Hle. constructor; [exact IH|].
      apply Forall_forall. intros y Hy.
      apply elem_of_insert_by_datetime in Hy as [->|Hy]; [lia|].
      by apply (proj1 (Forall_forall _ _) Hz).
Qed.

Lemma order_by_datetime_sorted l :
  StronglySorted (fun a b => log_datetime a <= log_datetime b) (order_by_datetime l).
Proof.
  induction l as [|x l IH]; simpl; [constructor|].
  by apply insert_by_datetime_sorted.
Qed.

Lemma StronglySorted_sublist_of {A} (R : A -> A -> Prop) (l1 l2 : list A) :
  l1 `sublist_of` l2 -> StronglySorted R l2 -> StronglySorted R l1.
Proof.
  induction 1 as [|x l1 l2 Hsub IH|x l1 l2 Hsub IH]; intros Hsorted.
  - constructor.
  - apply StronglySorted_inv in Hsorted as [Hsorted Hx].
    constructor; [by apply IH|].
    apply Forall_forall. intros y Hy.
    apply (proj1 (Forall_forall _ _) Hx). by apply (elem_of_sublist l1).
  - apply StronglySorted_inv in Hsorted as [Hsorted _]. by apply IH.
Qed.

(** The conversion keeps the rows in order, leaving out those whose
    metadata does not parse. *)
Lemma format_logs_spec rows w :
  exists logs l rows',
    format_logs json_loads rows w = Return logs (set_logger l w)
    /\ rows' `sublist_of` rows
    /\ Forall2 event_of_row logs rows'.
Proof.
  revert w. induction rows as [|row rest IH]; intros w; simpl.
  - exists [], (logger w), []. rewrite set_logger_id. by repeat split.
  - destruct (if (log_metadata_json row =? "")%string then _ else _) as [metadata|].
    + unfold_monad. destruct (IH w) as (logs & l & rows' & -> & Hsub & Hall).
      eexists _, l, (row :: rows'). split; [reflexivity|].
      split; [by constructor|]. constructor; [|done]. by repeat split.
    + unfold_monad.
      match goal with
      | |- context [format_logs json_loads rest ?w'] =>
          destruct (IH w') as (logs & l & rows' & -> & Hsub & Hall)
      end.
      eexists logs, l, rows'. split; [reflexivity|]. split; [by constructor|done].
Qed.

(** X11: The fallback query never raises and writes nothing but log records.
    It returns at most 10 * BATCH_SIZE events, in ascending order of
    datetime; each is made of a pull_repo row of the audit log whose
    datetime lies in the window, both ends included; when the query itself
    fails the answer is the empty list. *)
Theorem fallback_query_window_order_and_limit (start_datetime end_datetime : Z)
    (w : World) :
  exists logs l,
    _get_pull_logs_from_database BATCH_SIZE db_fails json_loads start_datetime
      end_datetime w
    = Return logs (set_logger l w)
    /\ (length logs <= BATCH_SIZE * 10)%nat
    /\ StronglySorted Z.le (le_datetime <$> logs)
    /\ Forall (fun entry =>
                 exists row,
                   row ∈ logentry w
                   /\ event_of_row entry row
                   /\ log_kind row = "pull_repo"
                   /\ start_datetime <= le_datetime entry <= end_datetime)
              logs
    /\ (db_fails LogEntrySelect = true -> logs = []).
Proof.
  unfold _get_pull_logs_from_database. unfold_monad.
  destruct (db_fails LogEntrySelect) eqn:Hselect.
  { exists [], (logger w ++ [ {| levelname := ERROR;
                                 msg := "Failed to get pull logs from database: %s";
                                 args := [] |} ]).
    split; [reflexivity|]. split; [simpl; lia|]. split; [constructor|].
    split; [constructor|done]. }
  match goal with
  | |- context [format_logs json_loads ?rows w] =>
      set (selected := rows);
      destruct (format_logs_spec selected w) as (logs & l & rows' & -> & Hsub & Hall)
  end.
  exists logs, l. split; [reflexivity|].
  assert (Hsub' : rows' `sublist_of`
                    order_by_datetime
                      (filter (fun row : LogEntry =>
                                 Is_true ((log_kind row =? "pull_repo")%string
                                          && (start_datetime <=? log_datetime row)
                                          && (log_datetime row <=? end_datetime)))
                              (logentry w))).
  { etrans; [exact Hsub|]. apply sublist_take. }
  split; [|split; [|split; [|done]]].
  - rewrite (Forall2_length _ _ _ Hall).
    etrans; [exact (sublist_length _ _ Hsub)|]. subst selected.
    rewrite length_take. lia.
  - assert (Hsorted : StronglySorted (fun a b => log_datetime a <= log_datetime b) rows').
    { eapply StronglySorted_sublist_of; [exact Hsub'|]. apply order_by_datetime_sorted. }
    clear -Hall Hsorted. induction Hall as [|entry row logs rows' Hrow Hall IH]; simpl.
    + constructor.
    + apply StronglySorted_inv in Hsorted as [Hsorted Hfirst].
      constructor; [by apply IH|].
      clear -Hrow Hall Hfirst. destruct Hrow as (_ & Hdate & _).
      induction Hall as [|entry' row' logs rows' Hrow' Hall IH]; simpl; [constructor|].
      apply Forall_cons in Hfirst as [Hle Hfirst].
      constructor; [|by apply IH].
      destruct Hrow' as (_ & Hdate' & _). lia.
  - assert (Hrows : Forall (fun row =>
                              row ∈ logentry w
                              /\ log_kind row = "pull_repo"
                              /\ start_datetime <= log_datetime row <= end_datetime)
                           rows').
    { apply Forall_forall. intros row Hrow.
      apply (elem_of_sublist _ _ _ Hrow) in Hsub'.
      apply elem_of_order_by_datetime, list_elem_of_filter in Hsub' as [Hpred Hin].
      apply Is_true_true in Hpred.
      apply andb_true_iff in Hpred as [Hpred Hend].
      apply andb_true_iff in Hpred as [Hkind Hstart].
      apply String.eqb_eq in Hkind. apply Z.leb_le in Hstart, Hend.
      split; [done|]. split; [done|lia]. }
    clear -Hall Hrows. induction Hall as [|entry row logs rows' Hrow Hall IH]; [constructor|].
    apply Forall_cons in Hrows as [(Hin & Hkind & Hwindow) Hrows].
    constructor; [|by apply IH].
    exists row. split; [done|]. split; [done|]. split; [done|].
    destruct Hrow as (_ & -> & _). done.
Qed.

(** ** Resolving a tag *)

Lemma is_active_tag_true r t row :
  is_active_tag r t row = true
  <-> tag_repository row = r /\ tag_name_of row = t /\ lifetime_end_ms row = None.
Proof.
  unfold is_active_tag.
  rewrite !andb_true_iff, Z.eqb_eq, String.eqb_eq, bool_decide_eq_true. tauto.
Qed.

(** X4: The tag lookup never raises and writes nothing but log records. A
    digest it returns is the digest of a tag row of that repository and
    name whose lifetime has not ended; when the query succeeds and it
    returns nothing, every tag row of that repository and name has ended;
    when the query fails it returns nothing. *)
Theorem tag_lookup_returns_the_active_binding (r : Z) (t : string) (w : World) :
  exists o l,
    _get_manifest_digest_for_tag db_fails r t w = Return o (set_logger l w)
    /\ (forall d,
          o = Some d ->
          exists row,
            In row (tag w)
            /\ tag_repository row = r /\ tag_name_of row = t
            /\ lifetime_end_ms row = None
            /\ tag_manifest_digest row = d)
    /\ (db_fails (TagSelect r t) = false ->
        o = None ->
        forall row,
          In row (tag w) -> tag_repository row = r -> tag_name_of row = t ->
          is_Some (lifetime_end_ms row))
    /\ (db_fails (TagSelect r t) = true -> o = None).
Proof.
  unfold _get_manifest_digest_for_tag. unfold_monad.
  destruct (db_fails (TagSelect r t)); simpl.
  { eexists None, _. split; [reflexivity|]. by repeat split. }
  destruct (find (is_active_tag r t) (tag w)) as [found|] eqn:Hfind.
  - exists (Some (tag_manifest_digest found)), (logger w). rewrite set_logger_id.
    split; [reflexivity|]. split; [|by split].
    intros d [= <-]. apply find_some in Hfind as [Hin Hactive].
    apply is_active_tag_true in Hactive as (? & ? & ?). by exists found.
  - exists None, (logger w). rewrite set_logger_id.
    split; [reflexivity|]. split; [done|]. split; [|done].
    intros _ _ row Hin Hrepo Hname.
    pose proof (find_none _ _ Hfind row Hin) as Hinactive.
    destruct (lifetime_end_ms row) as [ended|] eqn:Hend; [by eexists|].
    assert (is_active_tag r t row = true) by by apply is_active_tag_true.
    congruence.
Qed.

(** The tag-side update for an event without digest whose tag has an
    active binding, when no statement fails. *)
Lemma _update_tag_pull_stats_looked_up r t dt (digest : option string) row d w :
  (forall op, db_fails op = false) ->
  truthy_str digest = None ->
  find (is_active_tag r t) (tag w) = Some row ->
  truthy_str (Some (tag_manifest_digest row)) = Some d ->
  _update_tag_pull_stats db_fails r t dt digest w
  = Return tt
      (set_manifestpullstatistics
         (<[(r, d) := manifest_row_after (manifestpullstatistics w !! (r, d)) (clock w) dt
                        (Some t)]>
            (manifestpullstatistics w))
         (set_tagpullstatistics
            (<[(r, t) := tag_row_after (tagpullstatistics w !! (r, t)) (clock w) dt d]>
               (tagpullstatistics w)) w)).
Proof.
  intros Hok Hdigest Hfind Hd.
  rewrite <- (_update_tag_pull_stats_ok r t dt (Some (tag_manifest_digest row)) d w Hd
                (Hok _) (Hok _) (Hok _) (Hok _)).
  unfold _update_tag_pull_stats. rewrite Hdigest, Hd.
  unfold mbind at 1, M_bind at 1.
  unfold mbind at 2, M_bind at 2, mret at 1, M_ret at 1.
  unfold _get_manifest_digest_for_tag. unfold try_except at 1.
  unfold mbind at 1, M_bind at 1, execute at 1. rewrite Hok.
  unfold mbind at 1, M_bind at 1, get_world at 1. rewrite Hfind.
  reflexivity.
Qed.

(** X3: A pull by tag that resolves to a digest, carried by the event or looked
    up from the active binding of the tag, counts on both sides when no
    statement fails: one more pull for the tag, one more for the manifest
    of that digest, and the tag row records the digest. *)
Theorem resolved_tag_pull_counts_tag_and_manifest
    (entry : log_entry) (r : Z) (t d : string) (w : World) :
  (forall op, db_fails op = false) ->
  truthy_int (le_repository_id entry) = Some r ->
  event_tag entry = Some t ->
  event_digest entry = Some d
  \/ (event_digest entry = None
      /\ exists row,
           find (is_active_tag r t) (tag w) = Some row
           /\ truthy_str (Some (tag_manifest_digest row)) = Some d) ->
  exists w',
    _process_single_log db_fails entry w = Return tt w'
    /\ tag_count w' r t = tag_count w r t + 1
    /\ manifest_count w' r d = manifest_count w r d + 1
    /\ current_manifest_digest <$> tagpullstatistics w' !! (r, t) = Some d
    /\ last_tag_pull_date <$> tagpullstatistics w' !! (r, t) = Some (le_datetime entry).
Proof.
  intros Hok Hrepo Htag Hresolved.
  destruct (event_tag_dict entry t Htag) as (metadata & Hdict & Htag' & Hdigest').
  rewrite Hdigest' in Hresolved.
  rewrite (_process_single_log_dict entry metadata Hdict), Hrepo, Htag'.
  assert (Hrun :
            _update_tag_pull_stats db_fails r t (le_datetime entry)
              (md_manifest_digest metadata) w
            = Return tt
                (set_manifestpullstatistics
                   (<[(r, d) := manifest_row_after (manifestpullstatistics w !! (r, d))
                                  (clock w) (le_datetime entry) (Some t)]>
                      (manifestpullstatistics w))
                   (set_tagpullstatistics
                      (<[(r, t) := tag_row_after (tagpullstatistics w !! (r, t)) (clock w)
                                     (le_datetime entry) d]>
                         (tagpullstatistics w)) w))).
  { destruct Hresolved as [Hdigest|(Hdigest & row & Hfind & Hd)].
    - by apply _update_tag_pull_stats_ok.
    - by apply (_update_tag_pull_stats_looked_up r t _ _ row d w). }
  rewrite Hrun. eexists. split; [reflexivity|].
  unfold tag_count, manifest_count. simpl. rewrite !lookup_insert_eq. simpl.
  rewrite tag_row_after_count, manifest_row_after_count, tag_row_after_digest.
  repeat split. by destruct (tagpullstatistics w !! (r, t)).
Qed.

(** ** What a pass writes to the checkpoint *)

Lemma for_log_entry_in_pull_logs_counts pull_logs :
  forall batch latest_datetime latest_log_id processed_count w
         batch' latest_datetime' latest_log_id' processed_count' w',
    for_log_entry_in_pull_logs BATCH_SIZE db_fails pull_logs batch latest_datetime
      latest_log_id processed_count w
    = Return (batch', latest_datetime', latest_log_id', processed_count') w' ->
    latest_datetime' = latest_datetime_of latest_datetime pull_logs
    /\ processed_count' + Z.of_nat (length batch')
       = processed_count + Z.of_nat (length batch) + Z.of_nat (length pull_logs).
Proof.
  induction pull_logs as [|entry rest IH];
    intros batch ld lid pc w batch' ld' lid' pc' w'; simpl.
  - unfold_monad. intros [= <- <- <- <- <-]. split; [done|lia].
  - unfold_monad.
    destruct (BATCH_SIZE <=? length (batch ++ [entry]))%nat.
    + destruct (_process_log_batch db_fails (batch ++ [entry]) w) as [[] w1|e w1];
        [|done].
      intros Hloop. apply IH in Hloop as [-> Hcount]. split; [done|].
      rewrite length_app in Hcount. simpl in *. lia.
    + intros Hloop. apply IH in Hloop as [-> Hcount]. split; [done|].
      rewrite length_app in Hcount. simpl in *. lia.
Qed.

Lemma process_batches_counts pull_logs start_datetime last_log_id w
    latest_datetime latest_log_id processed_count w' :
  process_batches BATCH_SIZE db_fails pull_logs start_datetime last_log_id w
  = Return (latest_datetime, latest_log_id, processed_count) w' ->
  latest_datetime = latest_datetime_of start_datetime pull_logs
  /\ processed_count = Z.of_nat (length pull_logs).
Proof.
  unfold process_batches. unfold_monad.
  destruct (for_log_entry_in_pull_logs _ _ _ _ _ _ _ w)
    as [[[[batch ld] lid] pc] w1|e w1] eqn:Hloop; [|done].
  apply for_log_entry_in_pull_logs_counts in Hloop as [-> Hcount].
  destruct batch as [|entry batch].
  - intros [= <- <- <- <-]. split; [done|]. simpl in Hcount. lia.
  - destruct (_process_log_batch db_fails (entry :: batch) w1) as [[] w2|e w2]; [|done].
    intros [= <- <- <- <-]. split; [done|]. simpl in *. lia.
Qed.

(** X9: A pass that read events and returned has written this checkpoint row:
    the watermark is the latest of the old watermark and the datetimes of
    all the events read, the event ordinal is the old one, and the counter
    of processed logs has grown by the number of events read, whether or
    not they were counted in the statistics. *)
Theorem checkpoint_row_after_a_pass (w : World) (state : PullStatisticsProcessingState)
    (w1 : World) (pull_logs : list log_entry) (w2 w' : World) :
  _get_processing_state LOOKBACK_HOURS db_fails w = Return state w1 ->
  _get_pull_logs BATCH_SIZE db_fails lookup_logs json_loads
    (last_processed_datetime state) (clock w1)
    (logged INFO "Processing pull logs from %s to %s"
       [ArgZ (last_processed_datetime state); ArgZ (clock w1)] w1)
  = Return pull_logs w2 ->
  pull_logs ≠ [] ->
  _process_pull_logs BATCH_SIZE LOOKBACK_HOURS db_fails lookup_logs json_loads w
  = Return tt w' ->
  pullstatisticsprocessingstate w' !! WORKER_ID
  = Some {| last_processed_datetime :=
              latest_datetime_of (last_processed_datetime state) pull_logs;
            last_processed_log_id := last_processed_log_id state;
            logs_processed_count :=
              logs_processed_count state + Z.of_nat (length pull_logs) |}.
Proof.
  intros Hget Hread Hlogs Hpass.
  destruct (_process_pull_logs_cases w state w1 Hget)
    as (pull_logs' & l & Hread' & Hcases).
  simpl in Hread'. rewrite Hread in Hread'. injection Hread' as <- ->.
  destruct Hcases
    as [[? _]
       |[(_ & e & w3 & _ & _ & Hraise)
        |(_ & ld & pc & w3 & Hbatches & _ & _ & [[_ Hraise]|[_ Hret]])]];
    [done|congruence|congruence|].
  rewrite Hpass in Hret. injection Hret as ->.
  apply process_batches_counts in Hbatches as [-> ->].
  simpl. by rewrite lookup_insert_eq.
Qed.

(** X12: When the logs model raises and the fallback query fails as well, the
    pass returns normally after logging the two failures: it takes the
    source for empty, leaves the statistics tables as they were and does
    not touch the checkpoint row. *)
Theorem unavailable_source_changes_nothing (w : World)
    (state : PullStatisticsProcessingState) (w1 : World) :
  _get_processing_state LOOKBACK_HOURS db_fails w = Return state w1 ->
  (forall w0 start_datetime end_datetime size,
     lookup_logs w0 start_datetime end_datetime size = None) ->
  db_fails LogEntrySelect = true ->
  let w' :=
    logged DEBUG "No pull logs found in time range" []
      (logged ERROR "Failed to get pull logs from database: %s" []
         (logged WARNING "Failed to get pull logs from logs model: %s" []
            (logged INFO "Processing pull logs from %s to %s"
               [ArgZ (last_processed_datetime state); ArgZ (clock w1)] w1))) in
  _process_pull_logs BATCH_SIZE LOOKBACK_HOURS db_fails lookup_logs json_loads w
  = Return tt w'
  /\ stats_tables w' = stats_tables w
  /\ pullstatisticsprocessingstate w' !! WORKER_ID = Some state.
Proof.
  intros Hget Hlookup Hselect w'. subst w'.
  destruct (_get_processing_state_stored _ _ _ Hget) as (Hrow & Htag & Hman & _ & _).
  split; [|split].
  - unfold _process_pull_logs.
    unfold mbind at 1, M_bind at 1. rewrite Hget.
    unfold _get_pull_logs, _get_pull_logs_from_database. unfold_monad.
    rewrite Hlookup. by rewrite Hselect.
  - unfold stats_tables. simpl. by rewrite Htag, Hman.
  - exact Hrow.
Qed.

(** ** The cycle as a whole *)

Lemma _process_pull_logs_surroundings :
  preserves surroundings
    (_process_pull_logs BATCH_SIZE LOOKBACK_HOURS db_fails lookup_logs json_loads).
Proof.
  intros w.
  destruct (_get_processing_state_cases w) as [[e He]|[(state & _ & Hget)|(_ & Hget)]].
  - by rewrite (_process_pull_logs_raises_early w e He).
  - destruct (_process_pull_logs_cases w state w Hget)
      as (pull_logs & l & _ &
          [[_ ->]
          |[(_ & e & w3 & _ & Hout & ->)
           |(_ & ld & pc & w3 & _ & Hout & _ & [[_ ->]|[_ ->]])]]);
      unfold surroundings, outside_stats in *; simpl in *; congruence.
  - simpl in Hget.
    destruct (_process_pull_logs_cases w _ _ Hget)
      as (pull_logs & l & _ &
          [[_ ->]
          |[(_ & e & w3 & _ & Hout & ->)
           |(_ & ld & pc & w3 & _ & Hout & _ & [[_ ->]|[_ ->]])]]);
      unfold surroundings, outside_stats in *; simpl in *; congruence.
Qed.

(** X13: No exception leaves [_sync_pull_stats]: whatever fails, the cycle
    returns; and it never writes the audit log or the tags (nor moves the
    clock). *)
Theorem cycle_always_returns (w : World) :
  exists w',
    _sync_pull_stats POLL_PERIOD BATCH_SIZE LOOKBACK_HOURS db_fails lookup_logs json_loads w
    = Return tt w'
    /\ logentry w' = logentry w
    /\ tag w' = tag w
    /\ clock w' = clock w.
Proof.
  unfold _sync_pull_stats, try_except, GlobalLock.
  destruct (match locks w !! _ with Some expiry => clock w <? expiry | None => false end).
  - eexists. split; [reflexivity|]. done.
  - match goal with
    | |- context [_process_pull_logs _ _ _ _ _ ?w1] =>
        pose proof (_process_pull_logs_surroundings w1) as Hsame;
        destruct (_process_pull_logs BATCH_SIZE LOOKBACK_HOURS db_fails lookup_logs
                    json_loads w1) as [[] w2|e w2]
    end.
    + eexists. split; [reflexivity|]. by injection Hsame.
    + destruct e; (eexists; split; [reflexivity|]; by injection Hsame).
Qed.

(** X14: The processing state is created once: when its statements succeed,
    [_get_processing_state] returns a row that is then stored under the
    worker's id, and any later call, at any time, returns that same row
    and changes nothing; the look-back of LOOKBACK_HOURS hours is used only
    when there was no row. *)
Theorem processing_state_is_created_once (w : World) :
  db_fails StateGet = false ->
  db_fails StateCreate = false ->
  exists state w1,
    _get_processing_state LOOKBACK_HOURS db_fails w = Return state w1
    /\ pullstatisticsprocessingstate w1 !! WORKER_ID = Some state
    /\ (forall now,
          _get_processing_state LOOKBACK_HOURS db_fails (set_clock now w1)
          = Return state (set_clock now w1))
    /\ match pullstatisticsprocessingstate w !! WORKER_ID with
       | Some found => state = found /\ w1 = w
       | None =>
           state = {| last_processed_datetime := clock w - 3600 * LOOKBACK_HOURS;
                      last_processed_log_id := None;
                      logs_processed_count := 0 |}
       end.
Proof.
  intros Hsg Hsc.
  assert (Hagain : forall state w1,
             pullstatisticsprocessingstate w1 !! WORKER_ID = Some state ->
             forall now,
               _get_processing_state LOOKBACK_HOURS db_fails (set_clock now w1)
               = Return state (set_clock now w1)).
  { intros state w1 Hrow now. unfold _get_processing_state. unfold_monad.
    rewrite Hsg. simpl. by rewrite Hrow. }
  destruct (_get_processing_state_cases w)
    as [[e He]|[(state & Hrow & Hget)|(Hnone & Hget)]].
  - exfalso. unfold _get_processing_state in He. unfold_monad.
    rewrite Hsg in He. simpl in He.
    destruct (pullstatisticsprocessingstate w !! WORKER_ID); [done|].
    simpl in He. by rewrite Hsc in He.
  - exists state, w. split; [exact Hget|]. split; [exact Hrow|].
    split; [by apply Hagain|]. by rewrite Hrow.
  - simpl in Hget. eexists _, _. split; [exact Hget|].
    assert (Hrow : pullstatisticsprocessingstate
                     (set_pullstatisticsprocessingstate
                        (<[WORKER_ID :=
                             {| last_processed_datetime := clock w - 3600 * LOOKBACK_HOURS;
                                last_processed_log_id := None;
                                logs_processed_count := 0 |}]>
                           (pullstatisticsprocessingstate w)) w) !! WORKER_ID
                   = Some {| last_processed_datetime := clock w - 3600 * LOOKBACK_HOURS;
                             last_processed_log_id := None;
                             logs_processed_count := 0 |})
      by (simpl; apply lookup_insert_eq).
    split; [exact Hrow|]. split; [by apply Hagain|]. by rewrite Hnone.
Qed.

(** ** The endpoints over the tables of the worker *)

Variable get_repository : string -> string -> option Z.

Lemma elem_of_TagPullStatistics_select w r t row :
  (t, row) ∈ TagPullStatistics_select w r <-> tagpullstatistics w !! (r, t) = Some row.
Proof.
  unfold TagPullStatistics_select. rewrite list_elem_of_omap. split.
  - intros ([[r' t'] row'] & Hin & Hsome).
    apply elem_of_map_to_list in Hin.
    destruct (decide (r' = r)) as [->|]; [|done]. by injection Hsome as -> ->.
  - intros Hrow. exists ((r, t), row). split; [by apply elem_of_map_to_list|].
    by rewrite decide_True.
Qed.

Lemma elem_of_ManifestPullStatistics_select w r d row :
  (d, row) ∈ ManifestPullStatistics_select w r
  <-> manifestpullstatistics w !! (r, d) = Some row.
Proof.
  unfold ManifestPullStatistics_select. rewrite list_elem_of_omap. split.
  - intros ([[r' d'] row'] & Hin & Hsome).
    apply elem_of_map_to_list in Hin.
    destruct (decide (r' = r)) as [->|]; [|done]. by injection Hsome as -> ->.
  - intros Hrow. exists ((r, d), row). split; [by apply elem_of_map_to_list|].
    by rewrite decide_True.
Qed.

Lemma elem_of_insert_desc {A} (key : A -> Z) x y l :
  y ∈ insert_desc key x l <-> y = x \/ y ∈ l.
Proof.
  induction l as [|z l IH]; simpl.
  - rewrite list_elem_of_singleton, elem_of_nil. tauto.
  - destruct (key z <=? key x).
    + rewrite elem_of_cons. tauto.
    + rewrite !elem_of_cons, IH. tauto.
Qed.

Lemma elem_of_order_by_desc {A} (key : A -> Z) y l : y ∈ order_by_desc key l <-> y ∈ l.
Proof.
  induction l as [|x l IH]; simpl; [done|].
  rewrite elem_of_insert_desc, IH, elem_of_cons. tauto.
Qed.

Lemma order_by_desc_sorted {A} (key : A -> Z) l :
  StronglySorted (fun a b => key b <= key a) (order_by_desc key l).
Proof.
  induction l as [|x l IH]; simpl; [constructor|].
  induction IH as [|z l' Hsorted IH' Hz]; simpl.
  - repeat constructor.
  - destruct (key z <=? key x) eqn:Hle.
    + apply Z.leb_le in Hle. constructor; [by constructor|].
      constructor; [done|]. eapply Forall_impl; [exact Hz|]. simpl. intros; lia.
    + apply Z.leb_gt in Hle. constructor; [exact IH'|].
      apply Forall_forall. intros y Hy.
      apply elem_of_insert_desc in Hy as [->|Hy]; [lia|].
      by apply (proj1 (Forall_forall _ _) Hz).
Qed.

Lemma StronglySorted_fmap {A B} (f : A -> B) (R : B -> B -> Prop) l :
  StronglySorted (fun a b => R (f a) (f b)) l -> StronglySorted R (f <$> l).
Proof.
  induction 1 as [|x l Hsorted IH Hx]; simpl; constructor; [done|].
  by apply Forall_fmap.
Qed.

(** X15: After a pull by tag whose event carries the digest, processed with no
    failing statement, the tag endpoint answers with what the worker wrote:
    the count of the tag and the count of the manifest each one more than
    before, the date of the event for the tag, and for the manifest the
    later of that date and the date it had. *)
Theorem tag_endpoint_after_a_tag_pull (entry : log_entry) (r : Z) (t d : string)
    (namespace_name repository_name : string) (w : World) :
  (forall op, db_fails op = false) ->
  get_repository namespace_name repository_name = Some r ->
  truthy_int (le_repository_id entry) = Some r ->
  event_tag entry = Some t ->
  event_digest entry = Some d ->
  get_tag_pull_statistics get_repository namespace_name repository_name t
    (world_of (_process_single_log db_fails entry w))
  = Json {| tb_tag_name := t;
            tb_tag_pull_count := tag_count w r t + 1;
            tb_last_tag_pull_date := Some (le_datetime entry);
            tb_manifest_digest := Some d;
            tb_manifest_total_pull_count := manifest_count w r d + 1;
            tb_manifest_last_pull_date :=
              max_datetime (last_pull_date <$> manifestpullstatistics w !! (r, d))
                [entry] |}.
Proof.
  intros Hok Hrepo Hentry Htag Hdigest.
  destruct (event_tag_dict entry t Htag) as (metadata & Hdict & Htag' & Hdigest').
  rewrite Hdigest in Hdigest'. symmetry in Hdigest'.
  rewrite (_process_single_log_dict entry metadata Hdict), Hentry, Htag'.
  rewrite (_update_tag_pull_stats_ok r t _ _ d w Hdigest' (Hok _) (Hok _) (Hok _) (Hok _)).
  unfold get_tag_pull_statistics. rewrite Hrepo. simpl.
  rewrite lookup_insert_eq, tag_row_after_digest, lookup_insert_eq.
  rewrite tag_row_after_count, manifest_row_after_count, manifest_row_after_date.
  unfold tag_count, manifest_count, max_datetime. simpl.
  by destruct (tagpullstatistics w !! (r, t)).
Qed.

(** X16: As long as no write to ManifestPullStatistics fails, the tag endpoint
    never ends in an unhandled exception on the statistics the worker
    keeps, after any number of cycles: it answers 404 or a JSON body. *)
Theorem tag_endpoint_handles_tracked_statistics (w w' : World)
    (namespace_name repository_name tagname : string) :
  (forall r d, db_fails (ManifestStatGetOrCreate r d) = false) ->
  (forall r d, db_fails (ManifestStatUpdate r d) = false) ->
  reachable POLL_PERIOD BATCH_SIZE LOOKBACK_HOURS db_fails lookup_logs json_loads w w' ->
  digests_tracked w ->
  get_tag_pull_statistics get_repository namespace_name repository_name tagname w'
  = NotFound
  \/ exists body,
       get_tag_pull_statistics get_repository namespace_name repository_name tagname w'
       = Json body.
Proof.
  intros Hgoc Hupd Hreach Htracked.
  pose proof (reachable_tracked w w' Hgoc Hupd Hreach Htracked) as Htracked'.
  unfold get_tag_pull_statistics.
  destruct (get_repository namespace_name repository_name) as [r|]; [|by left].
  right. destruct (tagpullstatistics w' !! (r, tagname)) as [row|] eqn:Hrow; [|by eexists].
  destruct (Htracked' r tagname row Hrow) as [manifest_row ->]. by eexists.
Qed.

(** X17: When the manifest write of a first pull of a tag fails, the error is
    caught in the batch and the tag row stays without its manifest row;
    the tag endpoint then ends in [ManifestPullStatistics.DoesNotExist],
    which its [except] clause for [TagPullStatistics.DoesNotExist] does not
    catch. *)
Theorem tag_endpoint_fails_after_failed_manifest_write (entry : log_entry) (r : Z)
    (t d : string) (namespace_name repository_name : string) (w : World) :
  get_repository namespace_name repository_name = Some r ->
  truthy_int (le_repository_id entry) = Some r ->
  event_tag entry = Some t ->
  event_digest entry = Some d ->
  db_fails (TagStatGetOrCreate r t) = false ->
  db_fails (TagStatUpdate r t) = false ->
  db_fails (ManifestStatGetOrCreate r d) = true ->
  manifestpullstatistics w !! (r, d) = None ->
  get_tag_pull_statistics get_repository namespace_name repository_name t
    (world_of (for_log_entry_in_log_batch db_fails [entry] w))
  = Unhandled "ManifestPullStatisticsDoesNotExist".
Proof.
  intros Hrepo Hentry Htag Hdigest0 Hgoc Hupd Hfail Hmanifest.
  destruct (event_tag_dict entry t Htag) as (metadata & Hdict & Htag' & Hdigest).
  rewrite Hdigest0 in Hdigest. symmetry in Hdigest.
  assert (Hworld :
            world_of (for_log_entry_in_log_batch db_fails [entry] w)
            = logged WARNING "Error processing log entry: %s" []
                (set_tagpullstatistics
                   (<[(r, t) := tag_row_after (tagpullstatistics w !! (r, t)) (clock w)
                                  (le_datetime entry) d]> (tagpullstatistics w)) w)).
  { simpl. rewrite (_process_single_log_dict entry metadata Hdict), Hentry, Htag'.
    unfold _update_tag_pull_stats. rewrite Hdigest.
    unfold mbind at 2, M_bind at 2, mret at 2, M_ret at 2. rewrite Hdigest.
    unfold TagPullStatistics_get_or_create, TagPullStatistics_update,
      _update_manifest_pull_stats, ManifestPullStatistics_get_or_create.
    unfold_monad. rewrite Hgoc.
    destruct (tagpullstatistics w !! (r, t)) as [row|] eqn:Hrow; simpl.
    - rewrite Hupd, Hrow. simpl. by rewrite Hfail.
    - by rewrite Hfail. }
  rewrite Hworld. unfold get_tag_pull_statistics. rewrite Hrepo. simpl.
  by rewrite lookup_insert_eq, tag_row_after_digest, Hmanifest.
Qed.

(** X18: The manifest endpoint of a known repository always answers a JSON
    body with the count of the manifest (0 without a row). When the
    manifest has a row, its list of current tags holds exactly the tag rows
    of that repository whose [current_manifest_digest] is the digest, and no
    row of another repository; when it has none, the list is empty. *)
Theorem manifest_endpoint_lists_the_tags_of_the_digest (w : World) (r : Z)
    (namespace_name repository_name digest : string) :
  get_repository namespace_name repository_name = Some r ->
  exists body,
    get_manifest_pull_statistics get_repository namespace_name repository_name digest w
    = Json body
    /\ mb_total_pull_count body = manifest_count w r digest
    /\ (manifestpullstatistics w !! (r, digest) = None -> mb_current_tags body = [])
    /\ (is_Some (manifestpullstatistics w !! (r, digest)) ->
        forall current,
          current ∈ mb_current_tags body
          <-> exists row,
                tagpullstatistics w !! (r, ct_tag_name current) = Some row
                /\ current_manifest_digest row = digest
                /\ ct_tag_pull_count current = tag_pull_count row
                /\ ct_last_tag_pull_date current = last_tag_pull_date row).
Proof.
  intros Hrepo. unfold get_manifest_pull_statistics, manifest_count. rewrite Hrepo.
  destruct (manifestpullstatistics w !! (r, digest)) as [manifest_row|] eqn:Hmanifest.
  - eexists. split; [reflexivity|]. simpl. split; [done|]. split; [done|].
    intros _ current. rewrite list_elem_of_fmap. split.
    + intros ([t row] & -> & Hin).
      apply list_elem_of_filter in Hin as [Hdigest Hin].
      apply elem_of_TagPullStatistics_select in Hin. by exists row.
    + intros (row & Hrow & Hdigest & Hcount & Hdate).
      exists (ct_tag_name current, row). split.
      * destruct current. simpl in *. by subst.
      * apply list_elem_of_filter. split; [done|].
        by apply elem_of_TagPullStatistics_select.
  - eexists. split; [reflexivity|]. simpl. split; [done|]. split; [done|].
    by intros [? ?].
Qed.

(** X19: The repository endpoint of a known repository answers two lists: one
    entry for each tag row of that repository and no other, latest pull
    first, and the same for the manifest rows. *)
Theorem repository_endpoint_lists_the_rows_of_the_repository (w : World) (r : Z)
    (namespace_name repository_name : string) :
  get_repository namespace_name repository_name = Some r ->
  exists body,
    get_repository_pull_statistics get_repository namespace_name repository_name w
    = Json body
    /\ (forall stat,
          stat ∈ tag_statistics body
          <-> exists row,
                tagpullstatistics w !! (r, ts_tag_name stat) = Some row
                /\ ts_tag_pull_count stat = tag_pull_count row
                /\ ts_last_tag_pull_date stat = last_tag_pull_date row
                /\ ts_current_manifest_digest stat = current_manifest_digest row)
    /\ StronglySorted (fun a b => ts_last_tag_pull_date b <= ts_last_tag_pull_date a)
         (tag_statistics body)
    /\ (forall stat,
          stat ∈ manifest_statistics body
          <-> exists row,
                manifestpullstatistics w !! (r, ms_manifest_digest stat) = Some row
                /\ ms_total_pull_count stat = total_pull_count row
                /\ ms_last_pull_date stat = last_pull_date row
                /\ ms_last_tag_pulled stat = last_tag_pulled row)
    /\ StronglySorted (fun a b => ms_last_pull_date b <= ms_last_pull_date a)
         (manifest_statistics body).
Proof.
  intros Hrepo. unfold get_repository_pull_statistics. rewrite Hrepo.
  eexists. split; [reflexivity|]. simpl. split; [|split; [|split]].
  - intros stat. rewrite list_elem_of_fmap. split.
    + intros ([t row] & -> & Hin).
      apply elem_of_order_by_desc, elem_of_TagPullStatistics_select in Hin.
      by exists row.
    + intros (row & Hrow & Hcount & Hdate & Hdigest).
      exists (ts_tag_name stat, row). split.
      * destruct stat. simpl in *. by subst.
      * by apply elem_of_order_by_desc, elem_of_TagPullStatistics_select.
  - apply StronglySorted_fmap. simpl.
    apply (order_by_desc_sorted (fun stat : string * TagPullStatistics =>
                                   last_tag_pull_date stat.2)).
  - intros stat. rewrite list_elem_of_fmap. split.
    + intros ([d row] & -> & Hin).
      apply elem_of_order_by_desc, elem_of_ManifestPullStatistics_select in Hin.
      by exists row.
    + intros (row & Hrow & Hcount & Hdate & Htag).
      exists (ms_manifest_digest stat, row). split.
      * destruct stat. simpl in *. by subst.
      * by apply elem_of_order_by_desc, elem_of_ManifestPullStatistics_select.
  - apply StronglySorted_fmap. simpl.
    apply (order_by_desc_sorted (fun stat : string * ManifestPullStatistics =>
                                   last_pull_date stat.2)).
Qed.

(** ** Batches and transactions *)

Lemma _process_single_log_transactions entry :
  preserves transactions (_process_single_log db_fails entry).
Proof.
  intros w. by_metadata entry metadata Hdict;
    (destruct (truthy_int _) as [r|]; [|done]); [|done].
  destruct (truthy_str (md_tag _)) as [t|].
  - by destruct (_update_tag_pull_stats_shape r t (le_datetime entry)
                   (md_manifest_digest metadata) w)
      as (tags & manifests & l & -> & _).
  - destruct (truthy_str (md_manifest_digest _)) as [d|]; [|done].
    by destruct (_update_manifest_pull_stats_shape r d (le_datetime entry) None w)
      as (m & -> & _).
Qed.

Lemma _process_log_batch_transactions log_batch w :
  transactions (world_of (_process_log_batch db_fails log_batch w)) = S (transactions w).
Proof.
  assert (Hloop : preserves transactions (for_log_entry_in_log_batch db_fails log_batch)).
  { induction log_batch as [|entry rest IH]; simpl; [apply preserves_ret|].
    apply preserves_bind; [|intros _; exact IH].
    apply preserves_try_except; [apply _process_single_log_transactions|].
    intros e. by apply preserves_log. }
  unfold _process_log_batch, db_transaction.
  specialize (Hloop (set_transactions (S (transactions w)) w)).
  destruct (for_log_entry_in_log_batch db_fails log_batch _) as [[] w1|e w1];
    simpl in *; [|done].
  by destruct (db_fails (Commit (transactions w))).
Qed.

Lemma for_log_entry_in_pull_logs_transactions pull_logs :
  forall batch latest_datetime latest_log_id processed_count w
         batch' latest_datetime' latest_log_id' processed_count' w',
    (length batch < Nat.max 1 BATCH_SIZE)%nat ->
    for_log_entry_in_pull_logs BATCH_SIZE db_fails pull_logs batch latest_datetime
      latest_log_id processed_count w
    = Return (batch', latest_datetime', latest_log_id', processed_count') w' ->
    (transactions w'
     = transactions w + (length batch + length pull_logs) / Nat.max 1 BATCH_SIZE
     /\ length batch' = (length batch + length pull_logs) mod Nat.max 1 BATCH_SIZE)%nat.
Proof.
  induction pull_logs as [|entry rest IH];
    intros batch ld lid pc w batch' ld' lid' pc' w' Hsmall; simpl.
  - unfold_monad. intros [= <- <- <- <- <-].
    rewrite Nat.add_0_r, Nat.div_small, Nat.mod_small by done. lia.
  - unfold_monad. rewrite length_app. simpl.
    destruct (BATCH_SIZE <=? length batch + 1)%nat eqn:Hfull.
    + apply Nat.leb_le in Hfull.
      assert (Hsize : (length batch + 1 = Nat.max 1 BATCH_SIZE)%nat) by lia.
      pose proof (_process_log_batch_transactions (batch ++ [entry]) w) as Htx.
      destruct (_process_log_batch db_fails (batch ++ [entry]) w) as [[] w1|e w1];
        [|done].
      simpl in Htx. intros Hloop.
      apply IH in Hloop as [-> ->]; [|simpl; lia]. simpl. rewrite Htx.
      replace (length batch + S (length rest))%nat
        with (1 * Nat.max 1 BATCH_SIZE + length rest)%nat by lia.
      rewrite Nat.div_add_l by lia.
      rewrite (Nat.add_comm (1 * _)), Nat.Div0.mod_add. lia.
    + apply Nat.leb_gt in Hfull. intros Hloop.
      apply IH in Hloop as [-> ->]; [|rewrite length_app; simpl; lia].
      rewrite length_app. simpl.
      replace (length batch + 1 + length rest)%nat
        with (length batch + S (length rest))%nat by lia.
      done.
Qed.

Lemma ceiling_division (n b : nat) :
  (0 < b)%nat ->
  ((n + b - 1) / b = n / b + (if decide (n mod b = 0) then 0 else 1))%nat.
Proof.
  intros Hb. pose proof (Nat.div_mod_eq n b) as Hn.
  pose proof (Nat.mod_upper_bound n b ltac:(lia)) as Hr.
  case_decide as Hzero.
  - symmetry. apply (Nat.div_unique _ _ _ (b - 1)); [lia|]. nia.
  - symmetry. apply (Nat.div_unique _ _ _ (n mod b - 1)); [lia|]. nia.
Qed.

(** X10: A pass that returns has opened one transaction for every BATCH_SIZE
    events it read, and one more for the events left over: the number of
    events divided by the batch size, rounded up (a batch size of 0 works
    like 1); no transaction when it read no event. *)
Theorem a_pass_opens_one_transaction_per_batch (w : World)
    (state : PullStatisticsProcessingState) (w1 : World) (pull_logs : list log_entry)
    (w2 w' : World) :
  _get_processing_state LOOKBACK_HOURS db_fails w = Return state w1 ->
  _get_pull_logs BATCH_SIZE db_fails lookup_logs json_loads
    (last_processed_datetime state) (clock w1)
    (logged INFO "Processing pull logs from %s to %s"
       [ArgZ (last_processed_datetime state); ArgZ (clock w1)] w1)
  = Return pull_logs w2 ->
  _process_pull_logs BATCH_SIZE LOOKBACK_HOURS db_fails lookup_logs json_loads w
  = Return tt w' ->
  (transactions w'
   = transactions w
     + (length pull_logs + Nat.max 1 BATCH_SIZE - 1) / Nat.max 1 BATCH_SIZE)%nat.
Proof.
  intros Hget Hread Hpass.
  assert (Htx1 : transactions w1 = transactions w).
  { destruct (_get_processing_state_cases w)
      as [[e He]|[(state0 & _ & Hget0)|(_ & Hget0)]];
      rewrite Hget in *; [done| |]; by injection Hget0 as _ ->. }
  destruct (_process_pull_logs_cases w state w1 Hget)
    as (pull_logs' & l & Hread' & Hcases).
  simpl in Hread'. rewrite Hread in Hread'. injection Hread' as <- ->.
  rewrite ceiling_division by lia.
  destruct Hcases
    as [[-> Hret]
       |[(_ & e & w3 & _ & _ & Hraise)
        |(_ & ld & pc & w3 & Hbatches & _ & _ & [[_ Hraise]|[_ Hret]])]];
    [|congruence|congruence|].
  - rewrite Hpass in Hret. injection Hret as ->.
    cbn [length]. rewrite Nat.Div0.div_0_l, Nat.Div0.mod_0_l, decide_True by done.
    simpl. lia.
  - rewrite Hpass in Hret. injection Hret as ->. simpl.
    unfold process_batches in Hbatches. unfold_monad.
    destruct (for_log_entry_in_pull_logs _ _ _ _ _ _ _ _)
      as [[[[batch ld'] lid'] pc'] w4|e w4] eqn:Hloop; [|done].
    apply for_log_entry_in_pull_logs_transactions in Hloop as [Htx Hlen];
      [|simpl; lia].
    simpl in Htx, Hlen. destruct batch as [|entry batch].
    + injection Hbatches as _ _ _ <-. rewrite Htx, Htx1.
      simpl in Hlen. rewrite decide_True by done. lia.
    + pose proof (_process_log_batch_transactions (entry :: batch) w4) as Hlast.
      destruct (_process_log_batch db_fails (entry :: batch) w4) as [[] w5|e w5];
        [|done].
      injection Hbatches as _ _ _ <-. simpl in Hlast. rewrite Hlast, Htx, Htx1.
      simpl in Hlen. rewrite decide_False by lia. lia.
Qed.

(** ** Which events are counted *)

(** The tag table after a tag-side update that resolves to a digest,
    carried or looked up, when the statements on the tag row succeed;
    the manifest-side update that follows may fail. *)
Lemma _update_tag_pull_stats_tag_row r t dt (digest : option string) d w :
  db_fails (TagStatGetOrCreate r t) = false ->
  db_fails (TagStatUpdate r t) = false ->
  truthy_str digest = Some d
  \/ (truthy_str digest = None
      /\ db_fails (TagSelect r t) = false
      /\ exists row,
           find (is_active_tag r t) (tag w) = Some row
           /\ truthy_str (Some (tag_manifest_digest row)) = Some d) ->
  tagpullstatistics (world_of (_update_tag_pull_stats db_fails r t dt digest w))
  = <[(r, t) := tag_row_after (tagpullstatistics w !! (r, t)) (clock w) dt d]>
      (tagpullstatistics w).
Proof.
  intros Hgoc Hupd Hresolved.
  assert (Hwritten : forall digest',
             truthy_str digest' = Some d ->
             tagpullstatistics
               (world_of (_update_tag_pull_stats db_fails r t dt digest' w))
             = <[(r, t) := tag_row_after (tagpullstatistics w !! (r, t)) (clock w) dt d]>
                 (tagpullstatistics w)).
  { intros digest' Hdigest. unfold _update_tag_pull_stats. rewrite Hdigest.
    unfold mbind at 1, M_bind at 1, mret at 1, M_ret at 1. rewrite Hdigest.
    unfold TagPullStatistics_get_or_create, TagPullStatistics_update.
    unfold_monad. rewrite Hgoc.
    destruct (tagpullstatistics w !! (r, t)) as [row|] eqn:Hrow; simpl.
    - rewrite Hupd, Hrow. simpl. by rewrite _update_manifest_pull_stats_tagstats.
    - by rewrite _update_manifest_pull_stats_tagstats. }
  destruct Hresolved as [Hdigest|(Hdigest & Hsel & row & Hfind & Hd)];
    [by apply Hwritten|].
  rewrite <- (Hwritten (Some (tag_manifest_digest row)) Hd).
  unfold _update_tag_pull_stats. rewrite Hdigest, Hd.
  unfold mbind at 1, M_bind at 1.
  unfold mbind at 2, M_bind at 2, mret at 1, M_ret at 1.
  unfold _get_manifest_digest_for_tag. unfold try_except at 1.
  unfold mbind at 1, M_bind at 1, execute at 1. rewrite Hsel.
  unfold mbind at 1, M_bind at 1, get_world at 1. rewrite Hfind.
  reflexivity.
Qed.

(** A tag-side update that resolves to no digest only logs. *)
Lemma _update_tag_pull_stats_unresolved r t dt (digest : option string) w :
  truthy_str digest = None ->
  db_fails (TagSelect r t) = false ->
  find (is_active_tag r t) (tag w) ≫= (fun row => truthy_str (Some (tag_manifest_digest row)))
  = None ->
  _update_tag_pull_stats db_fails r t dt digest w
  = Return tt
      (logged WARNING "Could not find manifest digest for tag %s in repo %d"
         [ArgStr t; ArgZ r] w).
Proof.
  intros Hdigest Hsel Hfind.
  unfold _update_tag_pull_stats, _get_manifest_digest_for_tag.
  rewrite Hdigest. unfold_monad. rewrite Hsel.
  cbn -[is_active_tag truthy_str].
  destruct (find (is_active_tag r t) (tag w)) as [row|]; cbn -[truthy_str] in *.
  - by rewrite Hfind.
  - reflexivity.
Qed.

Lemma resolved_digest_tag w w' entry :
  tag w' = tag w -> resolved_digest w' entry = resolved_digest w entry.
Proof. unfold resolved_digest. by intros ->. Qed.

Lemma is_pull_of_tag_tag w w' r t entry :
  tag w' = tag w -> is_pull_of_tag w' r t entry = is_pull_of_tag w r t entry.
Proof. intros Htag. unfold is_pull_of_tag. by rewrite (resolved_digest_tag w w'). Qed.

Lemma is_pull_of_manifest_tag w w' r d entry :
  tag w' = tag w -> is_pull_of_manifest w' r d entry = is_pull_of_manifest w r d entry.
Proof. intros Htag. unfold is_pull_of_manifest. by rewrite (resolved_digest_tag w w'). Qed.

(** One event and the count of one tag: one more when the event is a pull
    of that tag that resolves to a digest, as before otherwise; the
    statements on the row of the tag must succeed, any other may fail. *)
Lemma _process_single_log_tag_count r t entry w :
  db_fails (TagSelect r t) = false ->
  db_fails (TagStatGetOrCreate r t) = false ->
  db_fails (TagStatUpdate r t) = false ->
  tag_count (world_of (_process_single_log db_fails entry w)) r t
  = tag_count w r t + (if is_pull_of_tag w r t entry then 1 else 0).
Proof.
  intros Hsel Hgoc Hupd.
  unfold is_pull_of_tag, resolved_digest, event_tag, event_digest.
  by_metadata entry metadata Hdict;
    destruct (truthy_int (le_repository_id entry)) as [r0|] eqn:Hrepo;
    try (rewrite bool_decide_eq_false_2 by (intros (? & ? & ?); congruence);
         simpl; lia).
  destruct (truthy_str (md_tag metadata)) as [t0|] eqn:Htag.
  - destruct (decide ((r0, t0) = (r, t))) as [[= -> ->]|Hne].
    + destruct (truthy_str (md_manifest_digest metadata)) as [d|] eqn:Hdigest.
      * rewrite bool_decide_eq_true_2 by (split; [done|split; [done|by eexists]]).
        unfold tag_count.
        rewrite (_update_tag_pull_stats_tag_row r t _ _ d w Hgoc Hupd) by by left.
        rewrite lookup_insert_eq. simpl. by rewrite tag_row_after_count.
      * simpl.
        destruct (find (is_active_tag r t) (tag w)
                    ≫= (fun row => truthy_str (Some (tag_manifest_digest row))))
          as [d|] eqn:Hfind.
        -- rewrite bool_decide_eq_true_2 by (split; [done|split; [done|by eexists]]).
           destruct (find (is_active_tag r t) (tag w)) as [row|] eqn:Hrow; [|done].
           unfold tag_count.
           rewrite (_update_tag_pull_stats_tag_row r t _ _ d w Hgoc Hupd)
             by (right; split; [done|split; [done|by exists row]]).
           rewrite lookup_insert_eq. simpl. by rewrite tag_row_after_count.
        -- rewrite bool_decide_eq_false_2
             by (intros (_ & _ & [? ?]); simpl in *; congruence).
           rewrite (_update_tag_pull_stats_unresolved r t _ _ w Hdigest Hsel Hfind).
           unfold tag_count. simpl. lia.
    + rewrite bool_decide_eq_false_2 by (intros (? & ? & ?); congruence).
      unfold tag_count.
      rewrite (_update_tag_pull_stats_tag_other r0 t0 _ _ (r, t)) by congruence.
      lia.
  - rewrite bool_decide_eq_false_2 by (intros (? & ? & ?); congruence).
    unfold tag_count.
    destruct (truthy_str (md_manifest_digest metadata)) as [d|]; [|simpl; lia].
    rewrite _update_manifest_pull_stats_tagstats. lia.
Qed.

(** One event and the count of one manifest, when no statement fails: one
    more when the event is a pull that resolves to that digest in that
    repository, as before otherwise. *)
Lemma _process_single_log_manifest_count r d entry w :
  (forall op, db_fails op = false) ->
  manifest_count (world_of (_process_single_log db_fails entry w)) r d
  = manifest_count w r d + (if is_pull_of_manifest w r d entry then 1 else 0).
Proof.
  intros Hok.
  unfold is_pull_of_manifest, resolved_digest, event_tag, event_digest.
  by_metadata entry metadata Hdict;
    destruct (truthy_int (le_repository_id entry)) as [r0|] eqn:Hrepo;
    try (rewrite bool_decide_eq_false_2 by (intros (? & ?); simpl in *; congruence);
         simpl; lia).
  assert (Hrow : forall d0 via w0,
             manifest_count
               (set_manifestpullstatistics
                  (<[(r0, d0) := manifest_row_after (manifestpullstatistics w !! (r0, d0))
                                   (clock w) (le_datetime entry) via]>
                     (manifestpullstatistics w)) w0) r d
             = manifest_count w r d
               + (if bool_decide (Some r0 = Some r /\ Some d0 = Some d) then 1 else 0)).
  { intros d0 via w0. unfold manifest_count. simpl.
    destruct (decide ((r0, d0) = (r, d))) as [[= -> ->]|Hne].
    - rewrite bool_decide_eq_true_2 by done.
      rewrite lookup_insert_eq. simpl. by rewrite manifest_row_after_count.
    - rewrite bool_decide_eq_false_2 by (intros [? ?]; congruence).
      rewrite lookup_insert_ne by done. lia. }
  destruct (truthy_str (md_tag metadata)) as [t0|] eqn:Htag.
  - destruct (truthy_str (md_manifest_digest metadata)) as [d0|] eqn:Hdigest.
    + rewrite (_update_tag_pull_stats_ok r0 t0 _ _ d0 w Hdigest
                 (Hok _) (Hok _) (Hok _) (Hok _)).
      apply Hrow.
    + cbn -[truthy_str is_active_tag].
      destruct (find (is_active_tag r0 t0) (tag w)) as [row|] eqn:Hfind;
        cbn -[truthy_str is_active_tag].
      * destruct (truthy_str (Some (tag_manifest_digest row))) as [d0|] eqn:Hd.
        -- rewrite (_update_tag_pull_stats_looked_up r0 t0 _ _ row d0 w Hok Hdigest
                      Hfind Hd).
           apply Hrow.
        -- rewrite (_update_tag_pull_stats_unresolved r0 t0 _ _ w Hdigest (Hok _))
             by by rewrite Hfind.
           rewrite bool_decide_eq_false_2 by (intros (? & ?); congruence).
           unfold manifest_count. simpl. lia.
      * rewrite (_update_tag_pull_stats_unresolved r0 t0 _ _ w Hdigest (Hok _))
          by by rewrite Hfind.
        rewrite bool_decide_eq_false_2 by (intros (? & ?); congruence).
        unfold manifest_count. simpl. lia.
  - destruct (truthy_str (md_manifest_digest metadata)) as [d0|] eqn:Hdigest.
    + rewrite (_update_manifest_pull_stats_ok r0 d0 _ None w (Hok _) (Hok _)).
      apply Hrow.
    + rewrite bool_decide_eq_false_2 by (intros (? & ?); simpl in *; congruence).
      simpl. lia.
Qed.

Lemma pulls_counted_cons hit entry (events : list log_entry) :
  pulls_counted hit (entry :: events)
  = (if hit entry then 1 else 0) + pulls_counted hit events.
Proof.
  unfold pulls_counted. simpl. destruct (hit entry); simpl; lia.
Qed.

Lemma pulls_counted_nil hit : pulls_counted hit [] = 0.
Proof. reflexivity. Qed.

Lemma pulls_counted_app hit (events events' : list log_entry) :
  pulls_counted hit (events ++ events')
  = pulls_counted hit events + pulls_counted hit events'.
Proof.
  unfold pulls_counted. rewrite List.filter_app, length_app. lia.
Qed.

Lemma pulls_counted_ext hit hit' (events : list log_entry) :
  (forall entry, hit entry = hit' entry) ->
  pulls_counted hit events = pulls_counted hit' events.
Proof.
  intros Hext. unfold pulls_counted. by rewrite (List.filter_ext _ _ Hext).
Qed.

Lemma _get_processing_state_tag w state w1 :
  _get_processing_state LOOKBACK_HOURS db_fails w = Return state w1 -> tag w1 = tag w.
Proof.
  intros Hget.
  destruct (_get_processing_state_cases w) as [[e He]|[(state' & _ & Hget')|(_ & Hget')]];
    rewrite Hget in *; [done| |]; by injection Hget' as _ ->.
Qed.

(** ** From one event to a pass: counting *)

(** A count read from the statistics tables that grows by one with every
    event that a test on the event and the tag table accepts, and with no
    other event, grows over a batch and over a pass by the number of
    events accepted. *)
Section Counting.

Variable count : World -> Z.
Variable hit : World -> log_entry -> bool.
Hypothesis count_tables : forall w w', stats_tables w' = stats_tables w -> count w' = count w.
Hypothesis hit_tag : forall w w' entry, tag w' = tag w -> hit w' entry = hit w entry.
Hypothesis count_event : forall entry w,
  count (world_of (_process_single_log db_fails entry w))
  = count w + (if hit w entry then 1 else 0).

Lemma for_log_entry_in_log_batch_count events :
  forall w,
    count (world_of (for_log_entry_in_log_batch db_fails events w))
    = count w + pulls_counted (hit w) events.
Proof.
  induction events as [|entry rest IH]; intros w; simpl.
  - rewrite pulls_counted_nil. lia.
  - rewrite pulls_counted_cons. unfold_monad.
    pose proof (count_event entry w) as Hcount.
    pose proof (_process_single_log_outside entry w) as Hout.
    destruct (_process_single_log db_fails entry w) as [[] w1|e w1]; simpl in *.
    + rewrite IH, Hcount.
      rewrite (pulls_counted_ext (hit w1) (hit w)); [lia|].
      intros entry'. apply hit_tag. by injection Hout.
    + rewrite IH.
      rewrite (count_tables w1) by reflexivity. rewrite Hcount.
      rewrite (pulls_counted_ext _ (hit w)); [lia|].
      intros entry'. apply hit_tag. by injection Hout.
Qed.

Lemma _process_log_batch_count events w w' :
  _process_log_batch db_fails events w = Return tt w' ->
  count w' = count w + pulls_counted (hit w) events /\ tag w' = tag w.
Proof.
  intros Hret.
  pose proof (_process_log_batch_outside events w) as Hout. rewrite Hret in Hout.
  split; [|by injection Hout].
  destruct (_process_log_batch_cases events w)
    as [(_ & w1 & Hloop & Hret')|(_ & w'' & Hraise & _)]; [|congruence].
  rewrite Hret in Hret'. injection Hret' as ->.
  pose proof (for_log_entry_in_log_batch_count events
                (set_transactions (S (transactions w)) w)) as Hcount.
  rewrite Hloop in Hcount. simpl in Hcount. rewrite Hcount.
  rewrite (count_tables w) by reflexivity.
  by rewrite (pulls_counted_ext _ (hit w)) by (intros entry'; by apply hit_tag).
Qed.

Lemma for_log_entry_in_pull_logs_count pull_logs :
  forall batch latest_datetime latest_log_id processed_count w
         batch' latest_datetime' latest_log_id' processed_count' w' w0,
    tag w = tag w0 ->
    for_log_entry_in_pull_logs BATCH_SIZE db_fails pull_logs batch latest_datetime
      latest_log_id processed_count w
    = Return (batch', latest_datetime', latest_log_id', processed_count') w' ->
    count w' + pulls_counted (hit w0) batch'
    = count w + pulls_counted (hit w0) batch + pulls_counted (hit w0) pull_logs
    /\ tag w' = tag w0.
Proof.
  induction pull_logs as [|entry rest IH];
    intros batch ld lid pc w batch' ld' lid' pc' w' w0 Htag; simpl.
  - unfold_monad. intros [= <- <- <- <- <-]. split; [|done].
    rewrite pulls_counted_nil. lia.
  - unfold_monad. rewrite pulls_counted_cons.
    destruct (BATCH_SIZE <=? length (batch ++ [entry]))%nat.
    + destruct (_process_log_batch db_fails (batch ++ [entry]) w) as [[] w1|e w1]
        eqn:Hbatch; [|done].
      apply _process_log_batch_count in Hbatch as [Hcount Htag1].
      intros Hloop. apply (IH _ _ _ _ _ _ _ _ _ _ w0) in Hloop as [Hloop Htag'];
        [|congruence].
      split; [|done].
      rewrite (pulls_counted_ext (hit w) (hit w0)) in Hcount
        by (intros entry'; by apply hit_tag).
      rewrite pulls_counted_app, pulls_counted_cons, !pulls_counted_nil in *.
      lia.
    + intros Hloop. apply (IH _ _ _ _ _ _ _ _ _ _ w0) in Hloop as [Hloop Htag'];
        [|done].
      split; [|done].
      rewrite pulls_counted_app, pulls_counted_cons, !pulls_counted_nil in *.
      lia.
Qed.

Lemma process_batches_count pull_logs start_datetime last_log_id w
    latest_datetime latest_log_id processed_count w' :
  process_batches BATCH_SIZE db_fails pull_logs start_datetime last_log_id w
  = Return (latest_datetime, latest_log_id, processed_count) w' ->
  count w' = count w + pulls_counted (hit w) pull_logs.
Proof.
  unfold process_batches. unfold_monad.
  destruct (for_log_entry_in_pull_logs _ _ _ _ _ _ _ w)
    as [[[[batch ld] lid] pc] w1|e w1] eqn:Hloop; [|done].
  apply (for_log_entry_in_pull_logs_count _ _ _ _ _ _ _ _ _ _ _ w) in Hloop
    as [Hcount Htag]; [|done].
  rewrite pulls_counted_nil in Hcount.
  destruct batch as [|entry batch].
  - intros [= <- <- <- <-]. rewrite pulls_counted_nil in Hcount. lia.
  - destruct (_process_log_batch db_fails (entry :: batch) w1) as [[] w2|e w2]
      eqn:Hbatch; [|done].
    apply _process_log_batch_count in Hbatch as [Hcount2 _].
    intros [= <- <- <- <-].
    rewrite (pulls_counted_ext (hit w1) (hit w)) in Hcount2
      by (intros entry'; by apply hit_tag).
    lia.
Qed.

(** A pass that returns has counted every event it read that the test
    accepts. *)
Lemma _process_pull_logs_count w state w1 pull_logs w2 w' :
  _get_processing_state LOOKBACK_HOURS db_fails w = Return state w1 ->
  _get_pull_logs BATCH_SIZE db_fails lookup_logs json_loads
    (last_processed_datetime state) (clock w1)
    (logged INFO "Processing pull logs from %s to %s"
       [ArgZ (last_processed_datetime state); ArgZ (clock w1)] w1)
  = Return pull_logs w2 ->
  _process_pull_logs BATCH_SIZE LOOKBACK_HOURS db_fails lookup_logs json_loads w
  = Return tt w' ->
  count w' = count w + pulls_counted (hit w) pull_logs.
Proof.
  intros Hget Hread Hpass.
  destruct (_get_processing_state_stored _ _ _ Hget) as (_ & Htags & Hmanifests & _ & _).
  pose proof (_get_processing_state_tag _ _ _ Hget) as Htag.
  destruct (_process_pull_logs_cases w state w1 Hget)
    as (pull_logs' & l & Hread' & Hcases).
  simpl in Hread'. rewrite Hread in Hread'. injection Hread' as <- ->.
  assert (Hstart : count (set_logger l w1) = count w).
  { apply count_tables. unfold stats_tables. simpl. by rewrite Htags, Hmanifests. }
  assert (Hhit : forall entry, hit (set_logger l w1) entry = hit w entry).
  { intros entry. by apply hit_tag. }
  destruct Hcases
    as [[-> Hret]
       |[(_ & e & w3 & _ & _ & Hraise)
        |(_ & ld & pc & w3 & Hbatches & _ & _ & [[_ Hraise]|[_ Hret]])]];
    [|congruence|congruence|].
  - rewrite Hpass in Hret. injection Hret as ->.
    rewrite (count_tables (set_logger l w1)) by reflexivity. rewrite Hstart.
    rewrite pulls_counted_nil. lia.
  - rewrite Hpass in Hret. injection Hret as ->.
    apply process_batches_count in Hbatches.
    rewrite (count_tables w3) by reflexivity.
    rewrite Hbatches, Hstart. by rewrite (pulls_counted_ext _ (hit w) _ Hhit).
Qed.

End Counting.

(** ** Batches, one after the other *)

(** The loop over a batch goes through the events one after the other. *)
Lemma for_log_entry_in_log_batch_app before after :
  forall w,
  exists w1,
    for_log_entry_in_log_batch db_fails before w = Return tt w1
    /\ for_log_entry_in_log_batch db_fails (before ++ after) w
       = for_log_entry_in_log_batch db_fails after w1.
Proof.
  induction before as [|entry rest IH]; intros w; simpl.
  - by exists w.
  - unfold_monad.
    destruct (_process_single_log db_fails entry w) as [[] w1|e w1]; apply IH.
Qed.

(** While the batch is not full the loop of the pass only collects. *)
Lemma for_log_entry_in_pull_logs_fill chunk :
  forall batch rest latest_datetime latest_log_id processed_count w,
    (length batch + length chunk < Nat.max 1 BATCH_SIZE)%nat ->
    for_log_entry_in_pull_logs BATCH_SIZE db_fails (chunk ++ rest) batch latest_datetime
      latest_log_id processed_count w
    = for_log_entry_in_pull_logs BATCH_SIZE db_fails rest (batch ++ chunk)
        (latest_datetime_of latest_datetime chunk) latest_log_id processed_count w.
Proof.
  induction chunk as [|entry chunk IH]; intros batch rest ld lid pc w Hlen; simpl.
  - by rewrite app_nil_r.
  - unfold_monad. simpl in Hlen.
    assert (Hleb : (BATCH_SIZE <=? length (batch ++ [entry]))%nat = false).
    { apply Nat.leb_gt. rewrite length_app. simpl. lia. }
    rewrite Hleb. rewrite IH by (rewrite length_app; simpl; lia).
    by rewrite <- app_assoc.
Qed.

(** X22: The loop of a pass cuts the events into batches of BATCH_SIZE, in
    the order read: the first BATCH_SIZE events (one event when BATCH_SIZE
    is 0) are processed as one batch, and the loop goes on with the rest
    from the world that batch leaves, with an empty batch, the latest
    datetime of those events and a count grown by their number; when that
    batch raises the loop stops there. *)
Theorem first_events_make_one_batch (chunk rest : list log_entry)
    (latest_datetime : Z) (latest_log_id : option Z) (processed_count : Z) (w : World) :
  length chunk = Nat.max 1 BATCH_SIZE ->
  for_log_entry_in_pull_logs BATCH_SIZE db_fails (chunk ++ rest) [] latest_datetime
    latest_log_id processed_count w
  = (_process_log_batch db_fails chunk;;
     for_log_entry_in_pull_logs BATCH_SIZE db_fails rest []
       (latest_datetime_of latest_datetime chunk) latest_log_id
       (processed_count + Z.of_nat (length chunk))) w.
Proof.
  intros Hlen.
  destruct (exists_last (l := chunk)) as (init & entry & ->).
  { intros ->. simpl in Hlen. lia. }
  rewrite length_app in Hlen. simpl in Hlen.
  rewrite <- app_assoc. simpl.
  rewrite for_log_entry_in_pull_logs_fill by (simpl; lia).
  simpl. unfold_monad.
  assert (Hleb : (BATCH_SIZE <=? length (init ++ [entry]))%nat = true).
  { apply Nat.leb_le. rewrite length_app. simpl. lia. }
  rewrite Hleb. unfold latest_datetime_of. by rewrite foldl_app.
Qed.

(** The batches of a pass raise only when a commit fails. *)
Lemma for_log_entry_in_pull_logs_raises pull_logs :
  forall batch latest_datetime latest_log_id processed_count w e w',
    for_log_entry_in_pull_logs BATCH_SIZE db_fails pull_logs batch latest_datetime
      latest_log_id processed_count w
    = Raise e w' ->
    exists n, e = DatabaseError (Commit n) /\ db_fails (Commit n) = true.
Proof.
  induction pull_logs as [|entry rest IH]; intros batch ld lid pc w e w'; simpl.
  - by unfold_monad.
  - unfold_monad.
    destruct (BATCH_SIZE <=? length (batch ++ [entry]))%nat; [|apply IH].
    destruct (_process_log_batch_cases (batch ++ [entry]) w)
      as [(_ & w1 & _ & ->)|(Hfail & w'' & -> & _)]; [apply IH|].
    intros [= <- <-]. by eexists.
Qed.

Lemma process_batches_raises pull_logs start_datetime last_log_id w e w' :
  process_batches BATCH_SIZE db_fails pull_logs start_datetime last_log_id w = Raise e w' ->
  exists n, e = DatabaseError (Commit n) /\ db_fails (Commit n) = true.
Proof.
  unfold process_batches. unfold_monad.
  destruct (for_log_entry_in_pull_logs _ _ _ _ _ _ _ w)
    as [[[[batch ld] lid] pc] w1|e1 w1] eqn:Hloop.
  - destruct batch as [|entry batch]; [done|].
    destruct (_process_log_batch_cases (entry :: batch) w1)
      as [(_ & w2 & _ & ->)|(Hfail & w'' & -> & _)]; [done|].
    intros [= <- <-]. by eexists.
  - intros [= <- <-]. by apply for_log_entry_in_pull_logs_raises in Hloop.
Qed.

(** When no statement fails a pass returns. *)
Lemma _process_pull_logs_returns w :
  (forall op, db_fails op = false) ->
  exists state w1 pull_logs w2 w',
    _get_processing_state LOOKBACK_HOURS db_fails w = Return state w1
    /\ _get_pull_logs BATCH_SIZE db_fails lookup_logs json_loads
         (last_processed_datetime state) (clock w1)
         (logged INFO "Processing pull logs from %s to %s"
            [ArgZ (last_processed_datetime state); ArgZ (clock w1)] w1)
       = Return pull_logs w2
    /\ _process_pull_logs BATCH_SIZE LOOKBACK_HOURS db_fails lookup_logs json_loads w
       = Return tt w'.
Proof.
  intros Hok.
  assert (Hget : exists state w1,
             _get_processing_state LOOKBACK_HOURS db_fails w = Return state w1).
  { unfold _get_processing_state. unfold_monad. rewrite !Hok.
    destruct (pullstatisticsprocessingstate w !! WORKER_ID); by eexists _, _. }
  destruct Hget as (state & w1 & Hget). exists state, w1.
  destruct (_process_pull_logs_cases w state w1 Hget)
    as (pull_logs & l & Hread &
        [[_ Hret]
        |[(_ & e & w3 & Hraise & _ & _)
         |(_ & ld & pc & w3 & _ & _ & _ & [[Hfail _]|[_ Hret]])]]).
  - by eexists _, _, _.
  - apply process_batches_raises in Hraise as (n & _ & Hfail).
    by rewrite Hok in Hfail.
  - by rewrite Hok in Hfail.
  - by eexists _, _, _.
Qed.

Lemma for_log_entry_in_pull_logs_app done rest :
  forall batch latest_datetime latest_log_id processed_count w,
    for_log_entry_in_pull_logs BATCH_SIZE db_fails (done ++ rest) batch latest_datetime
      latest_log_id processed_count w
    = ('(batch', latest_datetime', latest_log_id', processed_count') ←
         for_log_entry_in_pull_logs BATCH_SIZE db_fails done batch latest_datetime
           latest_log_id processed_count;
       for_log_entry_in_pull_logs BATCH_SIZE db_fails rest batch' latest_datetime'
         latest_log_id' processed_count') w.
Proof.
  induction done as [|entry done IH]; intros batch ld lid pc w; simpl.
  - reflexivity.
  - unfold_monad.
    destruct (BATCH_SIZE <=? length (batch ++ [entry]))%nat; [|apply IH].
    destruct (_process_log_batch db_fails (batch ++ [entry]) w) as [[] w1|e w1];
      [apply IH|reflexivity].
Qed.

(** What a pass does after its first batches: every row they left in the
    statistics tables is still there when the pass ends, however it
    ends. *)
Lemma process_batches_after done rest start_datetime last_log_id w
    latest_datetime latest_log_id processed_count w_k :
  for_log_entry_in_pull_logs BATCH_SIZE db_fails done [] start_datetime last_log_id 0 w
  = Return ([], latest_datetime, latest_log_id, processed_count) w_k ->
  stats_grow w_k
    (world_of (process_batches BATCH_SIZE db_fails (done ++ rest) start_datetime
                 last_log_id w)).
Proof.
  intros Hdone. unfold process_batches.
  unfold mbind at 1, M_bind at 1.
  rewrite for_log_entry_in_pull_logs_app.
  unfold mbind at 1, M_bind at 1. rewrite Hdone.
  pose proof (for_log_entry_in_pull_logs_relates stats_grow stats_grow_refl
                stats_grow_trans stats_grow_tables _process_single_log_grow
                rest [] latest_datetime latest_log_id processed_count w_k) as Hloop.
  destruct (for_log_entry_in_pull_logs _ _ rest _ _ _ _ w_k)
    as [[[[batch ld] lid] pc] w3|e w3]; simpl in *; [|exact Hloop].
  destruct batch as [|entry batch]; [exact Hloop|].
  unfold_monad.
  pose proof (_process_log_batch_relates stats_grow stats_grow_refl
                stats_grow_trans stats_grow_tables _process_single_log_grow
                (entry :: batch) w3) as Hbatch.
  destruct (_process_log_batch db_fails (entry :: batch) w3) as [[] w4|e w4];
    simpl in *; exact (stats_grow_trans _ _ _ Hloop Hbatch).
Qed.

(** ** Failures *)

(** C3 (as amended): an error raised while one event of a batch is
    processed is caught inside the batch and logged as a warning; what the
    event wrote before the error stays and the remaining events of the
    batch are processed, so the loop over a batch never raises. A batch is
    one transaction: it fails only when its commit fails, and then the
    three tables are as they were before that batch. The batches that a
    pass has committed stay applied, however the pass ends. A pass that
    raises has not updated the checkpoint row: the table is as before the
    pass, but for the row the first run creates. *)
Theorem failed_batch_rolls_back :
  (forall before entry after w,
     exists w1 w2 w3,
       for_log_entry_in_log_batch db_fails before w = Return tt w1
       /\ match _process_single_log db_fails entry w1 with
          | Return _ w_ok => w2 = w_ok
          | Raise e w_e => w2 = logged WARNING "Error processing log entry: %s" [] w_e
          end
       /\ for_log_entry_in_log_batch db_fails after w2 = Return tt w3
       /\ for_log_entry_in_log_batch db_fails (before ++ entry :: after) w
          = Return tt w3)
  /\ (forall log_batch w,
        exists w1,
          for_log_entry_in_log_batch db_fails log_batch
            (set_transactions (S (transactions w)) w)
          = Return tt w1
          /\ (db_fails (Commit (transactions w)) = false ->
              _process_log_batch db_fails log_batch w = Return tt w1)
          /\ (db_fails (Commit (transactions w)) = true ->
              exists w',
                _process_log_batch db_fails log_batch w
                = Raise (DatabaseError (Commit (transactions w))) w'
                /\ tagpullstatistics w' = tagpullstatistics w
                /\ manifestpullstatistics w' = manifestpullstatistics w
                /\ pullstatisticsprocessingstate w' = pullstatisticsprocessingstate w))
  /\ (forall w state w1 done rest w2 latest_datetime latest_log_id processed_count w_k,
        _get_processing_state LOOKBACK_HOURS db_fails w = Return state w1 ->
        _get_pull_logs BATCH_SIZE db_fails lookup_logs json_loads
          (last_processed_datetime state) (clock w1)
          (logged INFO "Processing pull logs from %s to %s"
             [ArgZ (last_processed_datetime state); ArgZ (clock w1)] w1)
        = Return (done ++ rest) w2 ->
        for_log_entry_in_pull_logs BATCH_SIZE db_fails done []
          (last_processed_datetime state) (last_processed_log_id state) 0 w2
        = Return ([], latest_datetime, latest_log_id, processed_count) w_k ->
        stats_grow w_k
          (world_of (_process_pull_logs BATCH_SIZE LOOKBACK_HOURS db_fails lookup_logs
                       json_loads w)))
  /\ (forall w e w',
        _process_pull_logs BATCH_SIZE LOOKBACK_HOURS db_fails lookup_logs json_loads w
        = Raise e w' ->
        pullstatisticsprocessingstate w' = pullstatisticsprocessingstate w
        \/ (pullstatisticsprocessingstate w !! WORKER_ID = None
            /\ pullstatisticsprocessingstate w'
               = <[WORKER_ID :=
                     {| last_processed_datetime := clock w - 3600 * LOOKBACK_HOURS;
                        last_processed_log_id := None;
                        logs_processed_count := 0 |}]>
                   (pullstatisticsprocessingstate w))).
Proof.
  split; [|split; [|split]].
  - intros before entry after w.
    destruct (for_log_entry_in_log_batch_app before (entry :: after) w)
      as (w1 & Hbefore & Happ).
    exists w1. rewrite Happ. simpl. unfold_monad.
    destruct (_process_single_log db_fails entry w1) as [[] w_ok|e w_e].
    + destruct (for_log_entry_in_log_batch_returns after w_ok) as [w3 Hafter].
      by exists w_ok, w3.
    + destruct (for_log_entry_in_log_batch_returns after
                  (set_logger
                     (logger w_e
                      ++ [{| levelname := WARNING;
                             msg := "Error processing log entry: %s";
                             args := [] |}]) w_e)) as [w3 Hafter].
      by eexists _, w3.
  - intros log_batch w.
    destruct (_process_log_batch_cases log_batch w)
      as [(Hok & w1 & Hloop & Hret)|(Hfail & w' & Hraise & Htables)].
    + exists w1. split; [exact Hloop|]. split; [done|]. congruence.
    + destruct (for_log_entry_in_log_batch_returns log_batch
                  (set_transactions (S (transactions w)) w)) as [w1 Hloop].
      exists w1. split; [exact Hloop|]. split; [congruence|].
      intros _. by exists w'.
  - intros w state w1 done rest w2 ld lid pc w_k Hget Hread Hdone.
    destruct (_process_pull_logs_cases w state w1 Hget)
      as (pull_logs & l & Hread' & Hcases).
    simpl in Hread'. rewrite Hread in Hread'. injection Hread' as <- ->.
    pose proof (process_batches_after done rest _ _ _ _ _ _ _ Hdone) as Hafter.
    destruct Hcases
      as [[Hnil ->]
         |[(_ & e & w3 & Hraise & _ & ->)
          |(_ & ld' & pc' & w3 & Hbatches & _ & _ & [[_ ->]|[_ ->]])]].
    + apply app_eq_nil in Hnil as [-> ->].
      unfold_monad. injection Hdone as _ _ _ <-.
      eapply stats_grow_tables; [| |apply (stats_grow_refl (set_logger l w1))];
        reflexivity.
    + by rewrite Hraise in Hafter.
    + by rewrite Hbatches in Hafter.
    + rewrite Hbatches in Hafter. simpl in *.
      eapply stats_grow_tables; [| |exact Hafter]; reflexivity.
  - intros w e w' Hraise.
    assert (Hlater : forall state w1,
               _get_processing_state LOOKBACK_HOURS db_fails w = Return state w1 ->
               pullstatisticsprocessingstate w' = pullstatisticsprocessingstate w1).
    { intros state w1 Hget.
      destruct (_process_pull_logs_cases w state w1 Hget)
        as (pull_logs & l & _ &
            [[_ Hpass]
            |[(_ & e3 & w3 & _ & Hout & Hpass)
             |(_ & ld & pc & w3 & _ & Hout & _ & [[_ Hpass]|[_ Hpass]])]]);
        rewrite Hraise in Hpass; try discriminate;
        injection Hpass as -> ->; by injection Hout. }
    destruct (_get_processing_state_cases w)
      as [[e0 He]|[(state & Hrow & Hget)|(Hnone & Hget)]].
    + rewrite (_process_pull_logs_raises_early w e0 He) in Hraise.
      injection Hraise as _ ->. by left.
    + left. exact (Hlater _ _ Hget).
    + right. split; [exact Hnone|]. exact (Hlater _ _ Hget).
Qed.

(** ** The checkpoint and the statistics writes *)

(** C5 (as amended): the watermark of the checkpoint never decreases,
    over any number of cycles. A pass writes the checkpoint row only as
    its last step: whenever it leaves a checkpoint table that differs from
    the one it started from, every batch of the events it read was
    processed and committed before, the statistics tables are those the
    batches left, and the new row holds the latest datetime among the old
    watermark and the events read, and a counter grown by their number.
    When no statement fails a pass returns, and when it writes the
    checkpoint every event read that resolves to a tag or to a digest has
    been counted, once. *)
Theorem checkpoint_monotone_and_after_apply :
  (forall w w' state,
     reachable POLL_PERIOD BATCH_SIZE LOOKBACK_HOURS db_fails lookup_logs json_loads w w' ->
     pullstatisticsprocessingstate w !! WORKER_ID = Some state ->
     exists state',
       pullstatisticsprocessingstate w' !! WORKER_ID = Some state'
       /\ last_processed_datetime state <= last_processed_datetime state')
  /\ (forall w state w1,
        _get_processing_state LOOKBACK_HOURS db_fails w = Return state w1 ->
        let w' :=
          world_of (_process_pull_logs BATCH_SIZE LOOKBACK_HOURS db_fails lookup_logs
                      json_loads w) in
        pullstatisticsprocessingstate w' = pullstatisticsprocessingstate w1
        \/ exists pull_logs w2 latest_datetime latest_log_id processed_count w3,
             _get_pull_logs BATCH_SIZE db_fails lookup_logs json_loads
               (last_processed_datetime state) (clock w1)
               (logged INFO "Processing pull logs from %s to %s"
                  [ArgZ (last_processed_datetime state); ArgZ (clock w1)] w1)
             = Return pull_logs w2
             /\ process_batches BATCH_SIZE db_fails pull_logs
                  (last_processed_datetime state) (last_processed_log_id state) w2
                = Return (latest_datetime, latest_log_id, processed_count) w3
             /\ tagpullstatistics w' = tagpullstatistics w3
             /\ manifestpullstatistics w' = manifestpullstatistics w3
             /\ last_processed_datetime state <= latest_datetime
             /\ latest_datetime
                = latest_datetime_of (last_processed_datetime state) pull_logs
             /\ processed_count = Z.of_nat (length pull_logs)
             /\ pullstatisticsprocessingstate w'
                = <[WORKER_ID :=
                      {| last_processed_datetime := latest_datetime;
                         last_processed_log_id := latest_log_id;
                         logs_processed_count :=
                           logs_processed_count state + processed_count |}]>
                    (pullstatisticsprocessingstate w1))
  /\ ((forall op, db_fails op = false) ->
      forall w,
      exists state w1 pull_logs w2 w',
        _get_processing_state LOOKBACK_HOURS db_fails w = Return state w1
        /\ _get_pull_logs BATCH_SIZE db_fails lookup_logs json_loads
             (last_processed_datetime state) (clock w1)
             (logged INFO "Processing pull logs from %s to %s"
                [ArgZ (last_processed_datetime state); ArgZ (clock w1)] w1)
           = Return pull_logs w2
        /\ _process_pull_logs BATCH_SIZE LOOKBACK_HOURS db_fails lookup_logs json_loads w
           = Return tt w'
        /\ (forall r t,
              tag_count w' r t
              = tag_count w r t + pulls_counted (is_pull_of_tag w r t) pull_logs)
        /\ (forall r d,
              manifest_count w' r d
              = manifest_count w r d + pulls_counted (is_pull_of_manifest w r d) pull_logs)).
Proof.
  split; [|split].
  - intros w w' state Hreach Hrow.
    exact (proj2 (reachable_invariant w w' Hreach) state Hrow).
  - intros w state w1 Hget w'. subst w'.
    destruct (_process_pull_logs_cases w state w1 Hget)
      as (pull_logs & l & Hread &
          [[_ ->]
          |[(_ & e & w3 & _ & Hout & ->)
           |(_ & ld & pc & w3 & Hbatches & Hout & Hld & [[_ ->]|[_ ->]])]]).
    + left. reflexivity.
    + left. simpl. by injection Hout.
    + left. simpl. by injection Hout.
    + right. exists pull_logs, (set_logger l w1), ld, (last_processed_log_id state), pc, w3.
      destruct (process_batches_counts _ _ _ _ _ _ _ _ Hbatches) as [Hlatest Hcount].
      split; [exact Hread|]. split; [exact Hbatches|]. done.
  - intros Hok w.
    destruct (_process_pull_logs_returns w Hok)
      as (state & w1 & pull_logs & w2 & w' & Hget & Hread & Hpass).
    exists state, w1, pull_logs, w2, w'.
    split; [exact Hget|]. split; [exact Hread|]. split; [exact Hpass|]. split.
    + intros r t.
      apply (_process_pull_logs_count (fun w => tag_count w r t)
               (fun w => is_pull_of_tag w r t)) with state w1 w2; try done.
      * unfold stats_tables, tag_count. by intros ? ? [= -> _].
      * intros. by apply is_pull_of_tag_tag.
      * intros. by apply _process_single_log_tag_count.
    + intros r d.
      apply (_process_pull_logs_count (fun w => manifest_count w r d)
               (fun w => is_pull_of_manifest w r d)) with state w1 w2; try done.
      * unfold stats_tables, manifest_count. by intros ? ? [= _ ->].
      * intros. by apply is_pull_of_manifest_tag.
      * intros. by apply _process_single_log_manifest_count.
Qed.

(** ** Events counted whatever else fails *)

(** X20: The events of a batch are counted one by one, whatever fails for
    the others: as long as the statements on the row of one tag succeed,
    the count of that tag grows over the loop of a batch by the number of
    its events that are pulls of that tag resolving to a digest, even when
    the manifest-side writes or the statements of other events fail. *)
Theorem tag_pulls_counted_whatever_else_fails (r : Z) (t : string)
    (events : list log_entry) (w : World) :
  db_fails (TagSelect r t) = false ->
  db_fails (TagStatGetOrCreate r t) = false ->
  db_fails (TagStatUpdate r t) = false ->
  tag_count (world_of (for_log_entry_in_log_batch db_fails events w)) r t
  = tag_count w r t + pulls_counted (is_pull_of_tag w r t) events.
Proof.
  intros Hsel Hgoc Hupd.
  apply (for_log_entry_in_log_batch_count (fun w => tag_count w r t)
           (fun w => is_pull_of_tag w r t)).
  - unfold stats_tables, tag_count. by intros ? ? [= -> _].
  - intros. by apply is_pull_of_tag_tag.
  - intros. by apply _process_single_log_tag_count.
Qed.

(** X21: An event with a repository id whose metadata is not a dictionary
    (the null that [json.loads] makes of the text null) ends
    [_process_single_log] in AttributeError before anything is written;
    inside a batch the error is logged as a warning and the other events
    are processed as if it were not there. *)
Theorem malformed_event_is_logged_and_skipped (entry : log_entry) (r : Z)
    (before after : list log_entry) (w : World) :
  truthy_int (le_repository_id entry) = Some r ->
  le_metadata entry = Some NotADict ->
  _process_single_log db_fails entry w = Raise (AttributeError "get") w
  /\ exists w1,
       for_log_entry_in_log_batch db_fails before w = Return tt w1
       /\ for_log_entry_in_log_batch db_fails (before ++ entry :: after) w
          = for_log_entry_in_log_batch db_fails after
              (logged WARNING "Error processing log entry: %s" [] w1).
Proof.
  intros Hrepo Hnull.
  assert (Hraise : forall w0,
             _process_single_log db_fails entry w0 = Raise (AttributeError "get") w0).
  { intros w0. unfold _process_single_log. by rewrite Hrepo, Hnull. }
  split; [apply Hraise|].
  destruct (for_log_entry_in_log_batch_app before (entry :: after) w)
    as (w1 & Hbefore & Happ).
  exists w1. split; [exact Hbefore|]. rewrite Happ. simpl. unfold_monad.
  by rewrite Hraise.
Qed.

End Properties.

(** * The claims on concrete inputs *)

(** C1: the logs model delivers two pulls of the tag latest of repository
    7, the newer one (time 200) first; after the cycle the row of the tag
    counts 2 pulls, but its [last_tag_pull_date] is 100, the date of the
    event processed last, not the maximum 200; the manifest row, whose
    update compares the dates, has 200. *)
Theorem tag_last_pull_date_follows_delivery_order :
  tagpullstatistics
    (world_of (default_sync no_faults (logs_model_returns [latest_at_200; latest_at_100])
                 (empty_world 1000)))
  !! (7, "latest")
  = Some {| tag_pull_count := 2;
            last_tag_pull_date := 100;
            current_manifest_digest := sha_abc;
            tag_created := 1000;
            tag_updated := 100 |}
  /\ last_pull_date
       <$> manifestpullstatistics
             (world_of (default_sync no_faults
                          (logs_model_returns [latest_at_200; latest_at_100])
                          (empty_world 1000)))
           !! (7, sha_abc)
     = Some 200.
Proof. split; vm_compute; reflexivity. Qed.

(** C4: the audit log holds one pull at time 100. The first cycle counts
    it and stores the watermark 100. The second and the third cycle start
    from that watermark, read the same event again (the window includes its
    start), and count it again: 2, then 3 pulls for one event. *)
Theorem replay_recounts_event_at_watermark :
  watermark after_first_pass = Some 100
  /\ tag_count after_first_pass 7 "latest" = 1
  /\ watermark after_second_pass = Some 100
  /\ tag_count after_second_pass 7 "latest" = 2
  /\ manifest_count after_second_pass 7 sha_abc = 2
  /\ tag_count after_third_pass 7 "latest" = 3
  /\ logs_processed_count
       <$> pullstatisticsprocessingstate after_third_pass !! WORKER_ID
     = Some 3.
Proof. repeat split; vm_compute; reflexivity. Qed.

(** C2, the claim as stated fails: a pull of the tag gone of repository 7
    that carries no digest, while the tag has no active binding, leaves no
    row in TagPullStatistics; the pull is not counted. *)
Lemma unresolved_tag_pull_creates_no_row :
  tagpullstatistics (world_of (_process_single_log no_faults gone_at_100 (empty_world 1000)))
  !! (7, "gone") = None
  /\ tag_count (world_of (_process_single_log no_faults gone_at_100 (empty_world 1000)))
       7 "gone" = 0.
Proof. split; vm_compute; reflexivity. Qed.

(** The amended claim on the pull of the tag gone. *)
Lemma unresolved_tag_pull_not_counted_witness :
  _process_single_log no_faults gone_at_100 (empty_world 1000)
  = Return tt
      (logged WARNING "Could not find manifest digest for tag %s in repo %d"
         [ArgStr "gone"; ArgZ 7] (empty_world 1000)).
Proof.
  apply (unresolved_tag_pull_not_counted no_faults gone_at_100 7 "gone" (empty_world 1000));
    reflexivity.
Defined.

(** C3, the claim as stated fails, in two ways. First, every write to
    ManifestPullStatistics fails while one pull of the tag latest is
    processed: the error is caught inside the batch, the transaction
    commits, the tag row is there with count 1 without its manifest row,
    and the watermark has moved from 0 to 100. Second, with batches of one
    event the commit of the second batch fails: the pass ends in the error
    and the watermark is still 0, but the row written by the first batch
    stays. *)
Lemma write_error_leaves_partial_statistics :
  (let w' :=
     world_of (default_sync manifest_write_fails (logs_model_returns [latest_at_100])
                 (world_with_checkpoint 1000 0)) in
   tag_count w' 7 "latest" = 1
   /\ manifestpullstatistics w' !! (7, sha_abc) = None
   /\ watermark w' = Some 100)
  /\ (let w' :=
        world_of (_sync_pull_stats 300 1 24 second_commit_fails
                    (logs_model_returns [latest_at_100; v1_at_200]) example_json_loads
                    (world_with_checkpoint 1000 0)) in
      levelname <$> last (logger w') = Some ERROR
      /\ watermark w' = Some 0
      /\ tag_count w' 7 "latest" = 1
      /\ manifest_count w' 7 sha_abc = 1
      /\ tagpullstatistics w' !! (7, "v1.0") = None).
Proof. repeat split; vm_compute; reflexivity. Qed.

(** The amended claim on concrete runs. The manifest write of two pulls by
    tag fails: both errors are logged, and both tag rows are written. The
    commit of a batch fails: the tables are as before it. With batches of
    one event the second commit fails: the row of the first batch stays,
    and the checkpoint table is as before the pass. *)
Lemma failed_batch_rolls_back_witness :
  (exists w3,
     for_log_entry_in_log_batch manifest_write_fails [latest_at_100; v1_at_200]
       (empty_world 1000)
     = Return tt w3
     /\ levelname <$> logger w3 = [WARNING; WARNING]
     /\ tag_count w3 7 "latest" = 1
     /\ tag_count w3 7 "v1.0" = 1)
  /\ (exists w',
        _process_log_batch second_commit_fails [v1_at_200]
          (set_transactions 1 (empty_world 1000))
        = Raise (DatabaseError (Commit 1)) w'
        /\ tagpullstatistics w' = tagpullstatistics (set_transactions 1 (empty_world 1000))
        /\ manifestpullstatistics w'
           = manifestpullstatistics (set_transactions 1 (empty_world 1000)))
  /\ (exists row',
        tagpullstatistics
          (world_of (_process_pull_logs 1 24 second_commit_fails
                       (logs_model_returns [latest_at_100; v1_at_200]) example_json_loads
                       (world_with_checkpoint 1000 0)))
        !! (7, "latest") = Some row'
        /\ 1 <= tag_pull_count row')
  /\ (let w := world_with_checkpoint 1000 0 in
      let w' :=
        world_of (_process_pull_logs 1 24 second_commit_fails
                    (logs_model_returns [latest_at_100; v1_at_200]) example_json_loads w) in
      pullstatisticsprocessingstate w' = pullstatisticsprocessingstate w
      \/ (pullstatisticsprocessingstate w !! WORKER_ID = None
          /\ pullstatisticsprocessingstate w'
             = <[WORKER_ID :=
                   {| last_processed_datetime := clock w - 3600 * 24;
                      last_processed_log_id := None;
                      logs_processed_count := 0 |}]>
                 (pullstatisticsprocessingstate w))).
Proof.
  split; [|split; [|split]].
  - destruct (proj1 (failed_batch_rolls_back 1 24 manifest_write_fails
                       (logs_model_returns []) example_json_loads)
                [latest_at_100] v1_at_200 [] (empty_world 1000))
      as (w1 & w2 & w3 & _ & _ & _ & Hloop).
    exists w3. split; [exact Hloop|].
    assert (Hw3 : w3
                  = world_of (for_log_entry_in_log_batch manifest_write_fails
                                [latest_at_100; v1_at_200] (empty_world 1000))).
    { change ([latest_at_100] ++ v1_at_200 :: []) with [latest_at_100; v1_at_200] in Hloop.
      by rewrite Hloop. }
    rewrite Hw3. repeat split; vm_compute; reflexivity.
  - destruct (proj1 (proj2 (failed_batch_rolls_back 1 24 second_commit_fails
                              (logs_model_returns []) example_json_loads))
                [v1_at_200] (set_transactions 1 (empty_world 1000)))
      as (w1 & _ & _ & Hfails).
    destruct (Hfails eq_refl) as (w' & Hraise & Htag & Hmanifest & _).
    exists w'. split; [exact Hraise|]. split; [exact Htag|exact Hmanifest].
  - pose proof (proj1 (proj2 (proj2 (failed_batch_rolls_back 1 24 second_commit_fails
                                       (logs_model_returns [latest_at_100; v1_at_200])
                                       example_json_loads)))
                  (world_with_checkpoint 1000 0)
                  {| last_processed_datetime := 0;
                     last_processed_log_id := None;
                     logs_processed_count := 0 |}
                  (world_with_checkpoint 1000 0)
                  [latest_at_100] [v1_at_200]
                  (logged INFO "Processing pull logs from %s to %s" [ArgZ 0; ArgZ 1000]
                     (world_with_checkpoint 1000 0))
                  100 None 1
                  (world_of (_process_log_batch second_commit_fails [latest_at_100]
                               (logged INFO "Processing pull logs from %s to %s"
                                  [ArgZ 0; ArgZ 1000] (world_with_checkpoint 1000 0))))
                  eq_refl eq_refl) as Hgrow.
    destruct Hgrow as [Htags _]; [vm_compute; reflexivity|].
    apply (Htags (7, "latest")
             {| tag_pull_count := 1; last_tag_pull_date := 100;
                current_manifest_digest := sha_abc; tag_created := 1000;
                tag_updated := 100 |}).
    vm_compute. reflexivity.
  - apply (proj2 (proj2 (proj2 (failed_batch_rolls_back 1 24 second_commit_fails
                                  (logs_model_returns [latest_at_100; v1_at_200])
                                  example_json_loads)))
             (world_with_checkpoint 1000 0) (DatabaseError (Commit 1))).
    vm_compute. reflexivity.
Defined.

(** C6, the claim as stated fails: two pulls by tag of the same manifest
    are processed, latest at time 200 and then v1.0 at time 100. The second
    one reaches the manifest-side update and is counted (2 pulls), but
    [last_tag_pulled] is still latest, not v1.0, because its date is not
    later than the row's. *)
Lemma older_tag_pull_keeps_last_tag_pulled :
  manifestpullstatistics
    (world_of (_process_log_batch no_faults [latest_at_200; v1_at_100] (empty_world 1000)))
  !! (7, sha_abc)
  = Some {| total_pull_count := 2;
            last_pull_date := 200;
            last_tag_pulled := Some "latest";
            manifest_created := 1000;
            manifest_updated := 100 |}.
Proof. vm_compute. reflexivity. Qed.

(** The amended claim on a first pull by the tag v1.0. *)
Lemma manifest_update_counts_once_witness :
  exists w' row',
    _update_manifest_pull_stats no_faults 7 sha_abc 100 (Some "v1.0") (empty_world 1000)
    = Return tt w'
    /\ manifestpullstatistics w' !! (7, sha_abc) = Some row'
    /\ total_pull_count row' = 1
    /\ last_tag_pulled row' = Some "v1.0".
Proof.
  destruct (manifest_update_counts_once no_faults 7 sha_abc 100 (Some "v1.0")
              (empty_world 1000) eq_refl eq_refl)
    as (w' & row' & Hret & Hrow & Hcount & _ & Htag).
  exists w', row'. split; [exact Hret|]. split; [exact Hrow|].
  split; [exact Hcount|].
  apply (Htag "v1.0" eq_refl). discriminate.
Defined.

(** A cycle at time 1000 while the lock is held until 1500. *)
Lemma lock_held_skips_cycle_witness :
  default_sync no_faults logs_model_down (locked_world 1000)
  = Return tt
      (logged DEBUG "Could not acquire pull stats sync lock" [] (locked_world 1000)).
Proof.
  apply (lock_held_skips_cycle 300 1000 24 no_faults logs_model_down example_json_loads
           (locked_world 1000) 1500).
  - reflexivity.
  - reflexivity.
Defined.

(** Repositories 7 and 8 hold the same digest: a pull in 7 leaves the row
    of 8 as the pull in 8 left it. *)
Lemma manifest_stats_independent_witness :
  manifestpullstatistics
    (world_of (_update_manifest_pull_stats no_faults 7 sha_abc 100 None
                 (world_of (_update_manifest_pull_stats no_faults 8 sha_abc 50 None
                              (empty_world 1000)))))
  !! (8, sha_abc)
  = manifestpullstatistics
      (world_of (_update_manifest_pull_stats no_faults 8 sha_abc 50 None (empty_world 1000)))
    !! (8, sha_abc).
Proof.
  apply (manifest_stats_independent_per_repository no_faults 7 8 sha_abc 100 None
           latest_at_100
           (world_of (_update_manifest_pull_stats no_faults 8 sha_abc 50 None
                        (empty_world 1000)))).
  - lia.
  - reflexivity.
Defined.

(** C5, the claim as stated fails: one pull of the tag latest at time 100
    is read from the watermark 0 while every write to the two statistics
    tables fails. The error is caught and logged inside the batch, the
    batch commits and the pass writes the checkpoint: the watermark moves
    from 0 to 100 and the counter of processed logs to 1, while
    TagPullStatistics and ManifestPullStatistics are still empty. *)
Lemma checkpoint_advances_past_failed_writes :
  watermark (world_with_checkpoint 1000 0) = Some 0
  /\ watermark after_failed_writes = Some 100
  /\ logs_processed_count <$> pullstatisticsprocessingstate after_failed_writes !! WORKER_ID
     = Some 1
  /\ tagpullstatistics after_failed_writes = ∅
  /\ manifestpullstatistics after_failed_writes = ∅
  /\ levelname <$> logger after_failed_writes = [INFO; WARNING; INFO].
Proof. repeat split; vm_compute; reflexivity. Qed.

(** One cycle from the watermark 0 over one event; and a pass over the
    scenario of two tags on one manifest, with no failing statement. *)
Lemma checkpoint_monotone_witness :
  (exists state',
     pullstatisticsprocessingstate
       (world_of (default_sync no_faults (logs_model_returns [latest_at_100])
                    (world_with_checkpoint 1000 0)))
     !! WORKER_ID = Some state'
     /\ 0 <= last_processed_datetime state')
  /\ (let w1 := world_with_checkpoint 1000 0 in
      let w' :=
        world_of (_process_pull_logs 1000 24 no_faults (logs_model_returns [latest_at_100])
                    example_json_loads w1) in
      pullstatisticsprocessingstate w' = pullstatisticsprocessingstate w1
      \/ exists pull_logs w2 latest_datetime latest_log_id processed_count w3,
           _get_pull_logs 1000 no_faults (logs_model_returns [latest_at_100])
             example_json_loads 0 (clock w1)
             (logged INFO "Processing pull logs from %s to %s" [ArgZ 0; ArgZ (clock w1)] w1)
           = Return pull_logs w2
           /\ process_batches 1000 no_faults pull_logs 0 None w2
              = Return (latest_datetime, latest_log_id, processed_count) w3
           /\ tagpullstatistics w' = tagpullstatistics w3
           /\ manifestpullstatistics w' = manifestpullstatistics w3
           /\ 0 <= latest_datetime
           /\ latest_datetime = latest_datetime_of 0 pull_logs
           /\ processed_count = Z.of_nat (length pull_logs)
           /\ pullstatisticsprocessingstate w'
              = <[WORKER_ID :=
                    {| last_processed_datetime := latest_datetime;
                       last_processed_log_id := latest_log_id;
                       logs_processed_count := 0 + processed_count |}]>
                  (pullstatisticsprocessingstate w1))
  /\ (exists w',
        _process_pull_logs 1000 24 no_faults (logs_model_returns scenario_events)
          example_json_loads scenario_world
        = Return tt w'
        /\ tag_count w' 7 "v1.0" = 1
        /\ tag_count w' 7 "latest" = 1
        /\ manifest_count w' 7 sha_abc = 3).
Proof.
  split; [|split].
  - apply (proj1 (checkpoint_monotone_and_after_apply 300 1000 24 no_faults
                    (logs_model_returns [latest_at_100]) example_json_loads)
             (world_with_checkpoint 1000 0) _
             {| last_processed_datetime := 0;
                last_processed_log_id := None;
                logs_processed_count := 0 |}).
    + apply reachable_pass. apply reachable_start.
    + reflexivity.
  - apply (proj1 (proj2 (checkpoint_monotone_and_after_apply 300 1000 24 no_faults
                           (logs_model_returns [latest_at_100]) example_json_loads))
             (world_with_checkpoint 1000 0)
             {| last_processed_datetime := 0;
                last_processed_log_id := None;
                logs_processed_count := 0 |}
             (world_with_checkpoint 1000 0)).
    reflexivity.
  - destruct (proj2 (proj2 (checkpoint_monotone_and_after_apply 300 1000 24 no_faults
                              (logs_model_returns scenario_events) example_json_loads))
                (fun _ => eq_refl) scenario_world)
      as (state & w1 & pull_logs & w2 & w' & Hget & Hread & Hpass & Htags & Hmanifests).
    assert (Hlogs : pull_logs = scenario_events).
    { vm_compute in Hget. injection Hget as <- <-.
      vm_compute in Hread. by injection Hread as <- _. }
    subst pull_logs.
    exists w'. split; [exact Hpass|]. split; [|split].
    + rewrite Htags. vm_compute. reflexivity.
    + rewrite Htags. vm_compute. reflexivity.
    + rewrite Hmanifests. vm_compute. reflexivity.
Defined.

(** A pass from the watermark 0 at time 1000 that finds no event. *)
Lemma empty_window_witness :
  _process_pull_logs 1000 24 no_faults (logs_model_returns []) example_json_loads
    (world_with_checkpoint 1000 0)
  = Return tt
      (logged DEBUG "No pull logs found in time range" []
         (logged INFO "Processing pull logs from %s to %s" [ArgZ 0; ArgZ 1000]
            (world_with_checkpoint 1000 0)))
  /\ watermark
       (logged DEBUG "No pull logs found in time range" []
          (logged INFO "Processing pull logs from %s to %s" [ArgZ 0; ArgZ 1000]
             (world_with_checkpoint 1000 0)))
     = Some 0.
Proof.
  destruct (empty_window_leaves_checkpoint 1000 24 no_faults (logs_model_returns [])
              example_json_loads (world_with_checkpoint 1000 0)
              {| last_processed_datetime := 0;
                 last_processed_log_id := None;
                 logs_processed_count := 0 |}
              (world_with_checkpoint 1000 0)
              (logged INFO "Processing pull logs from %s to %s" [ArgZ 0; ArgZ 1000]
                 (world_with_checkpoint 1000 0))
              eq_refl eq_refl)
    as (Hpass & _ & Hrow & _).
  split; [exact Hpass|]. unfold watermark. by rewrite Hrow.
Defined.

(** A first cycle over two events that carry the ids 1 and 2. *)
Lemma last_processed_log_id_witness :
  checkpoint_log_id
    (world_of (default_sync no_faults (logs_model_returns [latest_at_100; latest_at_200])
                 (empty_world 1000)))
  = None.
Proof.
  apply (last_processed_log_id_never_advances 300 1000 24 no_faults
           (logs_model_returns [latest_at_100; latest_at_200]) example_json_loads
           (empty_world 1000)).
  apply reachable_pass. apply reachable_start.
Defined.

(** The scenario of the specification, run through one cycle: each tag
    counts one pull, the manifest counts three, and [last_tag_pulled] is
    latest, the tag of the last pull by tag. *)
Example scenario_two_tags_one_manifest :
  let w' := world_of (default_sync no_faults (logs_model_returns scenario_events)
                        scenario_world) in
  tag_count w' 7 "v1.0" = 1
  /\ tag_count w' 7 "latest" = 1
  /\ manifestpullstatistics w' !! (7, sha_abc)
     = Some {| total_pull_count := 3;
               last_pull_date := 300;
               last_tag_pulled := Some "latest";
               manifest_created := 1000;
               manifest_updated := 300 |}
  /\ watermark w' = Some 300.
Proof. repeat split; vm_compute; reflexivity. Qed.

(** * The further properties on concrete inputs *)

(** Two pulls of the manifest sha256:abc of repository 7, the later one
    first. *)
Lemma manifest_pulls_counted_witness :
  exists w',
    for_log_entry_in_log_batch no_faults [latest_at_200; v1_at_100] (empty_world 1000)
    = Return tt w'
    /\ manifest_count w' 7 sha_abc = 2
    /\ last_pull_date <$> manifestpullstatistics w' !! (7, sha_abc) = Some 200.
Proof.
  destruct (manifest_pulls_counted_with_latest_date no_faults 7 sha_abc
              [latest_at_200; v1_at_100] (empty_world 1000) (fun _ => eq_refl))
    as (w' & Hret & Hcount & Hdate & _).
  - repeat (constructor; [split; reflexivity|]). constructor.
  - exists w'. split; [exact Hret|]. split.
    + rewrite Hcount. reflexivity.
    + rewrite Hdate. reflexivity.
Defined.

(** Two pulls of the tag latest of repository 7, the later one first. *)
Lemma tag_pulls_counted_witness :
  exists w',
    for_log_entry_in_log_batch no_faults [latest_at_200; latest_at_100] (empty_world 1000)
    = Return tt w'
    /\ tag_count w' 7 "latest" = 2
    /\ last_tag_pull_date <$> tagpullstatistics w' !! (7, "latest") = Some 100.
Proof.
  destruct (tag_pulls_counted_in_order no_faults 7 "latest" [latest_at_200; latest_at_100]
              (fun _ => eq_refl))
    with (w := empty_world 1000) as (w' & Hret & Hcount & Hdate).
  - repeat (constructor;
            [split; [reflexivity|split; [reflexivity|exists sha_abc; reflexivity]]|]).
    constructor.
  - exists w'. split; [exact Hret|]. split.
    + rewrite Hcount. reflexivity.
    + apply (Hdate latest_at_100). reflexivity.
Defined.

(** A pull of the tag v1.0 whose event carries no digest, while the tag
    is bound to sha256:abc. *)
Lemma resolved_tag_pull_witness :
  exists w',
    _process_single_log no_faults (tag_pull 1 100 7 "v1.0" None) scenario_world
    = Return tt w'
    /\ tag_count w' 7 "v1.0" = 1
    /\ manifest_count w' 7 sha_abc = 1
    /\ current_manifest_digest <$> tagpullstatistics w' !! (7, "v1.0") = Some sha_abc.
Proof.
  destruct (resolved_tag_pull_counts_tag_and_manifest no_faults
              (tag_pull 1 100 7 "v1.0" None) 7 "v1.0" sha_abc scenario_world
              (fun _ => eq_refl) eq_refl eq_refl)
    as (w' & Hret & Htag & Hmanifest & Hdigest & _).
  - right. split; [reflexivity|].
    exists {| tag_repository := 7; tag_name_of := "v1.0";
              lifetime_end_ms := None; tag_manifest_digest := sha_abc |}.
    split; reflexivity.
  - exists w'. split; [exact Hret|]. split; [|split].
    + rewrite Htag. reflexivity.
    + rewrite Hmanifest. reflexivity.
    + exact Hdigest.
Defined.

(** A batch of an event with the repository id 0 and an event without
    metadata. *)
Lemma skipped_events_witness :
  world_of (_process_log_batch no_faults [pull_without_repository; pull_without_metadata]
              (empty_world 1000))
  = set_transactions 1 (empty_world 1000).
Proof.
  apply (skipped_events_write_nothing no_faults
           [pull_without_repository; pull_without_metadata] (empty_world 1000)).
  constructor; [left; reflexivity|].
  constructor; [right; split; [discriminate|split; reflexivity]|].
  constructor.
Defined.

(** A batch of one pull by digest, processed while every write to
    ManifestPullStatistics fails. *)
Lemma digest_pulls_witness :
  tagpullstatistics
    (world_of (_process_log_batch manifest_write_fails [digest_pull 3 300 7 sha_abc]
                 (empty_world 1000)))
  = tagpullstatistics (empty_world 1000).
Proof.
  apply (digest_pulls_leave_tag_statistics manifest_write_fails
           [digest_pull 3 300 7 sha_abc] (empty_world 1000)).
  constructor; [reflexivity|]. constructor.
Defined.

(** The second cycle over the audit log of one pull, 1000 seconds after
    the first: the row of the tag latest is kept and its count is not
    smaller. *)
Lemma statistics_grow_witness :
  exists row',
    tagpullstatistics after_second_pass !! (7, "latest") = Some row'
    /\ 1 <= tag_pull_count row'.
Proof.
  assert (Hreach : reachable 300 1000 24 no_faults logs_model_down example_json_loads
                     after_first_pass after_second_pass).
  { apply (reachable_pass 300 1000 24 no_faults logs_model_down example_json_loads
             after_first_pass (set_clock 2000 after_first_pass)).
    apply (reachable_surroundings 300 1000 24 no_faults logs_model_down example_json_loads
             after_first_pass after_first_pass (set_clock 2000 after_first_pass));
      [apply reachable_start|vm_compute; reflexivity..]. }
  destruct (statistics_rows_kept_and_counts_grow 300 1000 24 no_faults logs_model_down
              example_json_loads after_first_pass after_second_pass Hreach)
    as [Htags _].
  apply (Htags (7, "latest")
           {| tag_pull_count := 1; last_tag_pull_date := 100;
              current_manifest_digest := sha_abc; tag_created := 1000;
              tag_updated := 100 |}).
  vm_compute. reflexivity.
Defined.

(** After the first cycle over the audit log of one pull, the row of the
    tag latest points to a digest that has its manifest row. *)
Lemma tag_rows_keep_their_manifest_row_witness :
  is_Some (manifestpullstatistics after_first_pass !! (7, sha_abc)).
Proof.
  apply (tag_rows_keep_their_manifest_row 300 1000 24 no_faults logs_model_down
           example_json_loads (world_one_pull 1000) after_first_pass
           (fun _ _ => eq_refl) (fun _ _ => eq_refl)
           (reachable_pass 300 1000 24 no_faults logs_model_down example_json_loads
              (world_one_pull 1000) (world_one_pull 1000)
              (reachable_start 300 1000 24 no_faults logs_model_down example_json_loads
                 (world_one_pull 1000))))
    with (r := 7) (t := "latest")
         (row := {| tag_pull_count := 1; last_tag_pull_date := 100;
                    current_manifest_digest := sha_abc; tag_created := 1000;
                    tag_updated := 100 |}).
  - intros r t row Hrow. vm_compute in Hrow. discriminate.
  - vm_compute. reflexivity.
Defined.

(** A pass from the watermark 0 over two events, at times 100 and 200. *)
Lemma checkpoint_row_witness :
  pullstatisticsprocessingstate
    (world_of (_process_pull_logs 1000 24 no_faults
                 (logs_model_returns [latest_at_100; latest_at_200]) example_json_loads
                 (world_with_checkpoint 1000 0)))
  !! WORKER_ID
  = Some {| last_processed_datetime := 200;
            last_processed_log_id := None;
            logs_processed_count := 2 |}.
Proof.
  apply (checkpoint_row_after_a_pass 1000 24 no_faults
           (logs_model_returns [latest_at_100; latest_at_200]) example_json_loads
           (world_with_checkpoint 1000 0)
           {| last_processed_datetime := 0;
              last_processed_log_id := None;
              logs_processed_count := 0 |}
           (world_with_checkpoint 1000 0)
           [latest_at_100; latest_at_200]
           (logged INFO "Processing pull logs from %s to %s" [ArgZ 0; ArgZ 1000]
              (world_with_checkpoint 1000 0))).
  - reflexivity.
  - reflexivity.
  - discriminate.
  - vm_compute. reflexivity.
Defined.

(** A pass over three events in batches of two. *)
Lemma one_transaction_per_batch_witness :
  transactions
    (world_of (_process_pull_logs 2 24 no_faults
                 (logs_model_returns [latest_at_100; v1_at_200; latest_at_200])
                 example_json_loads (world_with_checkpoint 1000 0)))
  = 2%nat.
Proof.
  apply (a_pass_opens_one_transaction_per_batch 2 24 no_faults
           (logs_model_returns [latest_at_100; v1_at_200; latest_at_200])
           example_json_loads
           (world_with_checkpoint 1000 0)
           {| last_processed_datetime := 0;
              last_processed_log_id := None;
              logs_processed_count := 0 |}
           (world_with_checkpoint 1000 0)
           [latest_at_100; v1_at_200; latest_at_200]
           (logged INFO "Processing pull logs from %s to %s" [ArgZ 0; ArgZ 1000]
              (world_with_checkpoint 1000 0))).
  - reflexivity.
  - reflexivity.
  - vm_compute. reflexivity.
Defined.

(** A pass from the watermark 0 while neither the logs model nor the audit
    log can be read. *)
Lemma unavailable_source_witness :
  stats_tables
    (world_of (_process_pull_logs 1000 24 audit_log_down logs_model_down
                 example_json_loads (world_with_checkpoint 1000 0)))
  = stats_tables (world_with_checkpoint 1000 0)
  /\ watermark
       (world_of (_process_pull_logs 1000 24 audit_log_down logs_model_down
                    example_json_loads (world_with_checkpoint 1000 0)))
     = Some 0.
Proof.
  destruct (unavailable_source_changes_nothing 1000 24 audit_log_down logs_model_down
              example_json_loads (world_with_checkpoint 1000 0)
              {| last_processed_datetime := 0;
                 last_processed_log_id := None;
                 logs_processed_count := 0 |}
              (world_with_checkpoint 1000 0)
              eq_refl (fun _ _ _ _ => eq_refl) eq_refl)
    as (Hpass & Htables & Hrow).
  rewrite Hpass. split; [exact Htables|].
  unfold watermark. cbn [world_of]. rewrite Hrow. reflexivity.
Defined.

(** The first call at time 100000 with a look-back of 24 hours, and a call
    at time 200000. *)
Lemma processing_state_witness :
  exists state w1,
    _get_processing_state 24 no_faults (empty_world 100000) = Return state w1
    /\ last_processed_datetime state = 13600
    /\ _get_processing_state 24 no_faults (set_clock 200000 w1)
       = Return state (set_clock 200000 w1).
Proof.
  destruct (processing_state_is_created_once 24 no_faults (empty_world 100000)
              eq_refl eq_refl)
    as (state & w1 & Hget & _ & Hlater & Hstate).
  exists state, w1. split; [exact Hget|]. split.
  - cbn in Hstate. rewrite Hstate. reflexivity.
  - apply Hlater.
Defined.

(** The tag endpoint of library/app after a first pull of the tag latest. *)
Lemma tag_endpoint_witness :
  get_tag_pull_statistics example_get_repository "library" "app" "latest"
    (world_of (_process_single_log no_faults latest_at_100 (empty_world 1000)))
  = Json {| tb_tag_name := "latest";
            tb_tag_pull_count := 1;
            tb_last_tag_pull_date := Some 100;
            tb_manifest_digest := Some sha_abc;
            tb_manifest_total_pull_count := 1;
            tb_manifest_last_pull_date := Some 100 |}.
Proof.
  apply (tag_endpoint_after_a_tag_pull no_faults example_get_repository latest_at_100
           7 "latest" sha_abc "library" "app" (empty_world 1000)
           (fun _ => eq_refl) eq_refl eq_refl eq_refl eq_refl).
Defined.

(** The tag endpoint of library/app after the first cycle over the audit
    log of one pull. *)
Lemma tag_endpoint_handles_witness :
  get_tag_pull_statistics example_get_repository "library" "app" "latest" after_first_pass
  = NotFound
  \/ exists body,
       get_tag_pull_statistics example_get_repository "library" "app" "latest"
         after_first_pass
       = Json body.
Proof.
  apply (tag_endpoint_handles_tracked_statistics 300 1000 24 no_faults logs_model_down
           example_json_loads example_get_repository (world_one_pull 1000)
           after_first_pass "library" "app" "latest"
           (fun _ _ => eq_refl) (fun _ _ => eq_refl)
           (reachable_pass 300 1000 24 no_faults logs_model_down example_json_loads
              (world_one_pull 1000) (world_one_pull 1000)
              (reachable_start 300 1000 24 no_faults logs_model_down example_json_loads
                 (world_one_pull 1000)))).
  intros r t row Hrow. vm_compute in Hrow. discriminate.
Defined.

(** The tag endpoint of library/app after a first pull of the tag latest
    whose manifest write failed. *)
Lemma tag_endpoint_fails_witness :
  get_tag_pull_statistics example_get_repository "library" "app" "latest"
    (world_of (for_log_entry_in_log_batch manifest_write_fails [latest_at_100]
                 (empty_world 1000)))
  = Unhandled "ManifestPullStatisticsDoesNotExist".
Proof.
  apply (tag_endpoint_fails_after_failed_manifest_write manifest_write_fails
           example_get_repository latest_at_100 7 "latest" sha_abc "library" "app"
           (empty_world 1000)
           eq_refl eq_refl eq_refl eq_refl eq_refl eq_refl eq_refl eq_refl).
Defined.

(** The manifest endpoint of library/app after the scenario of two tags
    on one manifest. *)
Lemma manifest_endpoint_witness :
  exists body,
    get_manifest_pull_statistics example_get_repository "library" "app" sha_abc
      after_scenario
    = Json body
    /\ mb_total_pull_count body = 3.
Proof.
  destruct (manifest_endpoint_lists_the_tags_of_the_digest example_get_repository
              after_scenario 7 "library" "app" sha_abc eq_refl)
    as (body & Hjson & Hcount & _).
  exists body. split; [exact Hjson|]. rewrite Hcount. vm_compute. reflexivity.
Defined.

(** The repository endpoint of library/app after the same scenario. *)
Lemma repository_endpoint_witness :
  exists body,
    get_repository_pull_statistics example_get_repository "library" "app" after_scenario
    = Json body
    /\ StronglySorted (fun a b => ts_last_tag_pull_date b <= ts_last_tag_pull_date a)
         (tag_statistics body)
    /\ StronglySorted (fun a b => ms_last_pull_date b <= ms_last_pull_date a)
         (manifest_statistics body).
Proof.
  destruct (repository_endpoint_lists_the_rows_of_the_repository example_get_repository
              after_scenario 7 "library" "app" eq_refl)
    as (body & Hjson & _ & Htags & _ & Hmanifests).
  exists body. split; [exact Hjson|]. split; [exact Htags|exact Hmanifests].
Defined.

(** Three events while every write to ManifestPullStatistics fails: two
    pulls of the tag latest around an event with null metadata. *)
Lemma tag_pulls_counted_whatever_else_fails_witness :
  tag_count
    (world_of (for_log_entry_in_log_batch manifest_write_fails
                 [latest_at_100; null_metadata_pull; latest_at_200] (empty_world 1000)))
    7 "latest"
  = 2.
Proof.
  rewrite (tag_pulls_counted_whatever_else_fails manifest_write_fails 7 "latest"
             [latest_at_100; null_metadata_pull; latest_at_200] (empty_world 1000)
             eq_refl eq_refl eq_refl).
  vm_compute. reflexivity.
Defined.

(** A pull of the tag latest, an event with null metadata, and a pull of
    the tag v1.0. *)
Lemma malformed_event_witness :
  _process_single_log no_faults null_metadata_pull (empty_world 1000)
  = Raise (AttributeError "get") (empty_world 1000)
  /\ exists w1,
       for_log_entry_in_log_batch no_faults [latest_at_100] (empty_world 1000)
       = Return tt w1
       /\ for_log_entry_in_log_batch no_faults
            ([latest_at_100] ++ null_metadata_pull :: [v1_at_200]) (empty_world 1000)
          = for_log_entry_in_log_batch no_faults [v1_at_200]
              (logged WARNING "Error processing log entry: %s" [] w1).
Proof.
  apply (malformed_event_is_logged_and_skipped no_faults null_metadata_pull 7
           [latest_at_100] [v1_at_200] (empty_world 1000)); reflexivity.
Defined.

(** Three events in batches of two: the first two make one batch. *)
Lemma first_events_make_one_batch_witness :
  for_log_entry_in_pull_logs 2 no_faults ([latest_at_100; v1_at_200] ++ [latest_at_200]) []
    0 None 0 (empty_world 1000)
  = (_process_log_batch no_faults [latest_at_100; v1_at_200];;
     for_log_entry_in_pull_logs 2 no_faults [latest_at_200] []
       (latest_datetime_of 0 [latest_at_100; v1_at_200]) None
       (0 + Z.of_nat (length [latest_at_100; v1_at_200]))) (empty_world 1000).
Proof.
  apply (first_events_make_one_batch 2 no_faults [latest_at_100; v1_at_200]
           [latest_at_200] 0 None 0 (empty_world 1000)).
  reflexivity.
Defined.
